(** * Agent Innovator Lab: the control-flow glue of the notebooks

    The notebooks compose third-party calls (chat models, retrievers,
    Azure evaluators, agents) with a few lines of Python that branch on
    their answers and wire LangGraph state machines.  This development
    embeds that glue:

    - every external call is an event answered by an oracle that threads
      an abstract world, so nothing is assumed about what a model says;
    - every call is appended to a log, so the number and the order of
      the calls a function makes can be stated;
    - a LangGraph [StateGraph] is its node table, its plain edges and its
      conditional edges (a router with a path map), run under a
      recursion limit that bounds the number of nodes entered;
    - a state is a record of the keys of its [TypedDict]; a node returns
      the keys it sets, and the graph writes them into the state
      (appending on [operator.add] channels);
    - [print] calls are left out: they decide nothing. *)

From Stdlib Require Import ZArith QArith String List Lia Bool.
From stdpp Require Import base option list strings pretty gmap.
From Equations Require Import Equations.

Local Open Scope string_scope.
Local Open Scope list_scope.

(** ** Python exceptions the glue can raise *)

Inductive Exn : Type :=
| KeyError (key : string)
| IndexError (what : string)
| ValidationError (value : string)
| GraphRecursionError.

Inductive Result (A : Type) : Type :=
| Ok (a : A)
| Raise (e : Exn).
Arguments Ok {A} a.
Arguments Raise {A} e.

(** ** External calls: a state-and-error monad over an oracle *)

Section Effects.
Context {World Call : Type} {Reply : Call -> Type}.

(** One entry of the call log: the call and the answer it got. *)
Definition Event : Type := {c : Call & Reply c}.

Record Sigma : Type := mkSigma { world : World; log : list Event }.

Definition M (A : Type) : Type := Sigma -> Result A * Sigma.

Definition ret {A} (a : A) : M A := fun σ => (Ok a, σ).

Definition bind {A B} (m : M A) (k : A -> M B) : M B :=
  fun σ => match m σ with
           | (Ok a, σ') => k a σ'
           | (Raise e, σ') => (Raise e, σ')
           end.

Definition raise {A} (e : Exn) : M A := fun σ => (Raise e, σ).

Variable oracle : forall c : Call, World -> Reply c * World.

(** [invoke c] performs the external call [c] once and logs it. *)
Definition invoke (c : Call) : M (Reply c) :=
  fun σ => let (r, w') := oracle c (world σ) in
           (Ok r, {| world := w'; log := log σ ++ [existT c r] |}).

Definition call_of (e : Event) : Call := projT1 e.

(** The calls [m] makes when started in [σ]. *)
Definition calls_made {A} (m : M A) (σ : Sigma) : list Call :=
  call_of <$> drop (length (log σ)) (log (snd (m σ))).
End Effects.

Arguments Event : clear implicits.
Arguments Sigma : clear implicits.
Arguments M : clear implicits.

Notation "'let*' x ':=' c 'in' k" := (bind c (fun x => k))
  (at level 10, x name, c at level 100, k at level 200, only parsing).
Notation "'let*' ' pat ':=' c 'in' k" :=
  (bind c (fun x => match x with pat => k end))
  (at level 10, pat pattern, c at level 100, k at level 200, only parsing).

(** ** LangGraph: [StateGraph], edges, conditional edges, runs *)

Definition START : string := "__start__".
Definition END : string := "__end__".

Section LangGraph.
Context {World Call : Type} {Reply : Call -> Type}.
(** [St] is the state schema, [U] the partial update a node returns and
    [merge] the channel-wise write of an update into the state. *)
Context {St U : Type} (merge : St -> U -> St).

Local Abbreviation M := (M World Call Reply).

Record StateGraph : Type := mkGraph {
  nodes : list (string * (St -> M U));
  edges : list (string * string);
  branches : list (string * ((St -> M string) * gmap string string))
}.

Definition empty_graph : StateGraph :=
  {| nodes := []; edges := []; branches := [] |}.

Definition add_node (name : string) (action : St -> M U) (g : StateGraph) :=
  {| nodes := nodes g ++ [(name, action)];
     edges := edges g; branches := branches g |}.

Definition add_edge (start_key end_key : string) (g : StateGraph) :=
  {| nodes := nodes g;
     edges := edges g ++ [(start_key, end_key)]; branches := branches g |}.

Definition add_conditional_edges (source : string) (path : St -> M string)
    (path_map : gmap string string) (g : StateGraph) :=
  {| nodes := nodes g; edges := edges g;
     branches := branches g ++ [(source, (path, path_map))] |}.

Fixpoint alist_lookup {A} (k : string) (l : list (string * A)) : option A :=
  match l with
  | [] => None
  | (k', a) :: l' => if String.eqb k k' then Some a else alist_lookup k l'
  end.

(** The node that runs after [n], decided on the state [n] left.  A
    plain edge is followed as it is; a conditional edge runs its router
    and looks the answer up in the path map (a missing key raises). *)
Definition next_node (g : StateGraph) (n : string) (s : St) : M string :=
  match alist_lookup n (edges g) with
  | Some target => ret target
  | None =>
      match alist_lookup n (branches g) with
      | Some (path, path_map) =>
          let* r := path s in
          match path_map !! r with
          | Some target => ret target
          | None => raise (KeyError r)
          end
      | None => ret END
      end
  end.

(** One super-step: run node [n] on [s], write its update, pick the
    successor.  [START] has edges but no action. *)
Definition step (g : StateGraph) (n : string) (s : St) : M (string * St) :=
  if String.eqb n START then
    let* t := next_node g n s in ret (t, s)
  else
    match alist_lookup n (nodes g) with
    | Some action =>
        let* u := action s in
        let s' := merge s u in
        let* t := next_node g n s' in ret (t, s')
    | None => raise (KeyError n)
    end.

(** [run_nodes g limit n s]: the super-steps from node [n] on, with the
    nodes entered and the final state.  Each node that runs takes one unit
    of [limit]; a node that is due when none is left raises. *)
Fixpoint run_nodes (g : StateGraph) (limit : nat) (n : string) (s : St)
    : M (list string * St) :=
  if String.eqb n END then ret ([n], s)
  else match limit with
       | O => raise GraphRecursionError
       | S k =>
           let* '(t, s') := step g n s in
           let* '(tr, s'') := run_nodes g k t s' in
           ret (n :: tr, s'')
       end.

(** [run g limit n s]: a run entered at [n] under the recursion limit
    [limit].  Writing the input and following the edges of [START] is not
    a super-step: the limit counts the nodes that run. *)
Definition run (g : StateGraph) (limit : nat) (n : string) (s : St)
    : M (list string * St) :=
  if String.eqb n START then
    let* '(t, s') := step g n s in
    let* '(tr, s'') := run_nodes g limit t s' in
    ret (n :: tr, s'')
  else run_nodes g limit n s.

(** The node about to run and the state after [k] super-steps from
    [(n, s)]. *)
Fixpoint iterate (g : StateGraph) (k : nat) (n : string) (s : St)
    : M (string * St) :=
  match k with
  | O => ret (n, s)
  | S k' => let* '(n', s') := iterate g k' n s in step g n' s'
  end.
End LangGraph.

Arguments StateGraph : clear implicits.

Notation "g |> f" := (f g) (at level 45, left associativity, only parsing).

(** ** Documents (langchain's [Document]) *)

Record Document : Type := mkDocument {
  page_content : string;
  metadata : list (string * string)
}.

(** ** Self-RAG with LLM graders (binary scores) *)

Module SelfRAG.

(** The chains of the notebook; invoking one is an external call. *)
Inductive Call : Type :=
| pdf_retriever (question : string)
| rag_chain (context : list Document) (question : string)
| retrieval_grader (question document : string)
| groundedness_grader (documents : list Document) (generation : string)
| answer_grader (question generation : string)
| question_rewriter (question : string).

(** [GradeDocuments], [Groundednesss] and [GradeAnswer] are three pydantic
    models with the same single field. *)
Record BinaryScore : Type := mkBinaryScore { binary_score : string }.

Definition Reply (c : Call) : Type :=
  match c with
  | pdf_retriever _ => list Document
  | rag_chain _ _ => string
  | retrieval_grader _ _ => BinaryScore
  | groundedness_grader _ _ => BinaryScore
  | answer_grader _ _ => BinaryScore
  | question_rewriter _ => string
  end.

(** What a logged call answered when it is a grader call. *)
Definition verdict (e : Event Call Reply) : option string :=
  match e with
  | existT c r =>
      match c return Reply c -> option string with
      | retrieval_grader _ _ => fun r => Some (binary_score r)
      | groundedness_grader _ _ => fun r => Some (binary_score r)
      | answer_grader _ _ => fun r => Some (binary_score r)
      | _ => fun _ => None
      end r
  end.

(** The documents whose grading call, in a log of one call per document,
    answered "yes". *)
Definition retained (docs : list Document) (evs : list (Event Call Reply))
    : list Document :=
  fst <$> filter (fun de => verdict (snd de) = Some "yes") (zip docs evs).

Record GraphState : Type := mkState {
  question : string;
  generation : string;
  documents : list Document
}.

(** The dict a node returns: the keys it sets. *)
Record Update : Type := mkUpdate {
  set_question : option string;
  set_generation : option string;
  set_documents : option (list Document)
}.

Definition merge (s : GraphState) (u : Update) : GraphState :=
  {| question := default (question s) (set_question u);
     generation := default (generation s) (set_generation u);
     documents := default (documents s) (set_documents u) |}.

Section Graph.
Context {World : Type} (oracle : forall c : Call, World -> Reply c * World).
Local Abbreviation M := (M World Call Reply).

Definition retrieve (state : GraphState) : M Update :=
  let question := question state in
  let* documents := invoke oracle (pdf_retriever question) in
  ret {| set_question := None; set_generation := None;
         set_documents := Some documents |}.

Definition generate (state : GraphState) : M Update :=
  let question := question state in
  let documents := documents state in
  let* generation := invoke oracle (rag_chain documents question) in
  ret {| set_question := None; set_generation := Some generation;
         set_documents := None |}.

(** The [for d in documents] loop, with its two accumulators. *)
Fixpoint grade_documents_loop (question : string) (documents : list Document)
    (filtered_docs : list Document) (relevant_doc_count : nat)
    : M (list Document * nat) :=
  match documents with
  | [] => ret (filtered_docs, relevant_doc_count)
  | d :: rest =>
      let* score := invoke oracle (retrieval_grader question (page_content d)) in
      let grade := binary_score score in
      if String.eqb grade "yes" then
        grade_documents_loop question rest (filtered_docs ++ [d])
                             (relevant_doc_count + 1)
      else
        grade_documents_loop question rest filtered_docs relevant_doc_count
  end.

Definition grade_documents (state : GraphState) : M Update :=
  let question := question state in
  let documents := documents state in
  let* '(filtered_docs, _) := grade_documents_loop question documents [] 0 in
  ret {| set_question := None; set_generation := None;
         set_documents := Some filtered_docs |}.

Definition rewrite_query (state : GraphState) : M Update :=
  let question := question state in
  let* better_question := invoke oracle (question_rewriter question) in
  ret {| set_question := Some better_question; set_generation := None;
         set_documents := None |}.

Definition decide_to_generate (state : GraphState) : M string :=
  let filtered_documents := documents state in
  match filtered_documents with
  | [] => ret "rewrite_query"
  | _ :: _ => ret "generate"
  end.

Definition grade_generation_v_documents_and_question (state : GraphState)
    : M string :=
  let question := question state in
  let documents := documents state in
  let generation := generation state in
  let* score := invoke oracle (groundedness_grader documents generation) in
  let grade := binary_score score in
  if String.eqb grade "yes" then
    let* score := invoke oracle (answer_grader question generation) in
    let grade := binary_score score in
    if String.eqb grade "yes" then ret "relevant" else ret "not relevant"
  else
    ret "hallucination".

Definition workflow : StateGraph World Call Reply GraphState Update :=
  empty_graph
  |> add_node "retrieve" retrieve
  |> add_node "grade_documents" grade_documents
  |> add_node "generate" generate
  |> add_node "rewrite_query" rewrite_query
  |> add_edge START "retrieve"
  |> add_edge "retrieve" "grade_documents"
  |> add_conditional_edges "grade_documents" decide_to_generate
       {[ "rewrite_query" := "rewrite_query"; "generate" := "generate" ]}
  |> add_edge "rewrite_query" "retrieve"
  |> add_conditional_edges "generate" grade_generation_v_documents_and_question
       {[ "hallucination" := "generate"; "relevant" := END;
          "not relevant" := "rewrite_query" ]}.

End Graph.
End SelfRAG.

(** ** Scores of the Azure AI evaluators

    An evaluator reports a Python float: a finite number on the 1-5 scale,
    or [nan] when the model's answer could not be read. *)

Inductive Score : Type :=
| Finite (q : Q)
| NaN.

(** Python's [grade >= k]: every comparison with [nan] is false. *)
Definition score_ge (grade : Score) (k : Z) : bool :=
  match grade with
  | Finite q => Qle_bool (inject_Z k) q
  | NaN => false
  end.

Definition score_lt (grade : Score) (k : Z) : bool :=
  match grade with
  | Finite q => negb (Qle_bool (inject_Z k) q)
  | NaN => false
  end.

(** [model_config]: the dict built from the environment. *)
Record ModelConfig : Type := mkModelConfig {
  azure_endpoint : option string;
  api_key : option string;
  azure_deployment : option string;
  api_version : option string;
  config_type : string
}.

(** The [context] argument is passed both as text ([format_docs]) and
    as the list of documents of the state. *)
Inductive ContextArg : Type :=
| ContextText (text : string)
| ContextDocs (docs : list Document).

(** ** Self-RAG graded by the Azure evaluators *)

Module AzureSelfRAG.

Inductive Call : Type :=
| pdf_retriever (question : string)
| rag_chain (context : list Document) (question : string)
| retrieval_grader (question document : string)
| GroundednessEvaluator (model_config : ModelConfig) (context : ContextArg)
    (response : string)
| RelevanceEvaluator (model_config : ModelConfig) (query response : string)
| question_rewriter (question : string).

Record GradeDocuments : Type := mkGradeDocuments { binary_score : string }.

(** The evaluators' result dicts, by the key the notebook reads. *)
Record GroundednessResult : Type := mkGroundedness {
  groundedness : Score;
  groundedness_reason : string
}.
Record RelevanceResult : Type := mkRelevance {
  relevance : Score;
  relevance_reason : string
}.

Definition Reply (c : Call) : Type :=
  match c with
  | pdf_retriever _ => list Document
  | rag_chain _ _ => string
  | retrieval_grader _ _ => GradeDocuments
  | GroundednessEvaluator _ _ _ => GroundednessResult
  | RelevanceEvaluator _ _ _ => RelevanceResult
  | question_rewriter _ => string
  end.

Record GraphState : Type := mkState {
  question : string;
  generation : string;
  documents : list Document
}.

Record Update : Type := mkUpdate {
  set_question : option string;
  set_generation : option string;
  set_documents : option (list Document)
}.

Definition merge (s : GraphState) (u : Update) : GraphState :=
  {| question := default (question s) (set_question u);
     generation := default (generation s) (set_generation u);
     documents := default (documents s) (set_documents u) |}.

Section Graph.
Context {World : Type} (oracle : forall c : Call, World -> Reply c * World).
Variable model_config : ModelConfig.
Local Abbreviation M := (M World Call Reply).

(** [GradeDocumentsEvaluator.__call__]: builds the grading chain and
    invokes it once. *)
Definition document_evaluator (question document : string) : M GradeDocuments :=
  let* results := invoke oracle (retrieval_grader question document) in
  ret results.

Definition get_groundedness_score (context : ContextArg) (response : string)
    : M GroundednessResult :=
  let groundedness_eval := GroundednessEvaluator model_config in
  let* groundedness_score := invoke oracle (groundedness_eval context response) in
  ret groundedness_score.

Definition get_answer_relevace_score (query response : string)
    : M RelevanceResult :=
  let relevance_eval := RelevanceEvaluator model_config in
  let* relevance_score := invoke oracle (relevance_eval query response) in
  ret relevance_score.

Definition retrieve (state : GraphState) : M Update :=
  let question := question state in
  let* documents := invoke oracle (pdf_retriever question) in
  ret {| set_question := None; set_generation := None;
         set_documents := Some documents |}.

Definition generate (state : GraphState) : M Update :=
  let question := question state in
  let documents := documents state in
  let* generation := invoke oracle (rag_chain documents question) in
  ret {| set_question := None; set_generation := Some generation;
         set_documents := None |}.

Fixpoint grade_documents_loop (question : string) (documents : list Document)
    (filtered_docs : list Document) (relevant_doc_count : nat)
    : M (list Document * nat) :=
  match documents with
  | [] => ret (filtered_docs, relevant_doc_count)
  | d :: rest =>
      let* score := document_evaluator question (page_content d) in
      let grade := binary_score score in
      if String.eqb grade "yes" then
        grade_documents_loop question rest (filtered_docs ++ [d])
                             (relevant_doc_count + 1)
      else
        grade_documents_loop question rest filtered_docs relevant_doc_count
  end.

Definition grade_documents (state : GraphState) : M Update :=
  let question := question state in
  let documents := documents state in
  let* '(filtered_docs, _) := grade_documents_loop question documents [] 0 in
  ret {| set_question := None; set_generation := None;
         set_documents := Some filtered_docs |}.

Definition rewrite_query (state : GraphState) : M Update :=
  let question := question state in
  let* better_question := invoke oracle (question_rewriter question) in
  ret {| set_question := Some better_question; set_generation := None;
         set_documents := None |}.

Definition decide_to_generate (state : GraphState) : M string :=
  let filtered_documents := documents state in
  match filtered_documents with
  | [] => ret "rewrite_query"
  | _ :: _ => ret "generate"
  end.

Definition grade_generation_v_documents_and_question (state : GraphState)
    : M string :=
  let question := question state in
  let documents := documents state in
  let generation := generation state in
  let* groundedness_score :=
    get_groundedness_score (ContextDocs documents) generation in
  let grade := groundedness groundedness_score in
  if score_ge grade 4 then
    let* relevance_score := get_answer_relevace_score question generation in
    let grade := relevance relevance_score in
    if score_ge grade 4 then ret "relevant" else ret "not relevant"
  else
    ret "hallucination".

Definition workflow : StateGraph World Call Reply GraphState Update :=
  empty_graph
  |> add_node "retrieve" retrieve
  |> add_node "grade_documents" grade_documents
  |> add_node "generate" generate
  |> add_node "rewrite_query" rewrite_query
  |> add_edge START "retrieve"
  |> add_edge "retrieve" "grade_documents"
  |> add_conditional_edges "grade_documents" decide_to_generate
       {[ "rewrite_query" := "rewrite_query"; "generate" := "generate" ]}
  |> add_edge "rewrite_query" "retrieve"
  |> add_conditional_edges "generate" grade_generation_v_documents_and_question
       {[ "hallucination" := "generate"; "relevant" := END;
          "not relevant" := "rewrite_query" ]}.

End Graph.
End AzureSelfRAG.

(** ** Corrective RAG: web search when no document is relevant *)

Definition newline : string := String (Ascii.ascii_of_nat 10) EmptyString.

Module CorrectiveRAG.

Record WebResult : Type := mkWebResult { formatted : string; content : string }.

Inductive Call : Type :=
| pdf_retriever (question : string)
| rag_chain (context : list Document) (question : string)
| retrieval_grader (question document : string)
| question_rewriter (question : string)
| web_search_tool (query : string).

Record GradeDocuments : Type := mkGradeDocuments { binary_score : string }.

Definition Reply (c : Call) : Type :=
  match c with
  | pdf_retriever _ => list Document
  | rag_chain _ _ => string
  | retrieval_grader _ _ => GradeDocuments
  | question_rewriter _ => string
  | web_search_tool _ => list WebResult
  end.

(** What a logged call answered when it is a grader call. *)
Definition verdict (e : Event Call Reply) : option string :=
  match e with
  | existT c r =>
      match c return Reply c -> option string with
      | retrieval_grader _ _ => fun r => Some (binary_score r)
      | _ => fun _ => None
      end r
  end.

(** The documents whose grading call, in a log of one call per document,
    answered "yes". *)
Definition retained (docs : list Document) (evs : list (Event Call Reply))
    : list Document :=
  fst <$> filter (fun de => verdict (snd de) = Some "yes") (zip docs evs).

Definition WEB_SEARCH_FORMAT_OUTPUT : bool := true.

Record GraphState : Type := mkState {
  question : string;
  generation : string;
  web_search : string;
  documents : list Document
}.

Record Update : Type := mkUpdate {
  set_question : option string;
  set_generation : option string;
  set_web_search : option string;
  set_documents : option (list Document)
}.

Definition merge (s : GraphState) (u : Update) : GraphState :=
  {| question := default (question s) (set_question u);
     generation := default (generation s) (set_generation u);
     web_search := default (web_search s) (set_web_search u);
     documents := default (documents s) (set_documents u) |}.

Section Graph.
Context {World : Type} (oracle : forall c : Call, World -> Reply c * World).
Local Abbreviation M := (M World Call Reply).

Definition document_evaluator (question document : string) : M GradeDocuments :=
  let* results := invoke oracle (retrieval_grader question document) in
  ret results.

Definition retrieve (state : GraphState) : M Update :=
  let question := question state in
  let* documents := invoke oracle (pdf_retriever question) in
  ret {| set_question := None; set_generation := None;
         set_web_search := None; set_documents := Some documents |}.

Definition generate (state : GraphState) : M Update :=
  let question := question state in
  let documents := documents state in
  let* generation := invoke oracle (rag_chain documents question) in
  ret {| set_question := None; set_generation := Some generation;
         set_web_search := None; set_documents := None |}.

Fixpoint grade_documents_loop (question : string) (documents : list Document)
    (filtered_docs : list Document) (relevant_doc_count : nat)
    : M (list Document * nat) :=
  match documents with
  | [] => ret (filtered_docs, relevant_doc_count)
  | d :: rest =>
      let* score := document_evaluator question (page_content d) in
      let grade := binary_score score in
      if String.eqb grade "yes" then
        grade_documents_loop question rest (filtered_docs ++ [d])
                             (relevant_doc_count + 1)
      else
        grade_documents_loop question rest filtered_docs relevant_doc_count
  end.

Definition grade_documents (state : GraphState) : M Update :=
  let question := question state in
  let documents := documents state in
  let* '(filtered_docs, relevant_doc_count) :=
    grade_documents_loop question documents [] 0 in
  let web_search := if Nat.eqb relevant_doc_count 0 then "Yes" else "No" in
  ret {| set_question := None; set_generation := None;
         set_web_search := Some web_search;
         set_documents := Some filtered_docs |}.

Definition rewrite_query (state : GraphState) : M Update :=
  let question := question state in
  let* better_question := invoke oracle (question_rewriter question) in
  ret {| set_question := Some better_question; set_generation := None;
         set_web_search := None; set_documents := None |}.

Definition web_search_node_action (state : GraphState) : M Update :=
  let question := question state in
  let documents := documents state in
  let* docs := invoke oracle (web_search_tool question) in
  let web_results :=
    if WEB_SEARCH_FORMAT_OUTPUT then String.concat newline (formatted <$> docs)
    else String.concat newline (content <$> docs) in
  let web_results := {| page_content := web_results; metadata := [] |} in
  let documents := documents ++ [web_results] in
  ret {| set_question := None; set_generation := None;
         set_web_search := None; set_documents := Some documents |}.

Definition decide_to_generate (state : GraphState) : M string :=
  let web_search := web_search state in
  if String.eqb web_search "Yes" then ret "rewrite_query" else ret "generate".

Definition workflow : StateGraph World Call Reply GraphState Update :=
  empty_graph
  |> add_node "retrieve" retrieve
  |> add_node "grade_documents" grade_documents
  |> add_node "generate" generate
  |> add_node "rewrite_query" rewrite_query
  |> add_node "web_search_node" web_search_node_action
  |> add_edge START "retrieve"
  |> add_edge "retrieve" "grade_documents"
  |> add_conditional_edges "grade_documents" decide_to_generate
       {[ "rewrite_query" := "rewrite_query"; "generate" := "generate" ]}
  |> add_edge "rewrite_query" "web_search_node"
  |> add_edge "web_search_node" "generate"
  |> add_edge "generate" END.

End Graph.
End CorrectiveRAG.

(** ** Chat messages *)

Record BaseMessage : Type := mkMessage {
  msg_type : string;
  msg_content : string;
  msg_name : option string
}.

Definition HumanMessage (content : string) (name : option string) : BaseMessage :=
  {| msg_type := "human"; msg_content := content; msg_name := name |}.

(** Python's [l[-1]]. *)
Definition last_item {A} (what : string) (l : list A) : Result A :=
  match last l with
  | Some a => Ok a
  | None => Raise (IndexError what)
  end.

(** ** Multi-agent supervisor *)

Module Supervisor.

Definition members : list string := ["Researcher"; "Coder"].

Definition options_for_next : list string := ["FINISH"] ++ members.

Record AgentState : Type := mkState {
  messages : list BaseMessage;
  next : string
}.

(** [messages] is an [operator.add] channel: an update appends to it. *)
Record Update : Type := mkUpdate {
  add_messages : list BaseMessage;
  set_next : option string
}.

Definition merge (s : AgentState) (u : Update) : AgentState :=
  {| messages := messages s ++ add_messages u;
     next := default (next s) (set_next u) |}.

Inductive Agent : Type := research_agent | coder_agent.

Inductive Call : Type :=
| supervisor_chain (state : AgentState)
| agent_invoke (agent : Agent) (state : AgentState).

(** The supervisor chain answers with the text the model put in the
    [next] field; an agent answers with its message list. *)
Definition Reply (c : Call) : Type :=
  match c with
  | supervisor_chain _ => string
  | agent_invoke _ _ => list BaseMessage
  end.

(** [RouteResponse]: [next: Literal[*options_for_next]]. *)
Record RouteResponse : Type := mkRouteResponse { route_next : string }.

(** pydantic's validation of the literal field. *)
Definition RouteResponse_validate (value : string) : Result RouteResponse :=
  if existsb (String.eqb value) options_for_next
  then Ok {| route_next := value |}
  else Raise (ValidationError value).

(** The node sequences in which the supervisor alone hands over: each
    member is entered from [Supervisor] and followed by [Supervisor]. *)
Inductive supervised : list string -> Prop :=
| supervised_finish : supervised ["Supervisor"; END]
| supervised_member member tr :
    member ∈ members -> supervised tr ->
    supervised ("Supervisor" :: member :: tr).

Section Graph.
Context {World : Type} (oracle : forall c : Call, World -> Reply c * World).
Local Abbreviation M := (M World Call Reply).

Definition supervisor_agent (state : AgentState) : M RouteResponse :=
  let* value := invoke oracle (supervisor_chain state) in
  match RouteResponse_validate value with
  | Ok response => ret response
  | Raise e => raise e
  end.

(** The supervisor node returns the model itself; the graph writes its
    field into the channel of the same name. *)
Definition supervisor_node (state : AgentState) : M Update :=
  let* response := supervisor_agent state in
  ret {| add_messages := []; set_next := Some (route_next response) |}.

Definition agent_node (agent : Agent) (name : string) (state : AgentState)
    : M Update :=
  let* agent_response := invoke oracle (agent_invoke agent state) in
  match last_item "messages[-1]" agent_response with
  | Ok m =>
      ret {| add_messages := [HumanMessage (msg_content m) (Some name)];
             set_next := Some "Supervisor" |}
  | Raise e => raise e
  end.

Definition research_node : AgentState -> M Update :=
  agent_node research_agent "Researcher".

Definition coder_node : AgentState -> M Update :=
  agent_node coder_agent "Coder".

Definition get_next (state : AgentState) : M string :=
  ret (next state).

Definition conditional_map : gmap string string :=
  <[ "FINISH" := END ]> (list_to_map ((fun k => (k, k)) <$> members)).

Definition workflow : StateGraph World Call Reply AgentState Update :=
  let workflow :=
    empty_graph
    |> add_node "Researcher" research_node
    |> add_node "Coder" coder_node
    |> add_node "Supervisor" supervisor_node
    |> add_edge START "Supervisor"
    |> add_conditional_edges "Supervisor" get_next conditional_map in
  foldl (fun workflow member => add_edge member "Supervisor" workflow)
        workflow members.

End Graph.
End Supervisor.

(** ** Plan-and-execute *)

Module PlanExecute.

Record Plan : Type := mkPlan { steps : list string }.

Record Response : Type := mkResponse { response_text : string }.

(** [Act.action : Union[Response, Plan]]. *)
Inductive Action : Type :=
| ActResponse (r : Response)
| ActPlan (p : Plan).

Record Act : Type := mkAct { action : Action }.

(** The state is a dict: [plan] and [response] are absent until a node
    writes them; [past_steps] is an [operator.add] channel. *)
Record PlanExecute : Type := mkState {
  input : string;
  plan : option (list string);
  past_steps : list (string * string);
  response : option string
}.

Record Update : Type := mkUpdate {
  set_plan : option (list string);
  add_past_steps : list (string * string);
  set_response : option string
}.

Definition merge (s : PlanExecute) (u : Update) : PlanExecute :=
  {| input := input s;
     plan := match set_plan u with Some p => Some p | None => plan s end;
     past_steps := past_steps s ++ add_past_steps u;
     response := match set_response u with
                 | Some r => Some r
                 | None => response s
                 end |}.

Inductive Call : Type :=
| planner (messages : list (string * string))
| agent_executor (messages : list (string * string))
| replanner (state : PlanExecute)
| final_report (input past_steps : string).

Definition Reply (c : Call) : Type :=
  match c with
  | planner _ => Plan
  | agent_executor _ => list BaseMessage
  | replanner _ => Act
  | final_report _ _ => string
  end.

(** [f"{i+1}. {step}"] over [enumerate(plan)], from index [i]. *)
Fixpoint numbered (i : nat) (plan : list string) : list string :=
  match plan with
  | [] => []
  | step :: rest => (pretty (i + 1) +:+ ". " +:+ step) :: numbered (i + 1) rest
  end.

Definition task_format (plan_str task : string) : string :=
  "For the following plan:" +:+ newline +:+ plan_str +:+ newline +:+ newline
  +:+ "You are tasked with executing [step 1. " +:+ task +:+ "].".

Section Graph.
Context {World : Type} (oracle : forall c : Call, World -> Reply c * World).
Local Abbreviation M := (M World Call Reply).

Definition plan_step (state : PlanExecute) : M Update :=
  let* plan := invoke oracle (planner [("user", input state)]) in
  ret {| set_plan := Some (steps plan); add_past_steps := [];
         set_response := None |}.

Definition execute_step (state : PlanExecute) : M Update :=
  match plan state with
  | None => raise (KeyError "plan")
  | Some plan =>
      let plan_str := String.concat newline (numbered 0 plan) in
      match plan with
      | [] => raise (IndexError "plan[0]")
      | task :: _ =>
          let task_formatted := task_format plan_str task in
          let* agent_response :=
            invoke oracle (agent_executor [("user", task_formatted)]) in
          match last_item "messages[-1]" agent_response with
          | Ok m =>
              ret {| set_plan := None;
                     add_past_steps := [(task, msg_content m)];
                     set_response := None |}
          | Raise e => raise e
          end
      end
  end.

Definition replan_step (state : PlanExecute) : M Update :=
  let* output := invoke oracle (replanner state) in
  match action output with
  | ActResponse r =>
      ret {| set_plan := None; add_past_steps := [];
             set_response := Some (response_text r) |}
  | ActPlan p =>
      let next_plan := steps p in
      if Nat.eqb (length next_plan) 0 then
        ret {| set_plan := None; add_past_steps := [];
               set_response := Some "No more steps needed." |}
      else
        ret {| set_plan := Some next_plan; add_past_steps := [];
               set_response := None |}
  end.

(** Python's truth value of a [str]. *)
Definition truthy (s : string) : bool := negb (String.eqb s "").

Definition should_end (state : PlanExecute) : M string :=
  match response state with
  | Some r => if truthy r then ret "final_report" else ret "execute"
  | None => ret "execute"
  end.

Definition report_entry (past_step : string * string) : string :=
  "Question: " +:+ fst past_step +:+ newline +:+ newline
  +:+ "Answer: " +:+ snd past_step +:+ newline +:+ newline +:+ "####".

Definition generate_final_report (state : PlanExecute) : M Update :=
  let past_steps :=
    String.concat (newline +:+ newline) (report_entry <$> past_steps state) in
  let* response := invoke oracle (final_report (input state) past_steps) in
  ret {| set_plan := None; add_past_steps := [];
         set_response := Some response |}.

Definition workflow : StateGraph World Call Reply PlanExecute Update :=
  empty_graph
  |> add_node "planner" plan_step
  |> add_node "execute" execute_step
  |> add_node "replan" replan_step
  |> add_node "final_report" generate_final_report
  |> add_edge START "planner"
  |> add_edge "planner" "execute"
  |> add_edge "execute" "replan"
  |> add_edge "final_report" END
  |> add_conditional_edges "replan" should_end
       {[ "execute" := "execute"; "final_report" := "final_report" ]}.

End Graph.
End PlanExecute.

(** ** Cloud evaluation: polling the run status *)

Module CloudEvaluation.

(** The progress bar: [tqdm(total=3)] starts with [n = 0]. *)
Record tqdm : Type := mkTqdm { total : nat; n : nat }.

Definition update (k : nat) (pbar : tqdm) : tqdm :=
  {| total := total pbar; n := n pbar + k |}.

Record Evaluation : Type := mkEvaluation { status : string }.

Inductive Call : Type :=
| evaluations_get (evaluation_response_id : string)
| sleep (seconds : nat).

Definition Reply (c : Call) : Type :=
  match c with
  | evaluations_get _ => Evaluation
  | sleep _ => unit
  end.

Definition is_get (c : Call) : bool :=
  match c with evaluations_get _ => true | sleep _ => false end.

Definition terminal (status : string) : bool :=
  String.eqb status "Completed" || String.eqb status "Failed".

(** [while pbar.n < 3: pbar.update(1)]; the distance to 3 decreases. *)
Equations fill (pbar : tqdm) : tqdm by wf (3 - n pbar) lt :=
  fill pbar with lt_dec (n pbar) 3 := {
    | left _ => fill (update 1 pbar)
    | right _ => pbar }.
Next Obligation. simpl. lia. Qed.

Section Monitor.
Context {World : Type} (oracle : forall c : Call, World -> Reply c * World).
Local Abbreviation M := (M World Call Reply).

(** The polling loop; [None] when [fuel] iterations did not reach a
    terminal status. *)
Fixpoint poll (fuel : nat) (evaluation_response_id : string)
    (status : string) (pbar : tqdm) : M (option tqdm) :=
  if negb (String.eqb status "Completed") && negb (String.eqb status "Failed")
  then
    match fuel with
    | O => ret None
    | S fuel' =>
        let pbar :=
          if String.eqb status "Running" && Nat.ltb (n pbar) 2
          then update 1 pbar else pbar in
        let* _ := invoke oracle (sleep 10) in
        let* e := invoke oracle (evaluations_get evaluation_response_id) in
        poll fuel' evaluation_response_id (CloudEvaluation.status e) pbar
    end
  else ret (Some pbar).

(** [monitor_status] returns nothing in Python; here it returns the
    progress bar as it is when the [with] block is left. *)
Definition monitor_status (fuel : nat) (evaluation_response_id : string)
    : M (option tqdm) :=
  let pbar := {| total := 3; n := 0 |} in
  let* e := invoke oracle (evaluations_get evaluation_response_id) in
  let status := status e in
  let pbar := if String.eqb status "Queued" then update 1 pbar else pbar in
  let* polled := poll fuel evaluation_response_id status pbar in
  match polled with
  | None => ret None
  | Some pbar => ret (Some (fill pbar))
  end.

(** The status on hand and the world after [k] more rounds of the loop
    (ten seconds of sleep, then a request). *)
Fixpoint rounds (evaluation_response_id : string) (k : nat)
    (status : string) (w : World) : string * World :=
  match k with
  | O => (status, w)
  | S k' =>
      let (_, w1) := oracle (sleep 10) w in
      let (e, w2) := oracle (evaluations_get evaluation_response_id) w1 in
      rounds evaluation_response_id k' (CloudEvaluation.status e) w2
  end.

(** The status the [k]-th request reports ([k = 0] is the first one),
    with the world it leaves. *)
Definition observe (evaluation_response_id : string) (k : nat) (w : World)
    : string * World :=
  let (e, w') := oracle (evaluations_get evaluation_response_id) w in
  rounds evaluation_response_id k (status e) w'.

End Monitor.
End CloudEvaluation.

(** ** What performs a grading call *)

Module Graders.

(** [ChatPromptTemplate.from_messages]: the (role, template) pairs. *)
Record ChatPromptTemplate : Type := mkChatPromptTemplate {
  prompt_messages : list (string * string)
}.

(** The object a grading call is made on: an evaluator class imported
    from [azure.ai.evaluation] and built on a model configuration, or a
    chain [prompt | llm.with_structured_output(schema)] that a notebook
    cell builds from a prompt written in that cell. *)
Inductive Grader : Type :=
| SdkEvaluator (class : string) (model_config : ModelConfig)
| PromptChain (prompt : ChatPromptTemplate) (schema : string).


(** *** The grader cells of the Self-RAG notebook

    [1_basic-concept-with-sk.ipynb], lines 291-317 (retrieval), 407-430
    (groundedness) and 461-485 (relevance). *)

Module SelfRAGCells.

(** [system] and [grade_prompt] of the retrieval-grader cell. *)
Definition retrieval_system : string :=
  "You are a grader assessing relevance of a retrieved "
  +:+ "document to a user question. "
  +:+ newline
  +:+ " "
  +:+ newline
  +:+ "    It does not need to be a stringent test. The goal is "
  +:+ "to filter out erroneous retrievals. "
  +:+ newline
  +:+ newline
  +:+ "    If the document contains keyword(s) or semantic "
  +:+ "meaning related to the user question, grade it as "
  +:+ "relevant. "
  +:+ newline
  +:+ newline
  +:+ "    Give a binary score 'yes' or 'no' score to indicate "
  +:+ "whether the document is relevant to the question.".

Definition grade_prompt : ChatPromptTemplate :=
  {| prompt_messages :=
       [("system", retrieval_system);
        ("human",
         "Retrieved document: "
         +:+ newline
         +:+ newline
         +:+ " {document} "
         +:+ newline
         +:+ newline
         +:+ " User question: {question}")] |}.

Definition retrieval_grader : Grader :=
  PromptChain grade_prompt "GradeDocuments".

(** [system] and [groundedness_checking_prompt] of the groundedness cell. *)
Definition groundedness_system : string :=
  "You are a grader assessing whether an LLM generation is "
  +:+ "grounded in / supported by a set of retrieved facts. "
  +:+ newline
  +:+ " "
  +:+ newline
  +:+ "Give a binary score 'yes' or 'no'. 'Yes' means that the "
  +:+ "answer is grounded in / supported by the set of facts.".

Definition groundedness_checking_prompt : ChatPromptTemplate :=
  {| prompt_messages :=
       [("system", groundedness_system);
        ("human",
         "Set of facts: "
         +:+ newline
         +:+ newline
         +:+ " {documents} "
         +:+ newline
         +:+ newline
         +:+ " LLM generation: {generation}")] |}.

Definition groundedness_grader : Grader :=
  PromptChain groundedness_checking_prompt "Groundednesss".

(** [system] and [answer_grader_prompt] of the relevance cell. *)
Definition answer_system : string :=
  "You are a grader assessing whether an answer addresses / "
  +:+ "resolves a question"
  +:+ newline
  +:+ "Give a binary score 'yes' or 'no'. Yes' means that the "
  +:+ "answer resolves the question.".

Definition answer_grader_prompt : ChatPromptTemplate :=
  {| prompt_messages :=
       [("system", answer_system);
        ("human",
         "User question: "
         +:+ newline
         +:+ newline
         +:+ " {question} "
         +:+ newline
         +:+ newline
         +:+ " LLM generation: {generation}")] |}.

Definition answer_grader : Grader :=
  PromptChain answer_grader_prompt "GradeAnswer".

(** The object each grading call of the Self-RAG graph is made on; the
    retriever, the generator and the rewriter grade nothing. *)
Definition performed_by (c : SelfRAG.Call) : option Grader :=
  match c with
  | SelfRAG.retrieval_grader _ _ => Some retrieval_grader
  | SelfRAG.groundedness_grader _ _ => Some groundedness_grader
  | SelfRAG.answer_grader _ _ => Some answer_grader
  | SelfRAG.pdf_retriever _ => None
  | SelfRAG.rag_chain _ _ => None
  | SelfRAG.question_rewriter _ => None
  end.

End SelfRAGCells.

(** *** The grader cells of the Azure-evaluator Self-RAG notebook

    Lines 1097-1132 ([GradeDocumentsEvaluator]), 1223-1233 and 1263-1271
    (the two SDK evaluators). *)

Module AzureCells.

(** [GradeDocumentsEvaluator.system] and the [grade_prompt] that
    [__call__] builds. *)
Definition GradeDocumentsEvaluator_system : string :=
  "You are a grader assessing relevance of a retrieved "
  +:+ "document to a user question. "
  +:+ newline
  +:+ " "
  +:+ newline
  +:+ "        If the document contains keyword(s) or semantic "
  +:+ "meaning related to the user question, grade it as "
  +:+ "relevant. "
  +:+ newline
  +:+ newline
  +:+ "        It does not need to be a stringent test. The goal "
  +:+ "is to filter out erroneous retrievals. "
  +:+ newline
  +:+ newline
  +:+ "        Give a binary score 'yes' or 'no' score to "
  +:+ "indicate whether the document is relevant to the question.".

Definition GradeDocumentsEvaluator_prompt : ChatPromptTemplate :=
  {| prompt_messages :=
       [("system", GradeDocumentsEvaluator_system);
        ("human",
         "Retrieved document: "
         +:+ newline
         +:+ newline
         +:+ " {document} "
         +:+ newline
         +:+ newline
         +:+ " User question: {question}")] |}.

Definition document_evaluator : Grader :=
  PromptChain GradeDocumentsEvaluator_prompt "GradeDocuments".

(** [GroundednessEvaluator(model_config)]. *)
Definition groundedness_eval (model_config : ModelConfig) : Grader :=
  SdkEvaluator "GroundednessEvaluator" model_config.

(** [RelevanceEvaluator(model_config)]. *)
Definition relevance_eval (model_config : ModelConfig) : Grader :=
  SdkEvaluator "RelevanceEvaluator" model_config.

Definition performed_by (c : AzureSelfRAG.Call) : option Grader :=
  match c with
  | AzureSelfRAG.retrieval_grader _ _ => Some document_evaluator
  | AzureSelfRAG.GroundednessEvaluator model_config _ _ =>
      Some (groundedness_eval model_config)
  | AzureSelfRAG.RelevanceEvaluator model_config _ _ =>
      Some (relevance_eval model_config)
  | AzureSelfRAG.pdf_retriever _ => None
  | AzureSelfRAG.rag_chain _ _ => None
  | AzureSelfRAG.question_rewriter _ => None
  end.

End AzureCells.
End Graders.

(** ** Adaptive RAG: route the question, then Self-RAG *)

Module AdaptiveRAG.

(** A raw result of the search tool ([format_output=False]). *)
Record WebResult : Type := mkWebResult { content : string; url : string }.

Inductive Call : Type :=
| question_router (question : string)
| pdf_retriever (question : string)
| rag_chain (context : list Document) (question : string)
| retrieval_grader (question document : string)
| groundedness_grader (documents : list Document) (generation : string)
| answer_grader (question generation : string)
| question_rewriter (question : string)
| web_search_tool (query : string).

Record BinaryScore : Type := mkBinaryScore { binary_score : string }.

(** The router chain answers with the text the model put in the
    [datasource] field. *)
Definition Reply (c : Call) : Type :=
  match c with
  | question_router _ => string
  | pdf_retriever _ => list Document
  | rag_chain _ _ => string
  | retrieval_grader _ _ => BinaryScore
  | groundedness_grader _ _ => BinaryScore
  | answer_grader _ _ => BinaryScore
  | question_rewriter _ => string
  | web_search_tool _ => list WebResult
  end.

(** [RouteQuery]: [datasource: Literal["vectorstore", "web_search"]]. *)
Record RouteQuery : Type := mkRouteQuery { datasource : string }.

Definition RouteQuery_validate (value : string) : Result RouteQuery :=
  if existsb (String.eqb value) ["vectorstore"; "web_search"]
  then Ok {| datasource := value |}
  else Raise (ValidationError value).

Record GraphState : Type := mkState {
  question : string;
  generation : string;
  documents : list Document
}.

Record Update : Type := mkUpdate {
  set_question : option string;
  set_generation : option string;
  set_documents : option (list Document)
}.

Definition merge (s : GraphState) (u : Update) : GraphState :=
  {| question := default (question s) (set_question u);
     generation := default (generation s) (set_generation u);
     documents := default (documents s) (set_documents u) |}.

Section Graph.
Context {World : Type} (oracle : forall c : Call, World -> Reply c * World).
Local Abbreviation M := (M World Call Reply).

Definition retrieve (state : GraphState) : M Update :=
  let question := question state in
  let* documents := invoke oracle (pdf_retriever question) in
  ret {| set_question := None; set_generation := None;
         set_documents := Some documents |}.

Definition generate (state : GraphState) : M Update :=
  let question := question state in
  let documents := documents state in
  let* generation := invoke oracle (rag_chain documents question) in
  ret {| set_question := None; set_generation := Some generation;
         set_documents := None |}.

Fixpoint grade_documents_loop (question : string) (documents : list Document)
    (filtered_docs : list Document) : M (list Document) :=
  match documents with
  | [] => ret filtered_docs
  | d :: rest =>
      let* score := invoke oracle (retrieval_grader question (page_content d)) in
      let grade := binary_score score in
      if String.eqb grade "yes" then
        grade_documents_loop question rest (filtered_docs ++ [d])
      else
        grade_documents_loop question rest filtered_docs
  end.

Definition grade_documents (state : GraphState) : M Update :=
  let question := question state in
  let documents := documents state in
  let* filtered_docs := grade_documents_loop question documents [] in
  ret {| set_question := None; set_generation := None;
         set_documents := Some filtered_docs |}.

Definition rewrite_query (state : GraphState) : M Update :=
  let question := question state in
  let* better_question := invoke oracle (question_rewriter question) in
  ret {| set_question := Some better_question; set_generation := None;
         set_documents := None |}.

Definition web_search (state : GraphState) : M Update :=
  let question := question state in
  let* web_results := invoke oracle (web_search_tool question) in
  let web_results_docs :=
    (fun web_result =>
       {| page_content := content web_result;
          metadata := [("source", url web_result)] |}) <$> web_results in
  ret {| set_question := None; set_generation := None;
         set_documents := Some web_results_docs |}.

(** The function ends without a [return] when the datasource is neither
    of the two: Python then returns [None]. *)
Definition route_question (state : GraphState) : M (option string) :=
  let question := question state in
  let* value := invoke oracle (question_router question) in
  match RouteQuery_validate value with
  | Raise e => raise e
  | Ok source =>
      if String.eqb (datasource source) "web_search" then
        ret (Some "web_search")
      else if String.eqb (datasource source) "vectorstore" then
        ret (Some "vectorstore")
      else ret None
  end.

(** A router's answer as a key of the path map; [None] is no key. *)
Definition as_key (path : GraphState -> M (option string))
    (state : GraphState) : M string :=
  let* r := path state in
  match r with
  | Some key => ret key
  | None => raise (KeyError "None")
  end.

Definition decide_to_generate (state : GraphState) : M string :=
  let filtered_documents := documents state in
  match filtered_documents with
  | [] => ret "rewrite_query"
  | _ :: _ => ret "generate"
  end.

Definition hallucination_check (state : GraphState) : M string :=
  let question := question state in
  let documents := documents state in
  let generation := generation state in
  let* score := invoke oracle (groundedness_grader documents generation) in
  let grade := binary_score score in
  if String.eqb grade "yes" then
    let* score := invoke oracle (answer_grader question generation) in
    let grade := binary_score score in
    if String.eqb grade "yes" then ret "relevant" else ret "not relevant"
  else
    ret "hallucination".

Definition workflow : StateGraph World Call Reply GraphState Update :=
  empty_graph
  |> add_node "web_search" web_search
  |> add_node "retrieve" retrieve
  |> add_node "grade_documents" grade_documents
  |> add_node "generate" generate
  |> add_node "rewrite_query" rewrite_query
  |> add_conditional_edges START (as_key route_question)
       {[ "web_search" := "web_search"; "vectorstore" := "retrieve" ]}
  |> add_edge "web_search" "generate"
  |> add_edge "retrieve" "grade_documents"
  |> add_conditional_edges "grade_documents" decide_to_generate
       {[ "rewrite_query" := "rewrite_query"; "generate" := "generate" ]}
  |> add_edge "rewrite_query" "retrieve"
  |> add_conditional_edges "generate" hallucination_check
       {[ "hallucination" := "generate"; "relevant" := END;
          "not relevant" := "rewrite_query" ]}.

End Graph.
End AdaptiveRAG.

(** ** Scripted worlds

    Concrete oracles for running the graphs: the world is the list of the
    answers still to be given, handed out in order. *)

Module Scenarios.

Definition pop {A} (default : A) (w : list A) : A * list A :=
  match w with
  | [] => (default, [])
  | a :: w' => (a, w')
  end.

Definition doc_a : Document := {| page_content := "alpha"; metadata := [] |}.
Definition doc_b : Document := {| page_content := "beta"; metadata := [] |}.

(** Self-RAG: the retriever finds two documents; graders and the
    generator answer from the script. *)
Definition selfrag_oracle (c : SelfRAG.Call)
    : list string -> SelfRAG.Reply c * list string :=
  match c return list string -> SelfRAG.Reply c * list string with
  | SelfRAG.pdf_retriever _ => fun w => ([doc_a; doc_b], w)
  | SelfRAG.rag_chain _ _ => fun w => pop "" w
  | SelfRAG.retrieval_grader _ _ =>
      fun w => let (a, w') := pop "no" w in (SelfRAG.mkBinaryScore a, w')
  | SelfRAG.groundedness_grader _ _ =>
      fun w => let (a, w') := pop "no" w in (SelfRAG.mkBinaryScore a, w')
  | SelfRAG.answer_grader _ _ =>
      fun w => let (a, w') := pop "no" w in (SelfRAG.mkBinaryScore a, w')
  | SelfRAG.question_rewriter q => fun w => (q, w)
  end.

Definition selfrag_state : SelfRAG.GraphState :=
  {| SelfRAG.question := "What is AutoGen?";
     SelfRAG.generation := "an agent framework";
     SelfRAG.documents := [doc_a; doc_b] |}.

(** Azure evaluators answering scores from the script. *)
Definition azure_oracle (c : AzureSelfRAG.Call)
    : list Score -> AzureSelfRAG.Reply c * list Score :=
  match c return list Score -> AzureSelfRAG.Reply c * list Score with
  | AzureSelfRAG.pdf_retriever _ => fun w => ([doc_a; doc_b], w)
  | AzureSelfRAG.rag_chain _ _ => fun w => ("an agent framework", w)
  | AzureSelfRAG.retrieval_grader _ _ =>
      fun w => (AzureSelfRAG.mkGradeDocuments "yes", w)
  | AzureSelfRAG.GroundednessEvaluator _ _ _ =>
      fun w => let (a, w') := pop NaN w in (AzureSelfRAG.mkGroundedness a "", w')
  | AzureSelfRAG.RelevanceEvaluator _ _ _ =>
      fun w => let (a, w') := pop NaN w in (AzureSelfRAG.mkRelevance a "", w')
  | AzureSelfRAG.question_rewriter q => fun w => (q, w)
  end.

Definition azure_config : ModelConfig :=
  {| azure_endpoint := None; api_key := None; azure_deployment := None;
     api_version := None; config_type := "azure_openai" |}.

Definition azure_state : AzureSelfRAG.GraphState :=
  {| AzureSelfRAG.question := "What is AutoGen?";
     AzureSelfRAG.generation := "an agent framework";
     AzureSelfRAG.documents := [doc_a; doc_b] |}.

(** The supervisor answers from the script; an agent answers one message. *)
Definition supervisor_oracle (c : Supervisor.Call)
    : list string -> Supervisor.Reply c * list string :=
  match c return list string -> Supervisor.Reply c * list string with
  | Supervisor.supervisor_chain _ => fun w => pop "FINISH" w
  | Supervisor.agent_invoke _ _ => fun w => ([HumanMessage "done" None], w)
  end.

Definition supervisor_state : Supervisor.AgentState :=
  {| Supervisor.messages := [HumanMessage "plot the stock price" None];
     Supervisor.next := "" |}.

(** The planner plans two steps; the replanner answers from the script. *)
Definition plan_oracle (c : PlanExecute.Call)
    : list PlanExecute.Action -> PlanExecute.Reply c * list PlanExecute.Action :=
  match c return list PlanExecute.Action
                 -> PlanExecute.Reply c * list PlanExecute.Action with
  | PlanExecute.planner _ =>
      fun w => (PlanExecute.mkPlan ["search"; "summarise"], w)
  | PlanExecute.agent_executor _ => fun w => ([HumanMessage "found" None], w)
  | PlanExecute.replanner _ =>
      fun w =>
        let (a, w') :=
          pop (PlanExecute.ActResponse (PlanExecute.mkResponse "done")) w in
        (PlanExecute.mkAct a, w')
  | PlanExecute.final_report _ _ => fun w => ("report", w)
  end.

Definition plan_state : PlanExecute.PlanExecute :=
  {| PlanExecute.input := "compare the frameworks";
     PlanExecute.plan := None;
     PlanExecute.past_steps := [];
     PlanExecute.response := None |}.

(** The evaluation service reports the scripted statuses, then
    "Completed". *)
Definition status_oracle (c : CloudEvaluation.Call)
    : list string -> CloudEvaluation.Reply c * list string :=
  match c return list string -> CloudEvaluation.Reply c * list string with
  | CloudEvaluation.evaluations_get _ =>
      fun w => let (a, w') := pop "Completed" w in
               (CloudEvaluation.mkEvaluation a, w')
  | CloudEvaluation.sleep _ => fun w => ((), w)
  end.

(** A retrieval grader that finds no document relevant, whatever it is
    asked. *)
Definition selfrag_never_relevant (c : SelfRAG.Call)
    : unit -> SelfRAG.Reply c * unit :=
  match c return unit -> SelfRAG.Reply c * unit with
  | SelfRAG.pdf_retriever _ => fun w => ([doc_a; doc_b], w)
  | SelfRAG.rag_chain _ _ => fun w => ("", w)
  | SelfRAG.retrieval_grader _ _ => fun w => (SelfRAG.mkBinaryScore "no", w)
  | SelfRAG.groundedness_grader _ _ =>
      fun w => (SelfRAG.mkBinaryScore "yes", w)
  | SelfRAG.answer_grader _ _ => fun w => (SelfRAG.mkBinaryScore "yes", w)
  | SelfRAG.question_rewriter q => fun w => (q, w)
  end.

(** Corrective RAG: graders answer from the script; the web finds two
    pages. *)
Definition crag_oracle (c : CorrectiveRAG.Call)
    : list string -> CorrectiveRAG.Reply c * list string :=
  match c return list string -> CorrectiveRAG.Reply c * list string with
  | CorrectiveRAG.pdf_retriever _ => fun w => ([doc_a; doc_b], w)
  | CorrectiveRAG.rag_chain _ _ => fun w => ("answer", w)
  | CorrectiveRAG.retrieval_grader _ _ =>
      fun w => let (a, w') := pop "no" w in
               (CorrectiveRAG.mkGradeDocuments a, w')
  | CorrectiveRAG.question_rewriter q => fun w => ("better", w)
  | CorrectiveRAG.web_search_tool _ =>
      fun w => ([CorrectiveRAG.mkWebResult "page one" "raw one";
                 CorrectiveRAG.mkWebResult "page two" "raw two"], w)
  end.

Definition crag_state : CorrectiveRAG.GraphState :=
  {| CorrectiveRAG.question := "What is AutoGen?";
     CorrectiveRAG.generation := "";
     CorrectiveRAG.web_search := "";
     CorrectiveRAG.documents := [] |}.

(** Adaptive RAG: the router and the graders answer from the script. *)
Definition adaptive_oracle (c : AdaptiveRAG.Call)
    : list string -> AdaptiveRAG.Reply c * list string :=
  match c return list string -> AdaptiveRAG.Reply c * list string with
  | AdaptiveRAG.question_router _ => fun w => pop "vectorstore" w
  | AdaptiveRAG.pdf_retriever _ => fun w => ([doc_a; doc_b], w)
  | AdaptiveRAG.rag_chain _ _ => fun w => ("answer", w)
  | AdaptiveRAG.retrieval_grader _ _ =>
      fun w => let (a, w') := pop "no" w in (AdaptiveRAG.mkBinaryScore a, w')
  | AdaptiveRAG.groundedness_grader _ _ =>
      fun w => let (a, w') := pop "no" w in (AdaptiveRAG.mkBinaryScore a, w')
  | AdaptiveRAG.answer_grader _ _ =>
      fun w => let (a, w') := pop "no" w in (AdaptiveRAG.mkBinaryScore a, w')
  | AdaptiveRAG.question_rewriter q => fun w => (q, w)
  | AdaptiveRAG.web_search_tool _ =>
      fun w => ([AdaptiveRAG.mkWebResult "Satya Nadella is the CEO"
                                         "https://example.com/ceo"], w)
  end.

Definition adaptive_state : AdaptiveRAG.GraphState :=
  {| AdaptiveRAG.question := "Who is Satya Nadella?";
     AdaptiveRAG.generation := "";
     AdaptiveRAG.documents := [] |}.

(** A planner that plans nothing. *)
Definition empty_plan_oracle (c : PlanExecute.Call)
    : unit -> PlanExecute.Reply c * unit :=
  match c return unit -> PlanExecute.Reply c * unit with
  | PlanExecute.planner _ => fun w => (PlanExecute.mkPlan [], w)
  | PlanExecute.agent_executor _ => fun w => ([HumanMessage "found" None], w)
  | PlanExecute.replanner _ =>
      fun w => (PlanExecute.mkAct
                  (PlanExecute.ActResponse (PlanExecute.mkResponse "done")), w)
  | PlanExecute.final_report _ _ => fun w => ("report", w)
  end.

(** Azure evaluators answering scores from one script, the generator
    answering drafts from another. *)
Definition azure_retry_oracle (c : AzureSelfRAG.Call)
    : list string * list Score
      -> AzureSelfRAG.Reply c * (list string * list Score) :=
  match c return list string * list Score
                 -> AzureSelfRAG.Reply c * (list string * list Score) with
  | AzureSelfRAG.pdf_retriever _ => fun w => ([doc_a; doc_b], w)
  | AzureSelfRAG.rag_chain _ _ =>
      fun w => let (a, drafts) := pop "" (fst w) in (a, (drafts, snd w))
  | AzureSelfRAG.retrieval_grader _ _ =>
      fun w => (AzureSelfRAG.mkGradeDocuments "yes", w)
  | AzureSelfRAG.GroundednessEvaluator _ _ _ =>
      fun w => let (a, scores) := pop NaN (snd w) in
               (AzureSelfRAG.mkGroundedness a "", (fst w, scores))
  | AzureSelfRAG.RelevanceEvaluator _ _ _ =>
      fun w => let (a, scores) := pop NaN (snd w) in
               (AzureSelfRAG.mkRelevance a "", (fst w, scores))
  | AzureSelfRAG.question_rewriter q => fun w => (q, w)
  end.


End Scenarios.

(** * Facts about the glue *)

(** ** The call log *)

Section EffectFacts.
Context {World Call : Type} {Reply : Call -> Type}.
Variable oracle : forall c : Call, World -> Reply c * World.

Lemma calls_made_log {A} (m : M World Call Reply A) σ evs :
  log (snd (m σ)) = log σ ++ evs -> calls_made m σ = call_of <$> evs.
Proof.
  intros Hlog. unfold calls_made. rewrite Hlog.
  by rewrite drop_app_length.
Qed.

Lemma invoke_eq (c : Call) σ :
  invoke oracle c σ =
    (Ok (fst (oracle c (world σ))),
     {| world := snd (oracle c (world σ));
        log := log σ ++ [existT c (fst (oracle c (world σ)))] |}).
Proof. unfold invoke. by destruct (oracle c (world σ)). Qed.

Lemma bind_invoke {A} (c : Call) (k : Reply c -> M World Call Reply A) σ :
  bind (invoke oracle c) k σ
  = k (fst (oracle c (world σ)))
      {| world := snd (oracle c (world σ));
         log := log σ ++ [existT c (fst (oracle c (world σ)))] |}.
Proof. unfold bind. by rewrite invoke_eq. Qed.

Lemma bind_ret_r {A} (m : M World Call Reply A) σ : bind m ret σ = m σ.
Proof. unfold bind, ret. by destruct (m σ) as [[a|e] σ']. Qed.
End EffectFacts.

Section LangGraphFacts.
Context {World Call : Type} {Reply : Call -> Type}.
Context {St U : Type} (merge : St -> U -> St).

Lemma run_nodes_at_END (g : StateGraph World Call Reply St U) limit s :
  run_nodes merge g limit END s = ret ([END], s).
Proof. by destruct limit. Qed.

Lemma run_nodes_unfold (g : StateGraph World Call Reply St U) limit n s σ :
  n <> END ->
  run_nodes merge g (S limit) n s σ
  = match step merge g n s σ with
    | (Ok (t, s'), σ') =>
        match run_nodes merge g limit t s' σ' with
        | (Ok (tr, s''), σ'') => (Ok (n :: tr, s''), σ'')
        | (Raise e, σ'') => (Raise e, σ'')
        end
    | (Raise e, σ') => (Raise e, σ')
    end.
Proof.
  intros Hn. simpl. destruct (String.eqb_spec n END) as [->|_]; [done|].
  unfold bind. destruct (step merge g n s σ) as [[[t s']|e] σ']; [|done].
  by destruct (run_nodes merge g limit t s' σ') as [[[tr s'']|e] σ''].
Qed.

Lemma run_nodes_head (g : StateGraph World Call Reply St U) limit n s σ tr s' σ' :
  run_nodes merge g limit n s σ = (Ok (tr, s'), σ') -> exists tr', tr = n :: tr'.
Proof.
  destruct (decide (n = END)) as [->|Hn].
  { rewrite run_nodes_at_END. unfold ret. intros [= <- <- <-]. by exists []. }
  destruct limit as [|limit].
  { simpl. destruct (String.eqb_spec n END) as [->|_]; done. }
  rewrite run_nodes_unfold by done.
  destruct (step merge g n s σ) as [[[t s1]|e] σ1]; [|done].
  destruct (run_nodes merge g limit t s1 σ1) as [[[tr1 s2]|e] σ2]; [|done].
  intros [= <- <- <-]. by exists tr1.
Qed.

Lemma run_nodes_limit_0 (g : StateGraph World Call Reply St U) n s σ :
  n <> END -> run_nodes merge g 0 n s σ = (Raise GraphRecursionError, σ).
Proof.
  intros Hn. simpl. by destruct (String.eqb_spec n END) as [->|_].
Qed.
(** A run from [START]: its edges are followed, then the nodes run. *)
Lemma run_START (g : StateGraph World Call Reply St U) limit s σ :
  run merge g limit START s σ = run_nodes merge g (S limit) START s σ.
Proof. reflexivity. Qed.
End LangGraphFacts.

(** Case split on the first test [_ =? "yes"] of the goal. *)
Ltac case_yes H :=
  match goal with
  | |- context [String.eqb ?x "yes"] =>
      destruct (String.eqb_spec x "yes") as [H|H]
  end.

Section SelfRAGFacts.
Import SelfRAG.
Context {World : Type} (oracle : forall c : Call, World -> Reply c * World).

Lemma retained_cons_yes d docs (e : Event Call Reply) evs :
  verdict e = Some "yes" -> retained (d :: docs) (e :: evs) = d :: retained docs evs.
Proof.
  intros Hv. unfold retained. simpl. by rewrite filter_cons_True.
Qed.

Lemma retained_cons_no d docs (e : Event Call Reply) evs :
  verdict e <> Some "yes" -> retained (d :: docs) (e :: evs) = retained docs evs.
Proof.
  intros Hv. unfold retained. simpl. by rewrite filter_cons_False.
Qed.

Lemma retained_graded_yes docs (evs : list (Event Call Reply)) d :
  d ∈ retained docs evs ->
  exists e, (d, e) ∈ zip docs evs /\ verdict e = Some "yes".
Proof.
  unfold retained. intros ([d' e] & -> & Hin)%list_elem_of_fmap.
  apply list_elem_of_filter in Hin as [Hyes Hin]. by exists e.
Qed.

Lemma retained_sublist docs (evs : list (Event Call Reply)) :
  length evs = length docs -> retained docs evs `sublist_of` docs.
Proof.
  intros Hlen. unfold retained.
  transitivity (fst <$> zip docs evs).
  - apply fmap_sublist, sublist_filter.
  - rewrite fst_zip; [done | lia].
Qed.

Lemma grade_documents_loop_spec question docs :
  forall filtered_docs count σ,
  exists evs σ',
    grade_documents_loop oracle question docs filtered_docs count σ
    = (Ok (filtered_docs ++ retained docs evs,
           count + length (retained docs evs)), σ')
    /\ log σ' = log σ ++ evs
    /\ call_of <$> evs
       = (fun d => retrieval_grader question (page_content d)) <$> docs.
Proof.
  induction docs as [|d rest IH]; intros filtered_docs count σ.
  - exists [], σ. simpl. unfold ret.
    by rewrite !app_nil_r, Nat.add_0_r.
  - simpl. unfold bind at 1. rewrite invoke_eq.
    set (c := retrieval_grader question (page_content d)).
    set (r := fst (oracle c (world σ))).
    set (σ1 := {| world := snd (oracle c (world σ)); log := log σ ++ [existT c r] |}).
    destruct (String.eqb_spec (binary_score r) "yes") as [Hyes|Hno].
    + destruct (IH (filtered_docs ++ [d]) (count + 1) σ1)
        as (evs & σ' & Hrun & Hlog & Hcalls).
      exists (existT c r :: evs), σ'. split_and!.
      * rewrite Hrun. rewrite retained_cons_yes by (simpl; by rewrite Hyes).
        simpl. rewrite <- app_assoc. do 3 f_equal. lia.
      * rewrite Hlog. simpl. by rewrite <- app_assoc.
      * by rewrite !fmap_cons, Hcalls.
    + destruct (IH filtered_docs count σ1) as (evs & σ' & Hrun & Hlog & Hcalls).
      exists (existT c r :: evs), σ'. split_and!.
      * rewrite Hrun. by rewrite retained_cons_no by (simpl; congruence).
      * rewrite Hlog. simpl. by rewrite <- app_assoc.
      * by rewrite !fmap_cons, Hcalls.
Qed.

Lemma grade_documents_eq s σ :
  exists evs σ',
    grade_documents oracle s σ
    = (Ok {| set_question := None; set_generation := None;
             set_documents := Some (retained (documents s) evs) |}, σ')
    /\ log σ' = log σ ++ evs
    /\ call_of <$> evs
       = (fun d => retrieval_grader (question s) (page_content d)) <$> documents s.
Proof.
  destruct (grade_documents_loop_spec (question s) (documents s) [] 0 σ)
    as (evs & σ' & Hrun & Hlog & Hcalls).
  exists evs, σ'. split_and!; try done.
  unfold grade_documents, bind. by rewrite Hrun.
Qed.

Lemma grade_generation_eq s σ :
  let g := groundedness_grader (documents s) (generation s) in
  let a := answer_grader (question s) (generation s) in
  let r1 := fst (oracle g (world σ)) in
  let w1 := snd (oracle g (world σ)) in
  let r2 := fst (oracle a w1) in
  let w2 := snd (oracle a w1) in
  grade_generation_v_documents_and_question oracle s σ =
    if String.eqb (binary_score r1) "yes" then
      (Ok (if String.eqb (binary_score r2) "yes"
           then "relevant" else "not relevant"),
       {| world := w2; log := (log σ ++ [existT g r1]) ++ [existT a r2] |})
    else
      (Ok "hallucination", {| world := w1; log := log σ ++ [existT g r1] |}).
Proof.
  intros g a r1 w1 r2 w2.
  unfold grade_generation_v_documents_and_question.
  unfold bind at 1. rewrite invoke_eq. fold g r1 w1.
  destruct (String.eqb (binary_score r1) "yes"); [|done].
  unfold bind. rewrite invoke_eq. subst r2 w2. simpl.
  by destruct (String.eqb _ "yes").
Qed.

(** C2 (as amended): the grading functions wrap one LLM call per graded
    item.  [grade_documents] invokes the retrieval grader once for each
    document of the state, in order; the generation router invokes the
    groundedness grader once and, only when that answers "yes", the answer
    grader once more. *)
Theorem C2_grading_invocations s σ :
  calls_made (grade_documents oracle s) σ
  = (fun d => retrieval_grader (question s) (page_content d)) <$> documents s
  /\ calls_made (grade_generation_v_documents_and_question oracle s) σ
     = (let g := groundedness_grader (documents s) (generation s) in
        if String.eqb (binary_score (fst (oracle g (world σ)))) "yes"
        then [g; answer_grader (question s) (generation s)]
        else [g]).
Proof.
  split.
  - destruct (grade_documents_eq s σ) as (evs & σ' & Hrun & Hlog & Hcalls).
    rewrite <- Hcalls. apply calls_made_log. by rewrite Hrun.
  - cbv zeta. pose proof (grade_generation_eq s σ) as Hrun. cbv zeta in Hrun.
    destruct (String.eqb _ "yes").
    + erewrite calls_made_log; [|rewrite Hrun; simpl; by rewrite <- app_assoc].
      done.
    + erewrite calls_made_log; [|by rewrite Hrun]. done.
Qed.

Lemma generate_routing s σ :
  let g := groundedness_grader (documents s) (generation s) in
  let a := answer_grader (question s) (generation s) in
  let r1 := fst (oracle g (world σ)) in
  let w1 := snd (oracle g (world σ)) in
  let r2 := fst (oracle a w1) in
  let w2 := snd (oracle a w1) in
  next_node (workflow oracle) "generate" s σ =
    if String.eqb (binary_score r1) "yes" then
      (Ok (if String.eqb (binary_score r2) "yes" then END else "rewrite_query"),
       {| world := w2; log := (log σ ++ [existT g r1]) ++ [existT a r2] |})
    else
      (Ok "generate", {| world := w1; log := log σ ++ [existT g r1] |}).
Proof.
  intros g a r1 w1 r2 w2. unfold next_node. simpl. unfold bind.
  pose proof (grade_generation_eq s σ) as Hrun. cbv zeta in Hrun.
  rewrite Hrun. fold g a r1 w1 r2 w2.
  destruct (String.eqb (binary_score r1) "yes"); [|done].
  by destruct (String.eqb (binary_score r2) "yes").
Qed.

Lemma step_into_END n s σ s' σ' :
  step merge (workflow oracle) n s σ = (Ok (END, s'), σ') ->
  n = "generate"
  /\ exists evs r1 r2,
      log σ' = evs ++ [existT (rag_chain (documents s') (question s'))
                              (generation s');
                       existT (groundedness_grader (documents s')
                                                   (generation s')) r1;
                       existT (answer_grader (question s') (generation s')) r2]
      /\ binary_score r1 = "yes" /\ binary_score r2 = "yes".
Proof.
  unfold step. destruct (String.eqb_spec n START) as [->|_].
  { unfold next_node. simpl. unfold bind, ret. intros [=]. }
  simpl.
  destruct (String.eqb_spec n "retrieve") as [->|_].
  { unfold retrieve, bind, next_node. rewrite invoke_eq. simpl. unfold ret.
    intros [=]. }
  destruct (String.eqb_spec n "grade_documents") as [->|_].
  { unfold bind at 1.
    destruct (grade_documents_eq s σ) as (evs & σ1 & -> & _ & _).
    unfold next_node. simpl. unfold bind, decide_to_generate.
    destruct (documents _); simpl; unfold ret; intros [=]. }
  destruct (String.eqb_spec n "generate") as [->|_].
  2:{ destruct (String.eqb_spec n "rewrite_query") as [->|_].
      - unfold rewrite_query, bind, next_node. rewrite invoke_eq. simpl.
        unfold ret. intros [=].
      - unfold raise. intros [=]. }
  intros Hstep. split; [done|]. revert Hstep.
  unfold bind at 1. unfold generate. unfold bind at 1. rewrite invoke_eq.
  unfold ret at 1. unfold bind.
  pose proof (generate_routing
    (merge s {| set_question := None;
                set_generation := Some (fst (oracle (rag_chain (documents s) (question s)) (world σ)));
                set_documents := None |})) as Hroute.
  cbv zeta in Hroute. rewrite Hroute. clear Hroute. simpl.
  case_yes Hy1; [|unfold ret; intros [=]].
  case_yes Hy2; [|unfold ret; intros [=]].
  unfold ret. intros [= <- <-]. simpl.
  eexists (log σ), _, _. split_and!; [|exact Hy1|exact Hy2].
  by rewrite <- !app_assoc.
Qed.

Lemma run_reaches_END limit :
  forall n s σ tr s' σ',
  n <> END ->
  run_nodes merge (workflow oracle) limit n s σ = (Ok (tr, s'), σ') ->
  (exists tr', tr = tr' ++ ["generate"; END])
  /\ exists evs r1 r2,
      log σ' = evs ++ [existT (rag_chain (documents s') (question s'))
                              (generation s');
                       existT (groundedness_grader (documents s')
                                                   (generation s')) r1;
                       existT (answer_grader (question s') (generation s')) r2]
      /\ binary_score r1 = "yes" /\ binary_score r2 = "yes".
Proof.
  induction limit as [|limit IH]; intros n s σ tr s' σ' Hn Hrun.
  { by rewrite run_nodes_limit_0 in Hrun. }
  rewrite run_nodes_unfold in Hrun by done.
  destruct (step merge (workflow oracle) n s σ) as [[[t s1]|e] σ1] eqn:Hstep;
    [|done].
  destruct (decide (t = END)) as [->|Ht].
  - rewrite run_nodes_at_END in Hrun. unfold ret in Hrun.
    injection Hrun as <- <- <-.
    apply step_into_END in Hstep as [-> Hlog].
    split; [by exists []|done].
  - destruct (run_nodes merge (workflow oracle) limit t s1 σ1)
      as [[[tr1 s2]|e] σ2] eqn:Hrest; [|done].
    injection Hrun as <- <- <-.
    destruct (IH _ _ _ _ _ _ Ht Hrest) as [[tr' ->] Hlog].
    split; [by exists (n :: tr')|done].
Qed.

(** C4: from [generate], "hallucination" routes back to [generate], "not
    relevant" routes to [rewrite_query] (whose edge leads to [retrieve]) and
    only "relevant" routes to [END]; so a run that reaches [END] entered it
    from [generate], and its log ends with the generation of the final
    answer followed by a groundedness grade "yes" and an answer grade "yes"
    for that answer. *)
Theorem C4_end_only_when_grounded_and_relevant :
  (forall s σ label σ',
     grade_generation_v_documents_and_question oracle s σ = (Ok label, σ') ->
     exists target,
       next_node (workflow oracle) "generate" s σ = (Ok target, σ')
       /\ (label = "hallucination" -> target = "generate")
       /\ (label = "not relevant" -> target = "rewrite_query")
       /\ (target = END <-> label = "relevant"))
  /\ (forall s σ,
       next_node (workflow oracle) "rewrite_query" s σ = (Ok "retrieve", σ))
  /\ (forall limit s0 σ0 tr s σ,
       run merge (workflow oracle) limit START s0 σ0 = (Ok (tr, s), σ) ->
       (exists tr', tr = tr' ++ ["generate"; END])
       /\ exists evs r1 r2,
           log σ = evs ++ [existT (rag_chain (documents s) (question s))
                                  (generation s);
                           existT (groundedness_grader (documents s)
                                                       (generation s)) r1;
                           existT (answer_grader (question s) (generation s)) r2]
           /\ binary_score r1 = "yes" /\ binary_score r2 = "yes").
Proof.
  split_and!.
  - intros s σ label σ' Hlabel.
    pose proof (grade_generation_eq s σ) as Hgrade.
    pose proof (generate_routing s σ) as Hroute.
    cbv zeta in Hgrade, Hroute. rewrite Hgrade in Hlabel. rewrite Hroute.
    destruct (String.eqb (binary_score _) "yes").
    + destruct (String.eqb (binary_score _) "yes");
        injection Hlabel as <- <-; eexists; (split; [reflexivity|]);
        split_and!; try done.
    + injection Hlabel as <- <-. eexists; (split; [reflexivity|]).
      split_and!; try done.
  - intros s σ. reflexivity.
  - intros limit s0 σ0 tr s σ Hrun. rewrite run_START in Hrun.
    by eapply run_reaches_END in Hrun.
Qed.
End SelfRAGFacts.

Section CorrectiveRAGFacts.
Import CorrectiveRAG.
Context {World : Type} (oracle : forall c : Call, World -> Reply c * World).

Lemma crag_retained_cons_yes d docs (e : Event Call Reply) evs :
  verdict e = Some "yes" -> retained (d :: docs) (e :: evs) = d :: retained docs evs.
Proof.
  intros Hv. unfold retained. simpl. by rewrite filter_cons_True.
Qed.

Lemma crag_retained_cons_no d docs (e : Event Call Reply) evs :
  verdict e <> Some "yes" -> retained (d :: docs) (e :: evs) = retained docs evs.
Proof.
  intros Hv. unfold retained. simpl. by rewrite filter_cons_False.
Qed.

Lemma crag_retained_graded_yes docs (evs : list (Event Call Reply)) d :
  d ∈ retained docs evs ->
  exists e, (d, e) ∈ zip docs evs /\ verdict e = Some "yes".
Proof.
  unfold retained. intros ([d' e] & -> & Hin)%list_elem_of_fmap.
  apply list_elem_of_filter in Hin as [Hyes Hin]. by exists e.
Qed.

Lemma crag_retained_sublist docs (evs : list (Event Call Reply)) :
  length evs = length docs -> retained docs evs `sublist_of` docs.
Proof.
  intros Hlen. unfold retained.
  transitivity (fst <$> zip docs evs).
  - apply fmap_sublist, sublist_filter.
  - rewrite fst_zip; [done | lia].
Qed.

Lemma crag_grade_documents_loop_spec question docs :
  forall filtered_docs count σ,
  exists evs σ',
    grade_documents_loop oracle question docs filtered_docs count σ
    = (Ok (filtered_docs ++ retained docs evs,
           count + length (retained docs evs)), σ')
    /\ log σ' = log σ ++ evs
    /\ call_of <$> evs
       = (fun d => retrieval_grader question (page_content d)) <$> docs.
Proof.
  induction docs as [|d rest IH]; intros filtered_docs count σ.
  - exists [], σ. simpl. unfold ret.
    by rewrite !app_nil_r, Nat.add_0_r.
  - simpl. unfold bind at 1, document_evaluator. rewrite bind_ret_r, invoke_eq.
    set (c := retrieval_grader question (page_content d)).
    set (r := fst (oracle c (world σ))).
    set (σ1 := {| world := snd (oracle c (world σ)); log := log σ ++ [existT c r] |}).
    destruct (String.eqb_spec (binary_score r) "yes") as [Hyes|Hno].
    + destruct (IH (filtered_docs ++ [d]) (count + 1) σ1)
        as (evs & σ' & Hrun & Hlog & Hcalls).
      exists (existT c r :: evs), σ'. split_and!.
      * rewrite Hrun. rewrite crag_retained_cons_yes by (simpl; by rewrite Hyes).
        simpl. rewrite <- app_assoc. do 3 f_equal. lia.
      * rewrite Hlog. simpl. by rewrite <- app_assoc.
      * by rewrite !fmap_cons, Hcalls.
    + destruct (IH filtered_docs count σ1) as (evs & σ' & Hrun & Hlog & Hcalls).
      exists (existT c r :: evs), σ'. split_and!.
      * rewrite Hrun. by rewrite crag_retained_cons_no by (simpl; congruence).
      * rewrite Hlog. simpl. by rewrite <- app_assoc.
      * by rewrite !fmap_cons, Hcalls.
Qed.

Lemma crag_grade_documents_eq s σ :
  exists evs σ',
    grade_documents oracle s σ
    = (Ok {| set_question := None; set_generation := None;
             set_web_search :=
               Some (if Nat.eqb (length (retained (documents s) evs)) 0
                     then "Yes" else "No");
             set_documents := Some (retained (documents s) evs) |}, σ')
    /\ log σ' = log σ ++ evs
    /\ call_of <$> evs
       = (fun d => retrieval_grader (question s) (page_content d)) <$> documents s.
Proof.
  destruct (crag_grade_documents_loop_spec (question s) (documents s) [] 0 σ)
    as (evs & σ' & Hrun & Hlog & Hcalls).
  exists evs, σ'. split_and!; try done.
  unfold grade_documents, bind. by rewrite Hrun.
Qed.
End CorrectiveRAGFacts.

(** C9: [grade_documents] (Self-RAG and Corrective RAG) returns an update
    that sets [documents] only (and [web_search] in Corrective RAG), so the
    written state keeps [question] and [generation]; it grades each document
    once, in order, and the documents it returns are those graded "yes", a
    subsequence of the input documents. *)
Theorem C9_grade_documents_frame :
  (forall World (oracle : forall c, World -> SelfRAG.Reply c * World) s σ,
     exists evs σ' u,
       SelfRAG.grade_documents oracle s σ = (Ok u, σ')
       /\ log σ' = log σ ++ evs
       /\ call_of <$> evs
          = (fun d => SelfRAG.retrieval_grader (SelfRAG.question s)
                                               (page_content d))
            <$> SelfRAG.documents s
       /\ SelfRAG.set_question u = None
       /\ SelfRAG.set_generation u = None
       /\ SelfRAG.set_documents u
          = Some (SelfRAG.retained (SelfRAG.documents s) evs)
       /\ SelfRAG.retained (SelfRAG.documents s) evs
          `sublist_of` SelfRAG.documents s
       /\ (forall d, d ∈ SelfRAG.retained (SelfRAG.documents s) evs ->
            exists e, (d, e) ∈ zip (SelfRAG.documents s) evs
                      /\ SelfRAG.verdict e = Some "yes")
       /\ SelfRAG.question (SelfRAG.merge s u) = SelfRAG.question s
       /\ SelfRAG.generation (SelfRAG.merge s u) = SelfRAG.generation s
       /\ SelfRAG.documents (SelfRAG.merge s u)
          = SelfRAG.retained (SelfRAG.documents s) evs)
  /\ (forall World (oracle : forall c, World -> CorrectiveRAG.Reply c * World)
        s σ,
     exists evs σ' u,
       CorrectiveRAG.grade_documents oracle s σ = (Ok u, σ')
       /\ log σ' = log σ ++ evs
       /\ call_of <$> evs
          = (fun d => CorrectiveRAG.retrieval_grader (CorrectiveRAG.question s)
                                                     (page_content d))
            <$> CorrectiveRAG.documents s
       /\ CorrectiveRAG.set_question u = None
       /\ CorrectiveRAG.set_generation u = None
       /\ CorrectiveRAG.set_documents u
          = Some (CorrectiveRAG.retained (CorrectiveRAG.documents s) evs)
       /\ CorrectiveRAG.retained (CorrectiveRAG.documents s) evs
          `sublist_of` CorrectiveRAG.documents s
       /\ (forall d,
            d ∈ CorrectiveRAG.retained (CorrectiveRAG.documents s) evs ->
            exists e, (d, e) ∈ zip (CorrectiveRAG.documents s) evs
                      /\ CorrectiveRAG.verdict e = Some "yes")
       /\ CorrectiveRAG.question (CorrectiveRAG.merge s u)
          = CorrectiveRAG.question s
       /\ CorrectiveRAG.generation (CorrectiveRAG.merge s u)
          = CorrectiveRAG.generation s
       /\ CorrectiveRAG.documents (CorrectiveRAG.merge s u)
          = CorrectiveRAG.retained (CorrectiveRAG.documents s) evs).
Proof.
  split; intros World oracle s σ.
  - destruct (grade_documents_eq oracle s σ) as (evs & σ' & Hrun & Hlog & Hcalls).
    eexists evs, σ', _. split; [exact Hrun|]. split_and!; try done.
    + apply retained_sublist.
      apply (f_equal length) in Hcalls. by rewrite !length_fmap in Hcalls.
    + apply retained_graded_yes.
  - destruct (crag_grade_documents_eq oracle s σ)
      as (evs & σ' & Hrun & Hlog & Hcalls).
    eexists evs, σ', _. split; [exact Hrun|]. split_and!; try done.
    + apply crag_retained_sublist.
      apply (f_equal length) in Hcalls. by rewrite !length_fmap in Hcalls.
    + apply crag_retained_graded_yes.
Qed.

Section CorrectiveRAGRun.
Import CorrectiveRAG.
Context {World : Type} (oracle : forall c : Call, World -> Reply c * World).

Lemma crag_decide_to_generate_eq s (σ : Sigma World Call Reply) :
  decide_to_generate s σ
  = (Ok (if String.eqb (web_search s) "Yes" then "rewrite_query" else "generate"),
     σ).
Proof. unfold decide_to_generate. by destruct (String.eqb _ _). Qed.

Lemma crag_step_START s σ :
  step merge (workflow oracle) START s σ = (Ok ("retrieve", s), σ).
Proof. reflexivity. Qed.

Lemma crag_step_retrieve s σ :
  let c := pdf_retriever (question s) in
  step merge (workflow oracle) "retrieve" s σ
  = (Ok ("grade_documents",
         merge s {| set_question := None; set_generation := None;
                    set_web_search := None;
                    set_documents := Some (fst (oracle c (world σ))) |}),
     {| world := snd (oracle c (world σ));
        log := log σ ++ [existT c (fst (oracle c (world σ)))] |}).
Proof.
  intros c. unfold step. simpl. unfold retrieve, bind at 1.
  unfold bind at 1. by rewrite invoke_eq.
Qed.

Lemma crag_step_grade_documents s σ :
  exists evs σ',
    step merge (workflow oracle) "grade_documents" s σ
    = (Ok (match retained (documents s) evs with
           | [] => "rewrite_query"
           | _ :: _ => "generate"
           end,
           merge s {| set_question := None; set_generation := None;
                      set_web_search :=
                        Some (if Nat.eqb (length (retained (documents s) evs)) 0
                              then "Yes" else "No");
                      set_documents := Some (retained (documents s) evs) |}),
       σ')
    /\ log σ' = log σ ++ evs
    /\ call_of <$> evs
       = (fun d => retrieval_grader (question s) (page_content d)) <$> documents s.
Proof.
  destruct (crag_grade_documents_eq oracle s σ) as (evs & σ' & Hrun & Hlog & Hcalls).
  exists evs, σ'. split_and!; try done.
  unfold step. simpl. unfold bind at 1. rewrite Hrun.
  unfold next_node. simpl. unfold bind. rewrite crag_decide_to_generate_eq.
  simpl. by destruct (retained (documents s) evs).
Qed.

Lemma crag_step_rewrite_query s σ :
  exists s' σ',
    step merge (workflow oracle) "rewrite_query" s σ
    = (Ok ("web_search_node", s'), σ').
Proof.
  unfold step. simpl. unfold rewrite_query, bind at 1. unfold bind at 1.
  rewrite invoke_eq. by eexists _, _.
Qed.

Lemma crag_step_web_search_node s σ :
  exists s' σ',
    step merge (workflow oracle) "web_search_node" s σ = (Ok ("generate", s'), σ').
Proof.
  unfold step. simpl. unfold web_search_node_action, bind at 1. unfold bind at 1.
  rewrite invoke_eq. by eexists _, _.
Qed.

Lemma crag_step_generate s σ :
  exists s' σ',
    step merge (workflow oracle) "generate" s σ = (Ok (END, s'), σ').
Proof.
  unfold step. simpl. unfold generate, bind at 1. unfold bind at 1.
  rewrite invoke_eq. by eexists _, _.
Qed.

(** C7: in Corrective RAG, [grade_documents] sets [web_search] to "Yes"
    exactly when the count of documents graded "yes" is zero;
    [decide_to_generate] answers "rewrite_query" exactly when [web_search]
    is "Yes"; [rewrite_query] flows through [web_search_node] to
    [generate]; and every run visits [web_search_node] exactly when no
    retrieved document was graded "yes". *)
Theorem C7_web_search_iff_no_relevant_document :
  (forall s σ,
     exists evs σ' u,
       grade_documents oracle s σ = (Ok u, σ')
       /\ log σ' = log σ ++ evs
       /\ call_of <$> evs
          = (fun d => retrieval_grader (question s) (page_content d))
            <$> documents s
       /\ (set_web_search u = Some "Yes" \/ set_web_search u = Some "No")
       /\ (set_web_search u = Some "Yes"
           <-> length (retained (documents s) evs) = 0))
  /\ (forall s (σ : Sigma World Call Reply),
       exists label,
         decide_to_generate s σ = (Ok label, σ)
         /\ (label = "rewrite_query" \/ label = "generate")
         /\ (label = "rewrite_query" <-> web_search s = "Yes"))
  /\ (forall s σ,
       next_node (workflow oracle) "rewrite_query" s σ
       = (Ok "web_search_node", σ)
       /\ next_node (workflow oracle) "web_search_node" s σ
          = (Ok "generate", σ))
  /\ (forall extra s σ,
       let c := pdf_retriever (question s) in
       let docs := fst (oracle c (world σ)) in
       exists evs tr s' σ' rest,
         run merge (workflow oracle) (6 + extra) START s σ = (Ok (tr, s'), σ')
         /\ log σ' = log σ ++ [existT c docs] ++ evs ++ rest
         /\ call_of <$> evs
            = (fun d => retrieval_grader (question s) (page_content d)) <$> docs
         /\ tr = (if Nat.eqb (length (retained docs evs)) 0
                  then [START; "retrieve"; "grade_documents"; "rewrite_query";
                        "web_search_node"; "generate"; END]
                  else [START; "retrieve"; "grade_documents"; "generate"; END])).
Proof.
  split_and!.
  - intros s σ.
    destruct (crag_grade_documents_eq oracle s σ)
      as (evs & σ' & Hrun & Hlog & Hcalls).
    eexists evs, σ', _. split; [exact Hrun|]. split_and!; try done; simpl.
    + destruct (Nat.eqb _ 0); auto.
    + destruct (Nat.eqb_spec (length (retained (documents s) evs)) 0);
        split; (done || congruence).
  - intros s σ. eexists. split; [apply crag_decide_to_generate_eq|].
    destruct (String.eqb_spec (web_search s) "Yes"); split; auto;
      split; (done || congruence).
  - intros s σ. done.
  - intros extra s σ c docs.
    set (s1 := merge s {| set_question := None; set_generation := None;
                          set_web_search := None; set_documents := Some docs |}).
    set (σ1 := {| world := snd (oracle c (world σ));
                  log := log σ ++ [existT c docs] |}).
    destruct (crag_step_grade_documents s1 σ1) as (evs & σ2 & Hg & Hlog2 & Hcalls).
    exists evs.
    rewrite run_START.
    change (6 + extra) with (S (S (S (S (S (S extra)))))).
    rewrite run_nodes_unfold, crag_step_START by done.
    rewrite run_nodes_unfold by done.
    pose proof (crag_step_retrieve s σ) as Hr. cbv zeta in Hr.
    rewrite Hr. fold c docs s1 σ1.
    rewrite run_nodes_unfold, Hg by done.
    change (documents s1) with docs in *.
    change (question s1) with (question s) in *.
    destruct (retained docs evs) as [|d kept] eqn:Hkept; simpl length; simpl Nat.eqb.
    + rewrite run_nodes_unfold by done.
      match goal with |- context [step _ _ "rewrite_query" ?s ?σ] =>
        destruct (crag_step_rewrite_query s σ) as (s3 & σ3 & Hq)
      end.
      assert (exists rest3, log σ3 = log σ2 ++ rest3) as [rest3 Hlog3].
      { revert Hq. unfold step. simpl. unfold rewrite_query, bind at 1.
        unfold bind at 1. rewrite invoke_eq. intros [= <- <-]. by eexists. }
      destruct (crag_step_web_search_node s3 σ3) as (s4 & σ4 & Hw).
      assert (exists rest4, log σ4 = log σ3 ++ rest4) as [rest4 Hlog4].
      { revert Hw. unfold step. simpl. unfold web_search_node_action, bind at 1.
        unfold bind at 1. rewrite invoke_eq. intros [= <- <-]. by eexists. }
      destruct (crag_step_generate s4 σ4) as (s5 & σ5 & Hgen).
      assert (exists rest5, log σ5 = log σ4 ++ rest5) as [rest5 Hlog5].
      { revert Hgen. unfold step. simpl. unfold generate, bind at 1.
        unfold bind at 1. rewrite invoke_eq. intros [= <- <-]. by eexists. }
      rewrite Hq.
      rewrite run_nodes_unfold, Hw by done.
      rewrite run_nodes_unfold, Hgen by done.
      rewrite run_nodes_at_END. unfold ret.
      eexists _, _, _, (rest3 ++ rest4 ++ rest5).
      split; [reflexivity|]. split_and!; try done.
      rewrite Hlog5, Hlog4, Hlog3, Hlog2. simpl. by rewrite <- !app_assoc.
    + rewrite run_nodes_unfold by done.
      match goal with |- context [step _ _ "generate" ?s ?σ] =>
        destruct (crag_step_generate s σ) as (s5 & σ5 & Hgen)
      end.
      assert (exists rest5, log σ5 = log σ2 ++ rest5) as [rest5 Hlog5].
      { revert Hgen. unfold step. simpl. unfold generate, bind at 1.
        unfold bind at 1. rewrite invoke_eq. intros [= <- <-]. by eexists. }
      rewrite Hgen.
      rewrite run_nodes_at_END. unfold ret.
      eexists _, _, _, rest5.
      split; [reflexivity|]. split_and!; try done.
      rewrite Hlog5, Hlog2. simpl. by rewrite <- !app_assoc.
Qed.
End CorrectiveRAGRun.

Section AzureSelfRAGFacts.
Import AzureSelfRAG.
Context {World : Type} (oracle : forall c : Call, World -> Reply c * World).
Variable model_config : ModelConfig.

Lemma get_groundedness_score_eq context response σ :
  get_groundedness_score oracle model_config context response σ
  = invoke oracle (GroundednessEvaluator model_config context response) σ.
Proof. unfold get_groundedness_score. apply bind_ret_r. Qed.

Lemma get_answer_relevace_score_eq query response σ :
  get_answer_relevace_score oracle model_config query response σ
  = invoke oracle (RelevanceEvaluator model_config query response) σ.
Proof. unfold get_answer_relevace_score. apply bind_ret_r. Qed.

Lemma azure_grade_generation_eq s σ :
  let g := GroundednessEvaluator model_config (ContextDocs (documents s))
                                 (generation s) in
  let a := RelevanceEvaluator model_config (question s) (generation s) in
  let r1 := fst (oracle g (world σ)) in
  let w1 := snd (oracle g (world σ)) in
  let r2 := fst (oracle a w1) in
  let w2 := snd (oracle a w1) in
  grade_generation_v_documents_and_question oracle model_config s σ =
    if score_ge (groundedness r1) 4 then
      (Ok (if score_ge (relevance r2) 4 then "relevant" else "not relevant"),
       {| world := w2; log := (log σ ++ [existT g r1]) ++ [existT a r2] |})
    else
      (Ok "hallucination", {| world := w1; log := log σ ++ [existT g r1] |}).
Proof.
  intros g a r1 w1 r2 w2.
  unfold grade_generation_v_documents_and_question.
  unfold bind at 1. rewrite get_groundedness_score_eq, invoke_eq. fold g r1 w1.
  destruct (score_ge (groundedness r1) 4); [|done].
  unfold bind. rewrite get_answer_relevace_score_eq, invoke_eq.
  subst r2 w2. simpl. by destruct (score_ge _ 4).
Qed.

Lemma azure_generate_routing s σ :
  let g := GroundednessEvaluator model_config (ContextDocs (documents s))
                                 (generation s) in
  let a := RelevanceEvaluator model_config (question s) (generation s) in
  let r1 := fst (oracle g (world σ)) in
  let w1 := snd (oracle g (world σ)) in
  let r2 := fst (oracle a w1) in
  let w2 := snd (oracle a w1) in
  next_node (workflow oracle model_config) "generate" s σ =
    if score_ge (groundedness r1) 4 then
      (Ok (if score_ge (relevance r2) 4 then END else "rewrite_query"),
       {| world := w2; log := (log σ ++ [existT g r1]) ++ [existT a r2] |})
    else
      (Ok "generate", {| world := w1; log := log σ ++ [existT g r1] |}).
Proof.
  intros g a r1 w1 r2 w2. unfold next_node. simpl. unfold bind.
  pose proof (azure_grade_generation_eq s σ) as Hrun. cbv zeta in Hrun.
  rewrite Hrun. fold g a r1 w1 r2 w2.
  destruct (score_ge (groundedness r1) 4); [|done].
  by destruct (score_ge (relevance r2) 4).
Qed.

Lemma score_lt_not_ge grade k : score_lt grade k = true -> score_ge grade k = false.
Proof.
  destruct grade as [q|]; simpl; [|done].
  by destruct (Qle_bool (inject_Z k) q).
Qed.

Lemma azure_step_generate s σ :
  let c := rag_chain (documents s) (question s) in
  let answer := fst (oracle c (world σ)) in
  let s' := {| question := question s; generation := answer;
               documents := documents s |} in
  let σ1 := {| world := snd (oracle c (world σ));
               log := log σ ++ [existT c answer] |} in
  step merge (workflow oracle model_config) "generate" s σ
  = match next_node (workflow oracle model_config) "generate" s' σ1 with
    | (Ok t, σ') => (Ok (t, s'), σ')
    | (Raise e, σ') => (Raise e, σ')
    end.
Proof.
  intros c answer s' σ1. unfold step. simpl. unfold bind at 1.
  unfold generate, bind at 1. rewrite invoke_eq. unfold ret at 1.
  unfold bind. subst c answer s' σ1.
  cbn [merge default set_question set_generation set_documents].
  by destruct (next_node (workflow oracle model_config) "generate" _ _)
    as [[t|e] σ'].
Qed.

(** C1: in the Self-RAG graph graded by the Azure evaluators, a
    groundedness score below 4 makes the router answer "hallucination",
    without asking for relevance, and the graph run [generate] again: the
    next super-step asks the generator anew for the same documents and
    question, writes its answer over the rejected one and has that answer
    scored for groundedness.  A groundedness score of at least 4 makes the
    router ask for the relevance score, and answer "relevant" (to [END])
    when that is at least 4 and "not relevant" (to [rewrite_query])
    otherwise. *)
Theorem C1_groundedness_threshold s σ :
  let g := GroundednessEvaluator model_config (ContextDocs (documents s))
                                 (generation s) in
  let a := RelevanceEvaluator model_config (question s) (generation s) in
  let grounded := groundedness (fst (oracle g (world σ))) in
  let relevant := relevance (fst (oracle a (snd (oracle g (world σ))))) in
  let router := grade_generation_v_documents_and_question oracle model_config s in
  let route := next_node (workflow oracle model_config) "generate" s in
  (score_lt grounded 4 = true ->
     fst (router σ) = Ok "hallucination"
     /\ fst (route σ) = Ok "generate"
     /\ calls_made router σ = [g]
     /\ (let c := rag_chain (documents s) (question s) in
         let regenerated := fst (oracle c (world (snd (route σ)))) in
         exists t r rest σ',
           step merge (workflow oracle model_config) "generate" s
                (snd (route σ))
           = (Ok (t, {| question := question s; generation := regenerated;
                        documents := documents s |}), σ')
           /\ log σ'
              = log (snd (route σ))
                ++ existT (P := Reply) c regenerated
                   :: existT (P := Reply)
                        (GroundednessEvaluator model_config
                           (ContextDocs (documents s)) regenerated) r
                   :: rest))
  /\ (score_ge grounded 4 = true ->
        calls_made router σ = [g; a]
        /\ (score_ge relevant 4 = true ->
              fst (router σ) = Ok "relevant" /\ fst (route σ) = Ok END)
        /\ (score_ge relevant 4 = false ->
              fst (router σ) = Ok "not relevant"
              /\ fst (route σ) = Ok "rewrite_query")).
Proof.
  intros g a grounded relevant router route.
  pose proof (azure_grade_generation_eq s σ) as Hgrade.
  pose proof (azure_generate_routing s σ) as Hroute.
  cbv zeta in Hgrade, Hroute. fold g a grounded relevant in Hgrade, Hroute.
  fold router in Hgrade. fold route in Hroute.
  split.
  - intros Hlt. apply score_lt_not_ge in Hlt. rewrite Hlt in Hgrade, Hroute.
    rewrite Hgrade, Hroute. split_and!; try done.
    + erewrite calls_made_log; [|by rewrite Hgrade]. done.
    + intros c regenerated.
      set (σr := snd (Ok "generate",
                      {| world := snd (oracle g (world σ));
                         log := log σ ++ [existT g (fst (oracle g (world σ)))] |}))
        in *.
      pose proof (azure_step_generate s σr) as Hstep. cbv zeta in Hstep.
      fold c regenerated in Hstep. rewrite Hstep. clear Hstep.
      match goal with |- context [next_node _ "generate" ?s1 ?σ1] =>
        pose proof (azure_generate_routing s1 σ1) as Hnext
      end.
      cbv zeta in Hnext. rewrite Hnext. clear Hnext. simpl.
      destruct (score_ge (groundedness _) 4).
      * eexists _, _, [_], _. split; [reflexivity|]. simpl.
        by rewrite <- !app_assoc.
      * eexists _, _, [], _. split; [reflexivity|]. simpl.
        by rewrite <- !app_assoc.
  - intros Hge. rewrite Hge in Hgrade, Hroute. split_and!.
    + erewrite calls_made_log;
        [|rewrite Hgrade; simpl; by rewrite <- app_assoc]. done.
    + intros Hrel. rewrite Hrel in Hgrade, Hroute. by rewrite Hgrade, Hroute.
    + intros Hrel. rewrite Hrel in Hgrade, Hroute. by rewrite Hgrade, Hroute.
Qed.

End AzureSelfRAGFacts.


Section SupervisorFacts.
Import Supervisor.
Context {World : Type} (oracle : forall c : Call, World -> Reply c * World).

Lemma RouteResponse_validate_ok value r :
  RouteResponse_validate value = Ok r ->
  route_next r = value /\ value ∈ options_for_next.
Proof.
  unfold RouteResponse_validate.
  destruct (existsb (String.eqb value) options_for_next) eqn:Hex; [|done].
  intros [= <-]. split; [done|].
  apply existsb_exists in Hex as (x & Hin & Heq).
  apply String.eqb_eq in Heq as ->. by apply list_elem_of_In.
Qed.

Lemma conditional_map_FINISH : conditional_map !! "FINISH" = Some END.
Proof. reflexivity. Qed.

Lemma conditional_map_member member :
  member ∈ members -> conditional_map !! member = Some member.
Proof.
  unfold members. rewrite !elem_of_cons, elem_of_nil.
  intros [->|[->|[]]]; reflexivity.
Qed.

Lemma supervisor_routing s (σ : Sigma World Call Reply) :
  next s ∈ options_for_next ->
  next_node (workflow oracle) "Supervisor" s σ
  = (Ok (if String.eqb (next s) "FINISH" then END else next s), σ).
Proof.
  intros Hin. unfold next_node. simpl. unfold bind, get_next, ret.
  change (["FINISH"] ++ members) with ("FINISH" :: members) in Hin.
  apply elem_of_cons in Hin as [->|Hin].
  - by rewrite conditional_map_FINISH.
  - rewrite conditional_map_member by done.
    revert Hin. unfold members. rewrite !elem_of_cons, elem_of_nil.
    by intros [->|[->|[]]].
Qed.

Lemma member_edge member s (σ : Sigma World Call Reply) :
  member ∈ members ->
  next_node (workflow oracle) member s σ = (Ok "Supervisor", σ).
Proof.
  unfold members. rewrite !elem_of_cons, elem_of_nil.
  by intros [->|[->|[]]].
Qed.

Lemma agent_node_eq agent name s σ :
  let c := agent_invoke agent s in
  let σ1 := {| world := snd (oracle c (world σ));
               log := log σ ++ [existT c (fst (oracle c (world σ)))] |} in
  agent_node oracle agent name s σ
  = match last_item "messages[-1]" (fst (oracle c (world σ))) with
    | Ok m => (Ok {| add_messages := [HumanMessage (msg_content m) (Some name)];
                     set_next := Some "Supervisor" |}, σ1)
    | Raise e => (Raise e, σ1)
    end.
Proof.
  intros c σ1. unfold agent_node, bind. rewrite invoke_eq.
  by destruct (last_item _ _).
Qed.

Lemma step_member member s σ t s' σ' :
  member ∈ members ->
  step merge (workflow oracle) member s σ = (Ok (t, s'), σ') ->
  t = "Supervisor" /\ next s' = "Supervisor".
Proof.
  unfold members. rewrite !elem_of_cons, elem_of_nil.
  intros [->|[->|[]]]; unfold step; simpl; unfold bind at 1;
    [unfold research_node|unfold coder_node];
    (pose proof (agent_node_eq) as Heq; cbv zeta in Heq; rewrite Heq; clear Heq;
     destruct (last_item _ _) as [m|e]; [|intros [=]];
     unfold bind, next_node; simpl; unfold ret; by intros [= <- <-]).
Qed.

Lemma step_Supervisor s σ t s' σ' :
  step merge (workflow oracle) "Supervisor" s σ = (Ok (t, s'), σ') ->
  next s' ∈ options_for_next
  /\ t = (if String.eqb (next s') "FINISH" then END else next s')
  /\ (t = END \/ t ∈ members).
Proof.
  unfold step. simpl. unfold supervisor_node, supervisor_agent.
  unfold bind at 1. unfold bind at 1. unfold bind at 1. rewrite invoke_eq.
  destruct (oracle (supervisor_chain s) (world σ)) as [value w1]. simpl.
  destruct (RouteResponse_validate value) as [r|e] eqn:Hv;
    [|unfold raise; intros [=]].
  apply RouteResponse_validate_ok in Hv as [Hr Hin].
  unfold ret at 1. unfold ret at 1. unfold bind.
  match goal with |- context [next_node _ _ ?s0 ?σ0] =>
    assert (next s0 ∈ options_for_next) as Hin' by (simpl; by rewrite Hr);
    rewrite (supervisor_routing s0 σ0 Hin')
  end.
  unfold ret. intros [= <- <-]. simpl. rewrite Hr.
  split; [done|]. split; [done|].
  revert Hin. unfold options_for_next, members. simpl.
  rewrite !elem_of_cons, elem_of_nil.
  intros [->|[->|[->|[]]]]; simpl; auto.
Qed.

Lemma sup_step_START s (σ : Sigma World Call Reply) :
  step merge (workflow oracle) START s σ = (Ok ("Supervisor", s), σ).
Proof. reflexivity. Qed.

Lemma run_supervised limit :
  forall s σ tr s' σ',
  (run_nodes merge (workflow oracle) limit "Supervisor" s σ = (Ok (tr, s'), σ') ->
   supervised tr)
  /\ (forall member, member ∈ members ->
      run_nodes merge (workflow oracle) limit member s σ = (Ok (tr, s'), σ') ->
      exists tr', tr = member :: tr' /\ supervised tr').
Proof.
  induction limit as [|limit IH]; intros s σ tr s' σ'.
  { split; [by rewrite run_nodes_limit_0|].
    intros member Hin. rewrite run_nodes_limit_0; [done|].
    revert Hin. unfold members. rewrite !elem_of_cons, elem_of_nil.
    by intros [->|[->|[]]]. }
  split.
  - rewrite run_nodes_unfold by done.
    destruct (step merge (workflow oracle) "Supervisor" s σ)
      as [[[t s1]|e] σ1] eqn:Hstep; [|done].
    apply step_Supervisor in Hstep as (_ & _ & [->|Hin]).
    + rewrite run_nodes_at_END. unfold ret. intros [= <- <- <-]. constructor.
    + destruct (run_nodes merge (workflow oracle) limit t s1 σ1)
        as [[[tr1 s2]|e] σ2] eqn:Hrest; [|done].
      intros [= <- <- <-].
      destruct (IH s1 σ1 tr1 s2 σ2) as [_ Hmember].
      destruct (Hmember t Hin Hrest) as (tr' & -> & Hsup).
      by constructor.
  - intros member Hin. rewrite run_nodes_unfold.
    2:{ revert Hin. unfold members. rewrite !elem_of_cons, elem_of_nil.
        by intros [->|[->|[]]]. }
    destruct (step merge (workflow oracle) member s σ)
      as [[[t s1]|e] σ1] eqn:Hstep; [|done].
    apply (step_member _ _ _ _ _ _ Hin) in Hstep as [-> _].
    destruct (run_nodes merge (workflow oracle) limit "Supervisor" s1 σ1)
      as [[[tr1 s2]|e] σ2] eqn:Hrest; [|done].
    intros [= <- <- <-]. exists tr1. split; [done|].
    by destruct (IH s1 σ1 tr1 s2 σ2) as [Hsup _]; apply Hsup.
Qed.

(** C5: the supervisor's validated answer [next] is one of "FINISH",
    "Researcher" and "Coder"; [get_next] returns the state's [next], which
    the conditional map sends to the member of that name, or to [END] for
    "FINISH"; a member node sets [next] to "Supervisor" and its edge leads
    to [Supervisor]; so in every run each member is entered from
    [Supervisor] and followed by [Supervisor]. *)
Theorem C5_supervisor_alone_selects :
  (forall s σ r σ',
     supervisor_agent oracle s σ = (Ok r, σ') ->
     route_next r ∈ ["FINISH"; "Researcher"; "Coder"])
  /\ (forall s (σ : Sigma World Call Reply), get_next s σ = (Ok (next s), σ))
  /\ (forall s (σ : Sigma World Call Reply),
        next s ∈ ["FINISH"; "Researcher"; "Coder"] ->
        next_node (workflow oracle) "Supervisor" s σ
        = (Ok (if String.eqb (next s) "FINISH" then END else next s), σ))
  /\ (forall member s σ t s' σ',
        member ∈ members ->
        step merge (workflow oracle) member s σ = (Ok (t, s'), σ') ->
        t = "Supervisor" /\ next s' = "Supervisor")
  /\ (forall member s (σ : Sigma World Call Reply),
        member ∈ members ->
        next_node (workflow oracle) member s σ = (Ok "Supervisor", σ))
  /\ (forall limit s0 σ0 tr s σ,
        run merge (workflow oracle) limit START s0 σ0 = (Ok (tr, s), σ) ->
        exists tr', tr = START :: tr' /\ supervised tr').
Proof.
  split_and!.
  - intros s σ r σ'. unfold supervisor_agent, bind. rewrite invoke_eq.
    destruct (RouteResponse_validate _) as [r'|e] eqn:Hv;
      [|unfold raise; intros [=]].
    unfold ret. intros [= <- <-].
    apply RouteResponse_validate_ok in Hv as [-> Hin]. exact Hin.
  - done.
  - intros s σ Hin. by apply supervisor_routing.
  - apply step_member.
  - intros member s σ Hin. by apply member_edge.
  - intros limit s0 σ0 tr s σ. rewrite run_START.
    rewrite run_nodes_unfold by done.
    rewrite sup_step_START.
    destruct (run_nodes merge (workflow oracle) limit "Supervisor" s0 σ0)
      as [[[tr1 s2]|e] σ2] eqn:Hrest; [|done].
    intros [= <- <- <-]. exists tr1. split; [done|].
    by destruct (run_supervised limit s0 σ0 tr1 s2 σ2) as [Hsup _]; apply Hsup.
Qed.
End SupervisorFacts.

Section PlanExecuteFacts.
Import PlanExecute.
Context {World : Type} (oracle : forall c : Call, World -> Reply c * World).

Lemma pe_step_START s (σ : Sigma World Call Reply) :
  step merge (workflow oracle) START s σ = (Ok ("planner", s), σ).
Proof. reflexivity. Qed.

Lemma pe_step_planner s σ :
  let c := planner [("user", input s)] in
  step merge (workflow oracle) "planner" s σ
  = (Ok ("execute",
         merge s {| set_plan := Some (steps (fst (oracle c (world σ))));
                    add_past_steps := []; set_response := None |}),
     {| world := snd (oracle c (world σ));
        log := log σ ++ [existT c (fst (oracle c (world σ)))] |}).
Proof.
  intros c. unfold step. simpl. unfold plan_step, bind at 1.
  unfold bind at 1. by rewrite invoke_eq.
Qed.

Lemma execute_step_eq s σ :
  execute_step oracle s σ
  = match plan s with
    | None => (Raise (KeyError "plan"), σ)
    | Some [] => (Raise (IndexError "plan[0]"), σ)
    | Some (task :: rest) =>
        let c := agent_executor
                   [("user", task_format
                               (String.concat newline (numbered 0 (task :: rest)))
                               task)] in
        let σ1 := {| world := snd (oracle c (world σ));
                     log := log σ ++ [existT c (fst (oracle c (world σ)))] |} in
        match last_item "messages[-1]" (fst (oracle c (world σ))) with
        | Ok m => (Ok {| set_plan := None;
                         add_past_steps := [(task, msg_content m)];
                         set_response := None |}, σ1)
        | Raise e => (Raise e, σ1)
        end
    end.
Proof.
  unfold execute_step. destruct (plan s) as [[|task rest]|]; try done.
  unfold bind. rewrite invoke_eq. cbv zeta.
  by destruct (last_item _ _).
Qed.

Lemma execute_step_ok s σ u σ' :
  execute_step oracle s σ = (Ok u, σ') ->
  (exists task rest, plan s = Some (task :: rest))
  /\ set_plan u = None /\ set_response u = None.
Proof.
  rewrite execute_step_eq. destruct (plan s) as [[|task rest]|]; try done.
  cbv zeta. destruct (last_item _ _); [|done].
  intros [= <- <-]. eauto.
Qed.

Lemma pe_step_execute s σ t s' σ' :
  step merge (workflow oracle) "execute" s σ = (Ok (t, s'), σ') ->
  t = "replan"
  /\ plan s' = plan s /\ response s' = response s
  /\ exists task rest, plan s = Some (task :: rest).
Proof.
  unfold step. simpl. unfold bind at 1.
  destruct (execute_step oracle s σ) as [[u|e] σ1] eqn:Hexec; [|done].
  apply execute_step_ok in Hexec as (Hplan & Hp & Hr).
  unfold bind, next_node. simpl. unfold ret. intros [= <- <- <-].
  unfold merge. simpl. by rewrite Hp, Hr.
Qed.

Lemma replan_step_eq s σ :
  let c := replanner s in
  replan_step oracle s σ
  = (Ok match action (fst (oracle c (world σ))) with
        | ActResponse r =>
            {| set_plan := None; add_past_steps := [];
               set_response := Some (response_text r) |}
        | ActPlan p =>
            match steps p with
            | [] => {| set_plan := None; add_past_steps := [];
                       set_response := Some "No more steps needed." |}
            | _ :: _ => {| set_plan := Some (steps p); add_past_steps := [];
                           set_response := None |}
            end
        end,
     {| world := snd (oracle c (world σ));
        log := log σ ++ [existT c (fst (oracle c (world σ)))] |}).
Proof.
  intros c. unfold replan_step, bind. rewrite invoke_eq. fold c.
  destruct (action _) as [r|p]; [done|].
  by destruct (steps p).
Qed.

Lemma should_end_eq s (σ : Sigma World Call Reply) :
  should_end s σ
  = (Ok match response s with
        | Some r => if truthy r then "final_report" else "execute"
        | None => "execute"
        end, σ).
Proof.
  unfold should_end. destruct (response s) as [r|]; [|done].
  by destruct (truthy r).
Qed.

Lemma replan_routing s (σ : Sigma World Call Reply) :
  next_node (workflow oracle) "replan" s σ
  = (Ok match response s with
        | Some r => if truthy r then "final_report" else "execute"
        | None => "execute"
        end, σ).
Proof.
  unfold next_node. simpl. unfold bind. rewrite should_end_eq.
  destruct (response s) as [r|]; [|done].
  by destruct (truthy r).
Qed.

Lemma truthy_spec r : truthy r = true <-> r <> "".
Proof.
  unfold truthy. destruct (String.eqb_spec r ""); simpl; split; (done || congruence).
Qed.

Lemma pe_step_replan s σ t s' σ' :
  (exists task rest, plan s = Some (task :: rest)) ->
  step merge (workflow oracle) "replan" s σ = (Ok (t, s'), σ') ->
  exists task rest, plan s' = Some (task :: rest).
Proof.
  intros (task & rest & Hplan). unfold step. simpl. unfold bind at 1.
  pose proof (replan_step_eq s σ) as Heq. cbv zeta in Heq. rewrite Heq.
  unfold bind. rewrite replan_routing. unfold ret. intros [= <- <- <-].
  destruct (action _) as [r|p]; simpl; [by rewrite Hplan; eauto|].
  destruct (steps p) as [|step more]; simpl; [by rewrite Hplan; eauto|eauto].
Qed.

Lemma pe_step_into_replan n s σ s' σ' :
  step merge (workflow oracle) n s σ = (Ok ("replan", s'), σ') ->
  n = "execute".
Proof.
  unfold step. destruct (String.eqb_spec n START) as [->|_]; [done|].
  simpl.
  destruct (String.eqb_spec n "planner") as [->|_].
  { intros H. pose proof (pe_step_planner s σ) as Hp. cbv zeta in Hp.
    unfold step in Hp. simpl in Hp. by rewrite Hp in H. }
  destruct (String.eqb_spec n "execute") as [->|_]; [done|].
  destruct (String.eqb_spec n "replan") as [->|_].
  { unfold bind at 1.
    pose proof (replan_step_eq s σ) as Heq. cbv zeta in Heq. rewrite Heq.
    unfold bind. rewrite replan_routing. unfold ret.
    destruct (response _) as [r|]; [destruct (truthy r)|]; intros [=]. }
  destruct (String.eqb_spec n "final_report") as [->|_]; [|done].
  unfold generate_final_report, bind at 1. unfold bind at 1.
  rewrite invoke_eq. unfold ret at 1. unfold bind, next_node. simpl.
  unfold ret. intros [=].
Qed.

Lemma iterate_replan_has_plan k :
  forall s0 σ0 s σ,
  iterate merge (workflow oracle) k START s0 σ0 = (Ok ("replan", s), σ) ->
  exists task rest, plan s = Some (task :: rest).
Proof.
  destruct k as [|k]; intros s0 σ0 s σ; [done|].
  simpl. unfold bind.
  destruct (iterate merge (workflow oracle) k START s0 σ0)
    as [[[n1 s1]|e] σ1]; [|done].
  intros Hstep. pose proof (pe_step_into_replan _ _ _ _ _ Hstep) as ->.
  apply pe_step_execute in Hstep as (_ & Hplan & _ & task & rest & Hs1).
  exists task, rest. by rewrite Hplan.
Qed.

(** C6: every run goes from [START] to [planner] (the only edge out of
    [START]); [planner] writes the planner's steps as the plan and hands
    over to [execute], which sends the first step of that plan to the
    agent; [execute] is followed by [replan], which returns a response or a
    new plan; and [should_end] routes to [final_report] exactly when the
    state has a non-empty [response], and to [execute] otherwise. *)
Theorem C6_plan_then_execute :
  (filter (fun e => fst e = START) (edges (workflow oracle))
   = [(START, "planner")]
   /\ alist_lookup START (branches (workflow oracle)) = None
   /\ (forall s (σ : Sigma World Call Reply),
         step merge (workflow oracle) START s σ = (Ok ("planner", s), σ))
   /\ forall limit s0 σ0 tr s σ,
        run merge (workflow oracle) limit START s0 σ0 = (Ok (tr, s), σ) ->
        exists tr', tr = START :: "planner" :: tr')
  /\ (forall s σ,
        let p := fst (oracle (planner [("user", input s)]) (world σ)) in
        exists s' σ',
          step merge (workflow oracle) "planner" s σ = (Ok ("execute", s'), σ')
          /\ plan s' = Some (steps p) /\ response s' = response s)
  /\ (forall s σ task rest,
        plan s = Some (task :: rest) ->
        calls_made (execute_step oracle s) σ
        = [agent_executor
             [("user", task_format
                         (String.concat newline (numbered 0 (task :: rest)))
                         task)]])
  /\ (forall s σ t s' σ',
        step merge (workflow oracle) "execute" s σ = (Ok (t, s'), σ') ->
        t = "replan")
  /\ (forall s σ,
        exists u σ',
          replan_step oracle s σ = (Ok u, σ')
          /\ ((exists r, u = {| set_plan := None; add_past_steps := [];
                                set_response := Some r |})
              \/ (exists p, u = {| set_plan := Some p; add_past_steps := [];
                                   set_response := None |})))
  /\ (forall s (σ : Sigma World Call Reply),
        exists label,
          should_end s σ = (Ok label, σ)
          /\ next_node (workflow oracle) "replan" s σ = (Ok label, σ)
          /\ (label = "final_report" \/ label = "execute")
          /\ (label = "final_report"
              <-> exists r, response s = Some r /\ r <> "")).
Proof.
  split_and!; try done.
  - intros limit s0 σ0 tr s σ. rewrite run_START.
    rewrite run_nodes_unfold, pe_step_START by done.
    destruct (run_nodes merge (workflow oracle) limit "planner" s0 σ0)
      as [[[tr1 s2]|e] σ2] eqn:Hrest; [|done].
    intros [= <- <- <-]. apply run_nodes_head in Hrest as [tr' ->]. by exists tr'.
  - intros s σ p. pose proof (pe_step_planner s σ) as Hp. cbv zeta in Hp.
    eexists _, _. split; [exact Hp|]. done.
  - intros s σ task rest Hplan.
    pose proof (execute_step_eq s σ) as Heq. rewrite Hplan in Heq.
    cbv zeta in Heq.
    erewrite calls_made_log; [|rewrite Heq; by destruct (last_item _ _)]. done.
  - intros s σ t s' σ' Hstep. by apply pe_step_execute in Hstep as [-> _].
  - intros s σ. pose proof (replan_step_eq s σ) as Heq. cbv zeta in Heq.
    eexists _, _. split; [exact Heq|].
    destruct (action _) as [r|p]; [eauto|].
    destruct (steps p); eauto.
  - intros s σ. eexists. split; [apply should_end_eq|].
    split; [apply replan_routing|].
    destruct (response s) as [r|].
    + destruct (truthy r) eqn:Ht.
      * split; [by left|]. split; [|done]. intros _. exists r. split; [done|].
        by apply truthy_spec.
      * split; [by right|]. split; [done|]. intros (r' & [= <-] & Hne).
        apply truthy_spec in Hne. congruence.
    + split; [by right|]. split; [done|]. by intros (r' & [=] & _).
Qed.

(** C8: [replan_step] never writes an empty plan: it returns a response
    when the action is a [Response] or a [Plan] without steps ("No more
    steps needed."), and otherwise a plan with at least one step; hence
    whenever a run goes from [replan] to [execute] the state holds a plan
    with a first step, and [execute_step] raises neither the [IndexError] of
    [plan[0]] nor a [KeyError] for [plan]. *)
Theorem C8_replan_never_writes_empty_plan :
  (forall s σ,
     exists u σ',
       replan_step oracle s σ = (Ok u, σ')
       /\ set_plan u <> Some []
       /\ match action (fst (oracle (replanner s) (world σ))) with
          | ActResponse r =>
              u = {| set_plan := None; add_past_steps := [];
                     set_response := Some (response_text r) |}
          | ActPlan p =>
              (steps p = [] ->
               u = {| set_plan := None; add_past_steps := [];
                      set_response := Some "No more steps needed." |})
              /\ (steps p <> [] ->
                  u = {| set_plan := Some (steps p); add_past_steps := [];
                         set_response := None |})
          end)
  /\ (forall k s0 σ0 s σ s' σ',
        iterate merge (workflow oracle) k START s0 σ0 = (Ok ("replan", s), σ) ->
        step merge (workflow oracle) "replan" s σ = (Ok ("execute", s'), σ') ->
        (exists task rest, plan s' = Some (task :: rest))
        /\ fst (execute_step oracle s' σ') <> Raise (IndexError "plan[0]")
        /\ fst (execute_step oracle s' σ') <> Raise (KeyError "plan")).
Proof.
  split.
  - intros s σ. pose proof (replan_step_eq s σ) as Heq. cbv zeta in Heq.
    eexists _, _. split; [exact Heq|].
    destruct (action _) as [r|p]; [done|].
    destruct (steps p) as [|step more] eqn:Hsteps; simpl; split_and!; done.
  - intros k s0 σ0 s σ s' σ' Hreach Hstep.
    apply iterate_replan_has_plan in Hreach.
    destruct (pe_step_replan _ _ _ _ _ Hreach Hstep) as (task & rest & Hplan).
    split; [eauto|].
    rewrite execute_step_eq, Hplan. cbv zeta.
    destruct (last_item _ _) as [m|e] eqn:Hlast; simpl; try done.
    unfold last_item in Hlast. destruct (last _); [done|].
    injection Hlast as <-. done.
Qed.
End PlanExecuteFacts.

Section CloudEvaluationFacts.
Import CloudEvaluation.
Context {World : Type} (oracle : forall c : Call, World -> Reply c * World).

Lemma fill_step pbar : n pbar < 3 -> fill pbar = fill (update 1 pbar).
Proof.
  intros Hlt. rewrite fill_equation_1. simpl.
  destruct (lt_dec (n pbar) 3); [done|lia].
Qed.

Lemma fill_stop pbar : 3 <= n pbar -> fill pbar = pbar.
Proof.
  intros Hge. rewrite fill_equation_1. simpl.
  destruct (lt_dec (n pbar) 3); [lia|done].
Qed.

Lemma fill_reaches_3 pbar :
  n pbar <= 3 -> n (fill pbar) = 3 /\ total (fill pbar) = total pbar.
Proof.
  remember (3 - n pbar) as d eqn:Hd. revert pbar Hd.
  induction d as [|d IH]; intros pbar Hd Hle.
  - rewrite fill_stop by lia. split; [lia|done].
  - rewrite fill_step by lia.
    destruct (IH (update 1 pbar)) as [Hn Ht]; simpl; [lia..|].
    by rewrite Hn, Ht.
Qed.

Lemma terminal_cond status :
  negb (String.eqb status "Completed") && negb (String.eqb status "Failed")
  = negb (terminal status).
Proof.
  unfold terminal.
  by destruct (String.eqb status "Completed"), (String.eqb status "Failed").
Qed.

Lemma poll_spec evaluation_response_id k :
  forall fuel status pbar σ,
  k <= fuel ->
  n pbar <= 2 ->
  terminal (fst (rounds oracle evaluation_response_id k status (world σ))) = true ->
  (forall j, j < k ->
     terminal (fst (rounds oracle evaluation_response_id j status (world σ)))
     = false) ->
  exists pbar' σ' evs,
    poll oracle fuel evaluation_response_id status pbar σ = (Ok (Some pbar'), σ')
    /\ n pbar <= n pbar' <= 2
    /\ total pbar' = total pbar
    /\ log σ' = log σ ++ evs
    /\ call_of <$> evs
       = concat (replicate k [sleep 10; evaluations_get evaluation_response_id])
    /\ world σ'
       = snd (rounds oracle evaluation_response_id k status (world σ)).
Proof.
  induction k as [|k IH]; intros fuel status pbar σ Hfuel Hn Hterm Hfirst.
  - simpl in Hterm. exists pbar, σ, [].
    assert (poll oracle fuel evaluation_response_id status pbar σ
            = (Ok (Some pbar), σ)) as ->.
    { destruct fuel; simpl; by rewrite terminal_cond, Hterm. }
    rewrite app_nil_r. split_and!; try done; lia.
  - destruct fuel as [|fuel]; [lia|].
    pose proof (Hfirst 0 ltac:(lia)) as Hnow. simpl in Hnow.
    set (pbar1 := if String.eqb status "Running" && Nat.ltb (n pbar) 2
                  then update 1 pbar else pbar).
    assert (n pbar <= n pbar1 <= 2 /\ total pbar1 = total pbar) as [Hn1 Ht1].
    { subst pbar1. destruct (String.eqb status "Running"); simpl; [|lia].
      destruct (Nat.ltb_spec (n pbar) 2); simpl; lia. }
    assert (forall j, j < k ->
              terminal (fst (rounds oracle evaluation_response_id (S j) status
                                    (world σ))) = false) as Hlater
      by (intros j Hj; apply Hfirst; lia).
    simpl in Hterm, Hlater.
    destruct (oracle (sleep 10) (world σ)) as [[] w1] eqn:Hsleep.
    destruct (oracle (evaluations_get evaluation_response_id) w1)
      as [e w2] eqn:Hget.
    set (σ2 := {| world := w2;
                  log := (log σ ++ [existT (sleep 10) ()])
                         ++ [existT (evaluations_get evaluation_response_id) e] |}).
    destruct (IH fuel (CloudEvaluation.status e) pbar1 σ2)
      as (pbar' & σ' & evs & Hrun & Hn' & Ht' & Hlog & Hcalls & Hworld);
      [lia|lia|exact Hterm|exact Hlater|].
    exists pbar', σ',
      (existT (sleep 10) ()
       :: existT (evaluations_get evaluation_response_id) e :: evs).
    split_and!; [|lia|lia|congruence| |by rewrite !fmap_cons, Hcalls|].
    3:{ simpl rounds. by rewrite Hsleep, Hget. }
    + simpl poll. rewrite terminal_cond, Hnow. cbn [negb]. cbv zeta.
      unfold bind at 1, invoke at 1. rewrite Hsleep.
      unfold bind at 1, invoke at 1. simpl world. rewrite Hget. exact Hrun.
    + rewrite Hlog. simpl. by rewrite <- !app_assoc.
Qed.

Lemma gets_in_rounds evaluation_response_id k :
  length (filter (fun c => is_get c = true)
            (concat (replicate k [sleep 10;
                                  evaluations_get evaluation_response_id])))
  = k.
Proof.
  induction k as [|k IH]; [done|].
  change (concat (replicate (S k) [sleep 10;
                                   evaluations_get evaluation_response_id]))
    with (sleep 10 :: evaluations_get evaluation_response_id
          :: concat (replicate k [sleep 10;
                                  evaluations_get evaluation_response_id])).
  rewrite filter_cons_False by done.
  rewrite filter_cons_True by done. simpl length. by rewrite IH.
Qed.

(** C10: [monitor_status] returns for every sequence of statuses that
    reaches "Completed" or "Failed": when the [k]-th request is the first
    to report a terminal status, [k] rounds of the polling loop suffice, the
    function makes exactly [k + 1] requests, and the progress bar stands at
    exactly 3 (of 3) at return, whatever statuses were seen before; the
    final loop adds one to the count while it is below 3. *)
Theorem C10_monitor_status_terminates evaluation_response_id k fuel σ :
  k <= fuel ->
  terminal (fst (observe oracle evaluation_response_id k (world σ))) = true ->
  (forall j, j < k ->
     terminal (fst (observe oracle evaluation_response_id j (world σ))) = false) ->
  (exists pbar σ',
     monitor_status oracle fuel evaluation_response_id σ = (Ok (Some pbar), σ')
     /\ n pbar = 3 /\ total pbar = 3
     /\ calls_made (monitor_status oracle fuel evaluation_response_id) σ
        = evaluations_get evaluation_response_id
          :: concat (replicate k [sleep 10;
                                  evaluations_get evaluation_response_id])
     /\ length (filter (fun c => is_get c = true)
                  (calls_made (monitor_status oracle fuel evaluation_response_id)
                              σ))
        = k + 1
     /\ world σ' = snd (observe oracle evaluation_response_id k (world σ)))
  /\ (forall pbar, n pbar < 3 ->
        fill pbar = fill (update 1 pbar) /\ n (update 1 pbar) = n pbar + 1)
  /\ (forall pbar, n pbar <= 3 -> n (fill pbar) = 3).
Proof.
  intros Hfuel Hterm Hfirst. split_and!.
  2:{ intros pbar Hlt. split; [by apply fill_step|done]. }
  2:{ intros pbar Hle. by apply fill_reaches_3. }
  unfold observe in *.
  unfold monitor_status. unfold bind at 1. rewrite invoke_eq.
  assert (Hcm : forall pbar σ',
    monitor_status oracle fuel evaluation_response_id σ = (Ok (Some pbar), σ') ->
    forall evs, log σ' = log σ ++ evs ->
    calls_made (monitor_status oracle fuel evaluation_response_id) σ
    = call_of <$> evs).
  { intros pbar σ' Hrun evs Hlog. apply calls_made_log. by rewrite Hrun. }
  unfold monitor_status in Hcm. unfold bind at 1 in Hcm. rewrite invoke_eq in Hcm.
  destruct (oracle (evaluations_get evaluation_response_id) (world σ))
    as [e w1].
  simpl fst in *. simpl snd in *.
  set (pbar0 := if String.eqb (status e) "Queued"
                then update 1 {| total := 3; n := 0 |}
                else {| total := 3; n := 0 |}) in *.
  assert (n pbar0 <= 2 /\ total pbar0 = 3) as [Hn0 Ht0].
  { subst pbar0. destruct (String.eqb (status e) "Queued"); simpl; lia. }
  set (σ1 := {| world := w1;
                log := log σ ++ [existT (evaluations_get evaluation_response_id) e] |})
    in *.
  destruct (poll_spec evaluation_response_id k fuel (status e) pbar0 σ1)
    as (pbar' & σ' & evs & Hrun & Hn' & Ht' & Hlog & Hcalls & Hworld);
    [done|done|exact Hterm|exact Hfirst|].
  unfold bind in *. rewrite Hrun in *. unfold ret in *.
  destruct (fill_reaches_3 pbar') as [Hn3 Ht3]; [lia|].
  specialize (Hcm (fill pbar') σ' eq_refl
                (existT (evaluations_get evaluation_response_id) e :: evs)).
  rewrite Hcm by (rewrite Hlog; simpl; by rewrite <- app_assoc).
  exists (fill pbar'), σ'. split_and!; try done.
  - congruence.
  - by rewrite fmap_cons, Hcalls.
  - rewrite fmap_cons, Hcalls. simpl call_of.
    rewrite filter_cons_True by done. simpl.
    rewrite gets_in_rounds. lia.
Qed.
End CloudEvaluationFacts.

(** ** The claims at concrete inputs *)

(** C1 at scripted scores: groundedness 3 regenerates; groundedness 4 with
    relevance 5 ends; groundedness 5 with relevance 2 rewrites the query.
    With a generator that answers from a script, the answer scored 3 is
    replaced by the next draft, which is scored in its turn. *)
Lemma C1_witness :
  let router := AzureSelfRAG.grade_generation_v_documents_and_question
                  Scenarios.azure_oracle Scenarios.azure_config
                  Scenarios.azure_state in
  let route := next_node (AzureSelfRAG.workflow Scenarios.azure_oracle
                                                Scenarios.azure_config)
                         "generate" Scenarios.azure_state in
  (fst (router (mkSigma [Finite 3; Finite 5] [])) = Ok "hallucination"
   /\ fst (route (mkSigma [Finite 3; Finite 5] [])) = Ok "generate")
  /\ (fst (router (mkSigma [Finite 4; Finite 5] [])) = Ok "relevant"
      /\ fst (route (mkSigma [Finite 4; Finite 5] [])) = Ok END)
  /\ (fst (router (mkSigma [Finite 5; Finite 2] [])) = Ok "not relevant"
      /\ fst (route (mkSigma [Finite 5; Finite 2] [])) = Ok "rewrite_query")
  /\ (let wf := AzureSelfRAG.workflow Scenarios.azure_retry_oracle
                                      Scenarios.azure_config in
      let σ0 := mkSigma (["second draft"], [Finite 3; Finite 4; Finite 5]) [] in
      let σr := snd (next_node wf "generate" Scenarios.azure_state σ0) in
      let regenerated :=
        {| AzureSelfRAG.question := "What is AutoGen?";
           AzureSelfRAG.generation := "second draft";
           AzureSelfRAG.documents := [Scenarios.doc_a; Scenarios.doc_b] |} in
      fst (next_node wf "generate" Scenarios.azure_state σ0) = Ok "generate"
      /\ fst (step AzureSelfRAG.merge wf "generate" Scenarios.azure_state σr)
         = Ok (END, regenerated)
      /\ exists t r rest σ',
           step AzureSelfRAG.merge wf "generate" Scenarios.azure_state σr
           = (Ok (t, regenerated), σ')
           /\ log σ'
              = log σr
                ++ existT (P := AzureSelfRAG.Reply)
                     (AzureSelfRAG.rag_chain [Scenarios.doc_a; Scenarios.doc_b]
                                             "What is AutoGen?")
                     "second draft"
                   :: existT (P := AzureSelfRAG.Reply)
                        (AzureSelfRAG.GroundednessEvaluator
                           Scenarios.azure_config
                           (ContextDocs [Scenarios.doc_a; Scenarios.doc_b])
                           "second draft") r
                   :: rest).
Proof.
  cbv zeta. split_and!.
  - apply (proj1 (C1_groundedness_threshold Scenarios.azure_oracle
                    Scenarios.azure_config Scenarios.azure_state
                    (mkSigma [Finite 3; Finite 5] []))). reflexivity.
  - apply (proj1 (C1_groundedness_threshold Scenarios.azure_oracle
                    Scenarios.azure_config Scenarios.azure_state
                    (mkSigma [Finite 3; Finite 5] []))). reflexivity.
  - apply (proj2 (C1_groundedness_threshold Scenarios.azure_oracle
                    Scenarios.azure_config Scenarios.azure_state
                    (mkSigma [Finite 4; Finite 5] []))); reflexivity.
  - apply (proj2 (C1_groundedness_threshold Scenarios.azure_oracle
                    Scenarios.azure_config Scenarios.azure_state
                    (mkSigma [Finite 4; Finite 5] []))); reflexivity.
  - apply (proj2 (C1_groundedness_threshold Scenarios.azure_oracle
                    Scenarios.azure_config Scenarios.azure_state
                    (mkSigma [Finite 5; Finite 2] []))); reflexivity.
  - apply (proj2 (C1_groundedness_threshold Scenarios.azure_oracle
                    Scenarios.azure_config Scenarios.azure_state
                    (mkSigma [Finite 5; Finite 2] []))); reflexivity.
  - reflexivity.
  - reflexivity.
  - exact (proj2 (proj2 (proj2
             (proj1 (C1_groundedness_threshold Scenarios.azure_retry_oracle
                       Scenarios.azure_config Scenarios.azure_state
                       (mkSigma (["second draft"],
                                 [Finite 3; Finite 4; Finite 5]) []))
                    eq_refl)))).
Defined.

(** C2 as stated fails: on a state with two documents [grade_documents]
    invokes the grader twice, and on a grounded generation the router
    invokes two graders. *)
Lemma C2_counterexample :
  calls_made (SelfRAG.grade_documents Scenarios.selfrag_oracle
                                      Scenarios.selfrag_state)
             (mkSigma ["yes"; "no"] [])
  = [SelfRAG.retrieval_grader "What is AutoGen?" "alpha";
     SelfRAG.retrieval_grader "What is AutoGen?" "beta"]
  /\ calls_made (SelfRAG.grade_generation_v_documents_and_question
                   Scenarios.selfrag_oracle Scenarios.selfrag_state)
                (mkSigma ["yes"; "yes"] [])
     = [SelfRAG.groundedness_grader [Scenarios.doc_a; Scenarios.doc_b]
                                    "an agent framework";
        SelfRAG.answer_grader "What is AutoGen?" "an agent framework"]
  /\ ~ (forall s σ,
          length (calls_made (SelfRAG.grade_documents Scenarios.selfrag_oracle s)
                             σ) = 1
          /\ length (calls_made
                       (SelfRAG.grade_generation_v_documents_and_question
                          Scenarios.selfrag_oracle s) σ) = 1).
Proof.
  split_and!; [reflexivity..|].
  intros Hone.
  destruct (Hone Scenarios.selfrag_state (mkSigma ["yes"; "no"] [])) as [H _].
  discriminate H.
Qed.

(** C4 on a scripted run: one document passes, the first answer is graded
    as a hallucination, the second as grounded and relevant. *)
Lemma C4_witness :
  let σ0 := mkSigma ["yes"; "no"; "first"; "no"; "second"; "yes"; "yes"] [] in
  let result := run SelfRAG.merge (SelfRAG.workflow Scenarios.selfrag_oracle)
                    10 START Scenarios.selfrag_state σ0 in
  fst result
  = Ok ([START; "retrieve"; "grade_documents"; "generate"; "generate"; END],
        {| SelfRAG.question := "What is AutoGen?";
           SelfRAG.generation := "second";
           SelfRAG.documents := [Scenarios.doc_a] |})
  /\ exists evs r1 r2,
       log (snd result)
       = evs ++ [existT (SelfRAG.rag_chain [Scenarios.doc_a] "What is AutoGen?")
                        "second";
                 existT (SelfRAG.groundedness_grader [Scenarios.doc_a] "second")
                        r1;
                 existT (SelfRAG.answer_grader "What is AutoGen?" "second") r2]
       /\ SelfRAG.binary_score r1 = "yes" /\ SelfRAG.binary_score r2 = "yes".
Proof.
  cbv zeta. split; [reflexivity|].
  apply (proj2 (proj2 (C4_end_only_when_grounded_and_relevant
                         Scenarios.selfrag_oracle))
           10 Scenarios.selfrag_state
           (mkSigma ["yes"; "no"; "first"; "no"; "second"; "yes"; "yes"] [])
           [START; "retrieve"; "grade_documents"; "generate"; "generate"; END]
           {| SelfRAG.question := "What is AutoGen?";
              SelfRAG.generation := "second";
              SelfRAG.documents := [Scenarios.doc_a] |}).
  reflexivity.
Defined.

(** C5 on a scripted run: the supervisor picks the researcher, then the
    coder, then finishes. *)
Lemma C5_witness :
  let σ0 := mkSigma ["Researcher"; "Coder"; "FINISH"] [] in
  let result := run Supervisor.merge
                    (Supervisor.workflow Scenarios.supervisor_oracle)
                    10 START Scenarios.supervisor_state σ0 in
  fst result
  = Ok ([START; "Supervisor"; "Researcher"; "Supervisor"; "Coder";
         "Supervisor"; END],
        {| Supervisor.messages :=
             [HumanMessage "plot the stock price" None;
              HumanMessage "done" (Some "Researcher");
              HumanMessage "done" (Some "Coder")];
           Supervisor.next := "FINISH" |})
  /\ exists tr', [START; "Supervisor"; "Researcher"; "Supervisor"; "Coder";
                  "Supervisor"; END] = START :: tr'
                 /\ Supervisor.supervised tr'.
Proof.
  cbv zeta. split; [reflexivity|].
  eapply (proj2 (proj2 (proj2 (proj2 (proj2
            (C5_supervisor_alone_selects Scenarios.supervisor_oracle))))))
    with (limit := 10) (s0 := Scenarios.supervisor_state)
         (σ0 := mkSigma ["Researcher"; "Coder"; "FINISH"] []).
  reflexivity.
Defined.

(** C6 on a scripted run: the planner's two steps are executed, the
    replanner keeps one step, then answers; the run ends with the report. *)
Lemma C6_witness :
  let σ0 := mkSigma [PlanExecute.ActPlan (PlanExecute.mkPlan ["summarise"])] [] in
  (exists s,
     fst (run PlanExecute.merge (PlanExecute.workflow Scenarios.plan_oracle)
              10 START Scenarios.plan_state σ0)
     = Ok ([START; "planner"; "execute"; "replan"; "execute"; "replan";
            "final_report"; END], s))
  /\ calls_made (PlanExecute.execute_step Scenarios.plan_oracle
                   {| PlanExecute.input := "compare the frameworks";
                      PlanExecute.plan := Some ["search"; "summarise"];
                      PlanExecute.past_steps := [];
                      PlanExecute.response := None |}) σ0
     = [PlanExecute.agent_executor
          [("user", PlanExecute.task_format
                      (String.concat newline
                         (PlanExecute.numbered 0 ["search"; "summarise"]))
                      "search")]].
Proof.
  cbv zeta. split; [by eexists|].
  apply (proj1 (proj2 (proj2 (C6_plan_then_execute Scenarios.plan_oracle)))).
  reflexivity.
Defined.

(** C8 on a scripted run: after the first step the replanner returns a plan
    of one step, and [execute] finds its first step. *)
Lemma C8_witness :
  let σ0 := mkSigma [PlanExecute.ActPlan (PlanExecute.mkPlan ["summarise"])] [] in
  let wf := PlanExecute.workflow Scenarios.plan_oracle in
  match iterate PlanExecute.merge wf 4 START Scenarios.plan_state σ0 with
  | (Ok (n, s'), σ') =>
      n = "execute"
      /\ PlanExecute.plan s' = Some ["summarise"]
      /\ (exists task rest, PlanExecute.plan s' = Some (task :: rest))
      /\ fst (PlanExecute.execute_step Scenarios.plan_oracle s' σ')
         <> Raise (IndexError "plan[0]")
      /\ fst (PlanExecute.execute_step Scenarios.plan_oracle s' σ')
         <> Raise (KeyError "plan")
  | (Raise _, _) => False
  end.
Proof.
  cbv zeta.
  pose proof (proj2 (C8_replan_never_writes_empty_plan Scenarios.plan_oracle)
                3 Scenarios.plan_state
                (mkSigma [PlanExecute.ActPlan (PlanExecute.mkPlan ["summarise"])]
                         [])
                _ _ _ _ eq_refl eq_refl) as Hsafe.
  split; [reflexivity|]. split; [reflexivity|]. exact Hsafe.
Defined.

(** C10 on scripted statuses: "Queued", "Running", "Running", then
    "Completed" at the fourth request; and a run that fails at once. *)
Lemma C10_witness :
  (exists pbar σ',
     CloudEvaluation.monitor_status Scenarios.status_oracle 5 "eval-1"
       (mkSigma ["Queued"; "Running"; "Running"; "Completed"] [])
     = (Ok (Some pbar), σ')
     /\ CloudEvaluation.n pbar = 3 /\ CloudEvaluation.total pbar = 3
     /\ length (filter (fun c => CloudEvaluation.is_get c = true)
                  (calls_made (CloudEvaluation.monitor_status
                                 Scenarios.status_oracle 5 "eval-1")
                     (mkSigma ["Queued"; "Running"; "Running"; "Completed"] [])))
        = 3 + 1)
  /\ (exists pbar σ',
        CloudEvaluation.monitor_status Scenarios.status_oracle 0 "eval-2"
          (mkSigma ["Failed"] [])
        = (Ok (Some pbar), σ')
        /\ CloudEvaluation.n pbar = 3 /\ CloudEvaluation.total pbar = 3).
Proof.
  split.
  - destruct (C10_monitor_status_terminates Scenarios.status_oracle "eval-1" 3 5
                (mkSigma ["Queued"; "Running"; "Running"; "Completed"] []))
      as [(pbar & σ' & Hrun & Hn & Ht & _ & Hgets & _) _].
    + lia.
    + reflexivity.
    + intros j Hj.
      destruct j as [|[|[|j]]]; [reflexivity..|lia].
    + exists pbar, σ'. by split_and!.
  - destruct (C10_monitor_status_terminates Scenarios.status_oracle "eval-2" 0 0
                (mkSigma ["Failed"] []))
      as [(pbar & σ' & Hrun & Hn & Ht & _) _].
    + lia.
    + reflexivity.
    + intros j Hj. lia.
    + exists pbar, σ'. by split_and!.
Defined.

(** * Further facts about the notebooks' code *)

(** ** Self-RAG: the loops of the graph *)

Section SelfRAGMore.
Import SelfRAG.
Context {World : Type} (oracle : forall c : Call, World -> Reply c * World).

Lemma selfrag_step_START s (σ : Sigma World Call Reply) :
  step merge (workflow oracle) START s σ = (Ok ("retrieve", s), σ).
Proof. reflexivity. Qed.

Lemma selfrag_step_retrieve s σ :
  let c := pdf_retriever (question s) in
  step merge (workflow oracle) "retrieve" s σ
  = (Ok ("grade_documents",
         {| question := question s; generation := generation s;
            documents := fst (oracle c (world σ)) |}),
     {| world := snd (oracle c (world σ));
        log := log σ ++ [existT c (fst (oracle c (world σ)))] |}).
Proof.
  intros c. unfold step. simpl. unfold retrieve, bind at 1.
  unfold bind at 1. by rewrite invoke_eq.
Qed.

Lemma selfrag_step_rewrite_query s σ :
  let c := question_rewriter (question s) in
  step merge (workflow oracle) "rewrite_query" s σ
  = (Ok ("retrieve",
         {| question := fst (oracle c (world σ)); generation := generation s;
            documents := documents s |}),
     {| world := snd (oracle c (world σ));
        log := log σ ++ [existT c (fst (oracle c (world σ)))] |}).
Proof.
  intros c. unfold step. simpl. unfold rewrite_query, bind at 1.
  unfold bind at 1. by rewrite invoke_eq.
Qed.

Lemma selfrag_step_grade_documents s σ :
  exists evs σ',
    step merge (workflow oracle) "grade_documents" s σ
    = (Ok (match retained (documents s) evs with
           | [] => "rewrite_query"
           | _ :: _ => "generate"
           end,
           {| question := question s; generation := generation s;
              documents := retained (documents s) evs |}), σ')
    /\ log σ' = log σ ++ evs
    /\ call_of <$> evs
       = (fun d => retrieval_grader (question s) (page_content d)) <$> documents s.
Proof.
  destruct (grade_documents_eq oracle s σ) as (evs & σ' & Hrun & Hlog & Hcalls).
  exists evs, σ'. split_and!; try done.
  unfold step. simpl. unfold bind at 1. rewrite Hrun.
  unfold next_node. simpl. unfold bind, decide_to_generate. simpl.
  by destruct (retained (documents s) evs).
Qed.

(** X1: after [grade_documents], [decide_to_generate] sends the run to
    [rewrite_query] exactly when no document was graded "yes", and to
    [generate] otherwise; with no retrieved document at all it rewrites the
    query without a single grader call. *)
Theorem X1_rewrite_iff_nothing_relevant s σ :
  exists evs σ' target s',
    step merge (workflow oracle) "grade_documents" s σ = (Ok (target, s'), σ')
    /\ log σ' = log σ ++ evs
    /\ call_of <$> evs
       = (fun d => retrieval_grader (question s) (page_content d)) <$> documents s
    /\ documents s' = retained (documents s) evs
    /\ (target = "rewrite_query" \/ target = "generate")
    /\ (target = "rewrite_query" <-> retained (documents s) evs = [])
    /\ (documents s = [] -> target = "rewrite_query" /\ evs = []).
Proof.
  destruct (selfrag_step_grade_documents s σ) as (evs & σ' & Hstep & Hlog & Hcalls).
  eexists evs, σ', _, _. split; [exact Hstep|].
  split; [done|]. split; [done|]. split; [done|].
  assert (documents s = [] -> evs = []) as Hempty.
  { intros Hnil. rewrite Hnil in Hcalls. by destruct evs. }
  split; [destruct (retained _ _); auto|].
  split; [by destruct (retained _ _)|].
  intros Hnil. split; [|auto].
  rewrite Hnil. by rewrite (Hempty Hnil).
Qed.

(** X2: a "hallucination" grade sends the run back to [generate] with the
    question and the documents unchanged, so the retry asks the generator
    the very same call again. *)
Theorem X2_hallucination_retry_repeats_call s σ s' σ' :
  step merge (workflow oracle) "generate" s σ = (Ok ("generate", s'), σ') ->
  question s' = question s
  /\ documents s' = documents s
  /\ calls_made (generate oracle s) σ = [rag_chain (documents s) (question s)]
  /\ calls_made (generate oracle s') σ' = [rag_chain (documents s) (question s)].
Proof.
  unfold step. simpl. unfold bind at 1. unfold generate at 1.
  unfold bind at 1. rewrite invoke_eq. unfold ret at 1. unfold bind.
  match goal with |- context [next_node _ _ ?s1 ?σ1] =>
    pose proof (generate_routing oracle s1 σ1) as Hroute
  end.
  cbv zeta in Hroute. rewrite Hroute. clear Hroute. simpl.
  case_yes Hy1.
  { case_yes Hy2; unfold ret; intros [=]. }
  unfold ret. intros [= <- <-]. simpl. split_and!; try done.
  - unfold generate. erewrite calls_made_log;
      [|unfold bind; by rewrite invoke_eq]. done.
  - unfold generate. erewrite calls_made_log;
      [|unfold bind; by rewrite invoke_eq]. done.
Qed.

Lemma grade_documents_loop_none question docs :
  (forall q d w, binary_score (fst (oracle (retrieval_grader q d) w)) <> "yes") ->
  forall filtered_docs count σ,
  fst (grade_documents_loop oracle question docs filtered_docs count σ)
  = Ok (filtered_docs, count).
Proof.
  intros Hno. induction docs as [|d rest IH]; intros filtered_docs count σ.
  - done.
  - simpl. unfold bind at 1. rewrite invoke_eq.
    destruct (String.eqb_spec
                (binary_score (fst (oracle (retrieval_grader question
                                              (page_content d)) (world σ))))
                "yes") as [Hyes|_].
    + by apply Hno in Hyes.
    + apply IH.
Qed.

Lemma selfrag_cycle limit :
  (forall q d w, binary_score (fst (oracle (retrieval_grader q d) w)) <> "yes") ->
  forall n s σ,
  n ∈ [START; "retrieve"; "grade_documents"; "rewrite_query"] ->
  fst (run_nodes merge (workflow oracle) limit n s σ) = Raise GraphRecursionError.
Proof.
  intros Hno. induction limit as [|limit IH]; intros n s σ Hn.
  - rewrite run_nodes_limit_0; [done|].
    revert Hn. rewrite !elem_of_cons, elem_of_nil.
    by intros [->|[->|[->|[->|[]]]]].
  - revert Hn. rewrite !elem_of_cons, elem_of_nil.
    intros [->|[->|[->|[->|[]]]]]; rewrite run_nodes_unfold by done.
    + rewrite selfrag_step_START.
      specialize (IH "retrieve" s σ ltac:(set_solver)).
      destruct (run_nodes _ _ _ _ _ _) as [[[??]|?] ?]; simpl in *;
        [discriminate|congruence].
    + pose proof (selfrag_step_retrieve s σ) as Hs. cbv zeta in Hs. rewrite Hs.
      match goal with |- context [run_nodes _ _ _ _ ?s1 ?σ1] =>
        specialize (IH "grade_documents" s1 σ1 ltac:(set_solver));
        destruct (run_nodes _ _ _ _ s1 σ1) as [[[??]|?] ?]; simpl in *;
          [discriminate|congruence]
      end.
    + unfold step. simpl. unfold bind at 1. unfold grade_documents, bind at 1.
      pose proof (grade_documents_loop_none (question s) (documents s) Hno
                    [] 0 σ) as Hloop.
      destruct (grade_documents_loop oracle (question s) (documents s) [] 0 σ)
        as [r σ1]. simpl in Hloop. subst r.
      unfold ret at 1. unfold bind, next_node. simpl.
      unfold bind, decide_to_generate, ret. simpl.
      match goal with |- context [?m !! "rewrite_query"] =>
        change (m !! "rewrite_query") with (Some "rewrite_query")
      end.
      cbv beta iota.
      match goal with |- context [run_nodes _ _ _ _ ?s1 ?σ1] =>
        specialize (IH "rewrite_query" s1 σ1 ltac:(set_solver));
        destruct (run_nodes _ _ _ _ s1 σ1) as [[[??]|?] ?]; simpl in *;
          [discriminate|congruence]
      end.
    + pose proof (selfrag_step_rewrite_query s σ) as Hs. cbv zeta in Hs.
      rewrite Hs.
      match goal with |- context [run_nodes _ _ _ _ ?s1 ?σ1] =>
        specialize (IH "retrieve" s1 σ1 ltac:(set_solver));
        destruct (run_nodes _ _ _ _ s1 σ1) as [[[??]|?] ?]; simpl in *;
          [discriminate|congruence]
      end.
Qed.

(** X3: the Self-RAG graph has no bound of its own: with a retrieval grader
    that never answers "yes", no run reaches [END]; whatever the recursion
    limit, the run is cut off with [GraphRecursionError]. *)
Theorem X3_no_relevant_document_never_ends :
  (forall q d w, binary_score (fst (oracle (retrieval_grader q d) w)) <> "yes") ->
  forall limit s σ,
  fst (run merge (workflow oracle) limit START s σ) = Raise GraphRecursionError.
Proof.
  intros Hno limit s σ. rewrite run_START.
  apply selfrag_cycle; [done|set_solver].
Qed.

(** X4: after a query rewrite the documents are retrieved for the
    rewritten question, which replaces the original one in the state; the
    generation is kept. *)
Theorem X4_rewrite_then_retrieve s σ :
  let c1 := question_rewriter (question s) in
  let better := fst (oracle c1 (world σ)) in
  let c2 := pdf_retriever better in
  let found := fst (oracle c2 (snd (oracle c1 (world σ)))) in
  exists σ',
    iterate merge (workflow oracle) 2 "rewrite_query" s σ
    = (Ok ("grade_documents",
           {| question := better; generation := generation s;
              documents := found |}), σ')
    /\ log σ' = log σ ++ [existT c1 better; existT c2 found].
Proof.
  intros c1 better c2 found. simpl iterate. unfold bind at 1. unfold bind at 1.
  unfold ret at 1.
  pose proof (selfrag_step_rewrite_query s σ) as Hs. cbv zeta in Hs. rewrite Hs.
  match goal with |- context [step _ _ "retrieve" ?s1 ?σ1] =>
    pose proof (selfrag_step_retrieve s1 σ1) as Hr
  end.
  cbv zeta in Hr. rewrite Hr. simpl.
  eexists. split; [reflexivity|]. simpl. by rewrite <- app_assoc.
Qed.
End SelfRAGMore.

(** ** Self-RAG graded by the Azure evaluators: runs *)

Section AzureSelfRAGMore.
Import AzureSelfRAG.
Context {World : Type} (oracle : forall c : Call, World -> Reply c * World).
Variable model_config : ModelConfig.

Lemma azure_grade_documents_loop_ok question docs :
  forall filtered_docs count σ,
  exists r, fst (grade_documents_loop oracle question docs filtered_docs count σ)
            = Ok r.
Proof.
  induction docs as [|d rest IH]; intros filtered_docs count σ.
  - by eexists.
  - simpl. unfold bind at 1, document_evaluator. rewrite bind_ret_r, invoke_eq.
    destruct (String.eqb _ "yes"); apply IH.
Qed.

Lemma azure_step_into_END n s σ s' σ' :
  step merge (workflow oracle model_config) n s σ = (Ok (END, s'), σ') ->
  n = "generate"
  /\ exists evs r1 r2,
      log σ' = evs ++ [existT (rag_chain (documents s') (question s'))
                              (generation s');
                       existT (GroundednessEvaluator model_config
                                 (ContextDocs (documents s')) (generation s')) r1;
                       existT (RelevanceEvaluator model_config (question s')
                                 (generation s')) r2]
      /\ score_ge (groundedness r1) 4 = true
      /\ score_ge (relevance r2) 4 = true.
Proof.
  unfold step. destruct (String.eqb_spec n START) as [->|_].
  { unfold next_node. simpl. unfold bind, ret. intros [=]. }
  simpl.
  destruct (String.eqb_spec n "retrieve") as [->|_].
  { unfold retrieve, bind, next_node. rewrite invoke_eq. simpl. unfold ret.
    intros [=]. }
  destruct (String.eqb_spec n "grade_documents") as [->|_].
  { unfold bind at 1. unfold grade_documents, bind at 1.
    destruct (azure_grade_documents_loop_ok (question s) (documents s) [] 0 σ)
      as [[kept count] Hloop].
    destruct (grade_documents_loop oracle (question s) (documents s) [] 0 σ)
      as [r σ1]. simpl in Hloop. subst r.
    unfold ret at 1. unfold next_node. simpl. unfold bind, decide_to_generate.
    simpl. destruct kept; simpl; unfold ret; intros [=]. }
  destruct (String.eqb_spec n "generate") as [->|_].
  2:{ destruct (String.eqb_spec n "rewrite_query") as [->|_].
      - unfold rewrite_query, bind, next_node. rewrite invoke_eq. simpl.
        unfold ret. intros [=].
      - unfold raise. intros [=]. }
  intros Hstep. split; [done|]. revert Hstep.
  unfold bind at 1. unfold generate. unfold bind at 1. rewrite invoke_eq.
  unfold ret at 1. unfold bind.
  match goal with |- context [next_node _ _ ?s1 ?σ1] =>
    pose proof (azure_generate_routing oracle model_config s1 σ1) as Hroute
  end.
  cbv zeta in Hroute. rewrite Hroute. clear Hroute. simpl.
  destruct (score_ge (groundedness _) 4) eqn:Hg; [|intros [=]].
  destruct (score_ge (relevance _) 4) eqn:Hr; [|intros [=]].
  intros [= <- <-]. simpl.
  eexists (log σ), _, _. split_and!; [|exact Hg|exact Hr].
  by rewrite <- !app_assoc.
Qed.

Lemma azure_run_reaches_END limit :
  forall n s σ tr s' σ',
  n <> END ->
  run_nodes merge (workflow oracle model_config) limit n s σ = (Ok (tr, s'), σ') ->
  (exists tr', tr = tr' ++ ["generate"; END])
  /\ exists evs r1 r2,
      log σ' = evs ++ [existT (rag_chain (documents s') (question s'))
                              (generation s');
                       existT (GroundednessEvaluator model_config
                                 (ContextDocs (documents s')) (generation s')) r1;
                       existT (RelevanceEvaluator model_config (question s')
                                 (generation s')) r2]
      /\ score_ge (groundedness r1) 4 = true
      /\ score_ge (relevance r2) 4 = true.
Proof.
  induction limit as [|limit IH]; intros n s σ tr s' σ' Hn Hrun.
  { by rewrite run_nodes_limit_0 in Hrun. }
  rewrite run_nodes_unfold in Hrun by done.
  destruct (step merge (workflow oracle model_config) n s σ)
    as [[[t s1]|e] σ1] eqn:Hstep; [|done].
  destruct (decide (t = END)) as [->|Ht].
  - rewrite run_nodes_at_END in Hrun. unfold ret in Hrun.
    injection Hrun as <- <- <-.
    apply azure_step_into_END in Hstep as [-> Hlog].
    split; [by exists []|done].
  - destruct (run_nodes merge (workflow oracle model_config) limit t s1 σ1)
      as [[[tr1 s2]|e] σ2] eqn:Hrest; [|done].
    injection Hrun as <- <- <-.
    destruct (IH _ _ _ _ _ _ Ht Hrest) as [[tr' ->] Hlog].
    split; [by exists (n :: tr')|done].
Qed.

(** X5: a run of the Azure-graded Self-RAG graph that reaches [END] ends
    with the generation of the final answer followed by a groundedness
    score and a relevance score for that answer that are both finite and at
    least 4; an answer scored [nan] never ends a run. *)
Theorem X5_azure_end_needs_both_scores limit s0 σ0 tr s σ :
  run merge (workflow oracle model_config) limit START s0 σ0 = (Ok (tr, s), σ) ->
  (exists tr', tr = tr' ++ ["generate"; END])
  /\ exists evs r1 r2 q1 q2,
      log σ = evs ++ [existT (rag_chain (documents s) (question s))
                             (generation s);
                      existT (GroundednessEvaluator model_config
                                (ContextDocs (documents s)) (generation s)) r1;
                      existT (RelevanceEvaluator model_config (question s)
                                (generation s)) r2]
      /\ groundedness r1 = Finite q1 /\ (4 <= q1)%Q
      /\ relevance r2 = Finite q2 /\ (4 <= q2)%Q.
Proof.
  intros Hrun. rewrite run_START in Hrun.
  apply azure_run_reaches_END in Hrun as [Htr Hlog]; [|done].
  split; [done|].
  destruct Hlog as (evs & r1 & r2 & Hlog & Hg & Hr).
  destruct (groundedness r1) as [q1|] eqn:Hq1; [|done].
  destruct (relevance r2) as [q2|] eqn:Hq2; [|done].
  exists evs, r1, r2, q1, q2. split_and!; try done.
  - by apply Qle_bool_iff in Hg.
  - by apply Qle_bool_iff in Hr.
Qed.
End AzureSelfRAGMore.

(** ** Corrective RAG: what the answer is generated from *)

Section CorrectiveRAGMore.
Import CorrectiveRAG.
Context {World : Type} (oracle : forall c : Call, World -> Reply c * World).

Lemma crag_step_rewrite_query_eq s σ :
  let c := question_rewriter (question s) in
  step merge (workflow oracle) "rewrite_query" s σ
  = (Ok ("web_search_node",
         {| question := fst (oracle c (world σ)); generation := generation s;
            web_search := web_search s; documents := documents s |}),
     {| world := snd (oracle c (world σ));
        log := log σ ++ [existT c (fst (oracle c (world σ)))] |}).
Proof.
  intros c. unfold step. simpl. unfold rewrite_query, bind at 1.
  unfold bind at 1. by rewrite invoke_eq.
Qed.

Lemma crag_step_web_search_node_eq s σ :
  let c := web_search_tool (question s) in
  let found := fst (oracle c (world σ)) in
  step merge (workflow oracle) "web_search_node" s σ
  = (Ok ("generate",
         {| question := question s; generation := generation s;
            web_search := web_search s;
            documents :=
              documents s
              ++ [{| page_content := String.concat newline (formatted <$> found);
                     metadata := [] |}] |}),
     {| world := snd (oracle c (world σ)); log := log σ ++ [existT c found] |}).
Proof.
  intros c found. unfold step. simpl. unfold web_search_node_action, bind at 1.
  unfold bind at 1. by rewrite invoke_eq.
Qed.

Lemma crag_step_generate_eq s σ :
  let c := rag_chain (documents s) (question s) in
  step merge (workflow oracle) "generate" s σ
  = (Ok (END,
         {| question := question s; generation := fst (oracle c (world σ));
            web_search := web_search s; documents := documents s |}),
     {| world := snd (oracle c (world σ));
        log := log σ ++ [existT c (fst (oracle c (world σ)))] |}).
Proof.
  intros c. unfold step. simpl. unfold generate, bind at 1.
  unfold bind at 1. by rewrite invoke_eq.
Qed.

(** X6: a Corrective RAG run makes its calls in a fixed order.  When some
    document is graded "yes" the answer is generated from the retained
    documents and the original question.  When none is, the question is
    rewritten, the web is searched for the rewritten question, and the
    answer is generated from one document alone, the search results joined
    by newlines, with the rewritten question. *)
Theorem X6_corrective_rag_call_sequence extra s σ :
  let c := pdf_retriever (question s) in
  let docs := fst (oracle c (world σ)) in
  exists (evs : list (Event Call Reply)) tr s' σ',
    run merge (workflow oracle) (6 + extra) START s σ = (Ok (tr, s'), σ')
    /\ call_of <$> evs
       = (fun d => retrieval_grader (question s) (page_content d)) <$> docs
    /\ match retained docs evs with
       | _ :: _ =>
           log σ' = log σ ++ [existT c docs] ++ evs
                    ++ [existT (P := Reply)
                               (rag_chain (retained docs evs) (question s))
                               (generation s')]
           /\ question s' = question s
           /\ documents s' = retained docs evs
           /\ web_search s' = "No"
       | [] =>
           exists found : list WebResult,
             let web_doc :=
               {| page_content := String.concat newline (formatted <$> found);
                  metadata := [] |} in
             log σ' = log σ ++ [existT c docs] ++ evs
                      ++ [existT (P := Reply)
                                 (question_rewriter (question s)) (question s');
                          existT (P := Reply)
                                 (web_search_tool (question s')) found;
                          existT (P := Reply)
                                 (rag_chain [web_doc] (question s'))
                                 (generation s')]
             /\ documents s' = [web_doc]
             /\ web_search s' = "Yes"
       end.
Proof.
  intros c docs.
  set (s1 := merge s {| set_question := None; set_generation := None;
                        set_web_search := None; set_documents := Some docs |}).
  set (σ1 := {| world := snd (oracle c (world σ));
                log := log σ ++ [existT c docs] |}).
  destruct (crag_step_grade_documents oracle s1 σ1)
    as (evs & σ2 & Hg & Hlog2 & Hcalls).
  exists evs.
  rewrite run_START.
  change (6 + extra) with (S (S (S (S (S (S extra)))))).
  rewrite run_nodes_unfold, crag_step_START by done.
  rewrite run_nodes_unfold by done.
  pose proof (crag_step_retrieve oracle s σ) as Hr. cbv zeta in Hr.
  rewrite Hr. fold c docs s1 σ1.
  rewrite run_nodes_unfold, Hg by done.
  change (documents s1) with docs in *.
  change (question s1) with (question s) in *.
  destruct (retained docs evs) as [|d kept] eqn:Hkept; simpl length;
    simpl Nat.eqb; rewrite run_nodes_unfold by done.
  - pose proof crag_step_rewrite_query_eq as Hq. cbv zeta in Hq. rewrite Hq.
    rewrite run_nodes_unfold by done.
    pose proof crag_step_web_search_node_eq as Hw. cbv zeta in Hw. rewrite Hw.
    rewrite run_nodes_unfold by done.
    pose proof crag_step_generate_eq as Hgen. cbv zeta in Hgen. rewrite Hgen.
    rewrite run_nodes_at_END. unfold ret. simpl.
    eexists _, _, _. split; [reflexivity|]. split; [done|].
    eexists. simpl. split_and!; try done.
    rewrite Hlog2. simpl. by rewrite <- !app_assoc.
  - pose proof crag_step_generate_eq as Hgen. cbv zeta in Hgen. rewrite Hgen.
    rewrite run_nodes_at_END. unfold ret. simpl.
    eexists _, _, _. split; [reflexivity|]. split; [done|].
    split_and!; try done.
    rewrite Hlog2. simpl. by rewrite <- !app_assoc.
Qed.
End CorrectiveRAGMore.

(** ** Adaptive RAG *)

Section AdaptiveRAGFacts.
Import AdaptiveRAG.
Context {World : Type} (oracle : forall c : Call, World -> Reply c * World).

Lemma route_question_eq s σ :
  let c := question_router (question s) in
  let v := fst (oracle c (world σ)) in
  route_question oracle s σ
  = ((if String.eqb v "vectorstore" then Ok (Some "vectorstore")
      else if String.eqb v "web_search" then Ok (Some "web_search")
      else Raise (ValidationError v)),
     {| world := snd (oracle c (world σ)); log := log σ ++ [existT c v] |}).
Proof.
  intros c v. unfold route_question, bind. rewrite invoke_eq. fold c v.
  unfold RouteQuery_validate. simpl.
  destruct (String.eqb_spec v "vectorstore") as [->|Hv]; [done|].
  destruct (String.eqb_spec v "web_search") as [->|Hw]; [done|].
  done.
Qed.

Lemma adaptive_step_START s σ :
  let c := question_router (question s) in
  let v := fst (oracle c (world σ)) in
  step merge (workflow oracle) START s σ
  = ((if String.eqb v "vectorstore" then Ok ("retrieve", s)
      else if String.eqb v "web_search" then Ok ("web_search", s)
      else Raise (ValidationError v)),
     {| world := snd (oracle c (world σ)); log := log σ ++ [existT c v] |}).
Proof.
  intros c v. unfold step, next_node. simpl. unfold as_key.
  unfold bind. pose proof (route_question_eq s σ) as Hr. cbv zeta in Hr.
  rewrite Hr. fold c v.
  destruct (String.eqb v "vectorstore"); [done|].
  by destruct (String.eqb v "web_search").
Qed.

(** X7: the entry router of Adaptive RAG asks the routing model once and
    leaves the state alone.  An answer "web_search" enters the [web_search]
    node, "vectorstore" enters [retrieve]; any other answer is refused by
    the [RouteQuery] schema, so the function never falls off its end. *)
Theorem X7_adaptive_entry_routing s σ :
  let c := question_router (question s) in
  let v := fst (oracle c (world σ)) in
  calls_made (step merge (workflow oracle) START s) σ = [c]
  /\ fst (route_question oracle s σ) <> Ok None
  /\ (fst (step merge (workflow oracle) START s σ) = Ok ("web_search", s)
      <-> v = "web_search")
  /\ (fst (step merge (workflow oracle) START s σ) = Ok ("retrieve", s)
      <-> v = "vectorstore")
  /\ (v <> "web_search" -> v <> "vectorstore" ->
      fst (step merge (workflow oracle) START s σ) = Raise (ValidationError v)).
Proof.
  intros c v.
  pose proof (adaptive_step_START s σ) as Hs.
  pose proof (route_question_eq s σ) as Hr. cbv zeta in Hs, Hr.
  fold c v in Hs, Hr.
  split.
  { erewrite calls_made_log; [|rewrite Hs; reflexivity]. done. }
  rewrite Hs, Hr. simpl.
  destruct (String.eqb_spec v "vectorstore") as [Hv|Hv].
  { rewrite Hv. split; [done|]. split; [split; done|]. split; [done|]. done. }
  destruct (String.eqb_spec v "web_search") as [Hw|Hw].
  { rewrite Hw. split; [done|]. split; [done|]. split; [split; done|]. done. }
  split; [done|]. split; [split; done|]. split; [split; done|]. done.
Qed.

Lemma adaptive_step_web_search s σ :
  let c := web_search_tool (question s) in
  let found := fst (oracle c (world σ)) in
  step merge (workflow oracle) "web_search" s σ
  = (Ok ("generate",
         {| question := question s; generation := generation s;
            documents :=
              (fun r => {| page_content := content r;
                           metadata := [("source", url r)] |}) <$> found |}),
     {| world := snd (oracle c (world σ)); log := log σ ++ [existT c found] |}).
Proof.
  intros c found. unfold step. simpl. unfold web_search, bind at 1.
  unfold bind at 1. by rewrite invoke_eq.
Qed.

(** X8: when the router answers "web_search", the next two super-steps
    call the router and the search tool and nothing else, and [generate]
    is entered with the question unchanged and the documents replaced by
    one document per search result (its content as text, its url as
    source); no document is graded on this route. *)
Theorem X8_adaptive_web_route s σ :
  let c := question_router (question s) in
  let w := web_search_tool (question s) in
  let found := fst (oracle w (snd (oracle c (world σ)))) in
  let docs := (fun r => {| page_content := content r;
                           metadata := [("source", url r)] |}) <$> found in
  fst (oracle c (world σ)) = "web_search" ->
  exists σ',
    iterate merge (workflow oracle) 2 START s σ
    = (Ok ("generate", {| question := question s; generation := generation s;
                          documents := docs |}), σ')
    /\ log σ' = log σ ++ [existT (P := Reply) c "web_search";
                          existT (P := Reply) w found]
    /\ calls_made (generate oracle {| question := question s;
                                      generation := generation s;
                                      documents := docs |}) σ'
       = [rag_chain docs (question s)].
Proof.
  intros c w found docs Hv.
  pose proof (adaptive_step_START s σ) as Hs. cbv zeta in Hs.
  fold c in Hs. rewrite Hv in Hs. simpl in Hs.
  eexists. split.
  { simpl. unfold bind at 1. unfold bind at 1. unfold ret at 1.
    rewrite Hs.
    pose proof adaptive_step_web_search as Hw. cbv zeta in Hw. rewrite Hw.
    reflexivity. }
  simpl. split; [by rewrite <- app_assoc|].
  erewrite calls_made_log.
  2:{ unfold generate, bind. rewrite invoke_eq. reflexivity. }
  done.
Qed.
End AdaptiveRAGFacts.

Section AdaptiveRAGRun.
Import AdaptiveRAG.
Context {World : Type} (oracle : forall c : Call, World -> Reply c * World).

Lemma hallucination_check_eq s σ :
  let g := groundedness_grader (documents s) (generation s) in
  let a := answer_grader (question s) (generation s) in
  let r1 := fst (oracle g (world σ)) in
  let w1 := snd (oracle g (world σ)) in
  let r2 := fst (oracle a w1) in
  let w2 := snd (oracle a w1) in
  hallucination_check oracle s σ =
    if String.eqb (binary_score r1) "yes" then
      (Ok (if String.eqb (binary_score r2) "yes"
           then "relevant" else "not relevant"),
       {| world := w2; log := (log σ ++ [existT g r1]) ++ [existT a r2] |})
    else
      (Ok "hallucination", {| world := w1; log := log σ ++ [existT g r1] |}).
Proof.
  intros g a r1 w1 r2 w2. unfold hallucination_check.
  unfold bind at 1. rewrite invoke_eq. fold g r1 w1.
  destruct (String.eqb (binary_score r1) "yes"); [|done].
  unfold bind. rewrite invoke_eq. subst r2 w2. simpl.
  by destruct (String.eqb _ "yes").
Qed.

Lemma adaptive_generate_routing s σ :
  let g := groundedness_grader (documents s) (generation s) in
  let a := answer_grader (question s) (generation s) in
  let r1 := fst (oracle g (world σ)) in
  let w1 := snd (oracle g (world σ)) in
  let r2 := fst (oracle a w1) in
  let w2 := snd (oracle a w1) in
  next_node (workflow oracle) "generate" s σ =
    if String.eqb (binary_score r1) "yes" then
      (Ok (if String.eqb (binary_score r2) "yes" then END else "rewrite_query"),
       {| world := w2; log := (log σ ++ [existT g r1]) ++ [existT a r2] |})
    else
      (Ok "generate", {| world := w1; log := log σ ++ [existT g r1] |}).
Proof.
  intros g a r1 w1 r2 w2. unfold next_node. simpl. unfold bind.
  pose proof (hallucination_check_eq s σ) as Hrun. cbv zeta in Hrun.
  rewrite Hrun. fold g a r1 w1 r2 w2.
  destruct (String.eqb (binary_score r1) "yes"); [|done].
  by destruct (String.eqb (binary_score r2) "yes").
Qed.

Lemma adaptive_grade_documents_loop_ok question docs :
  forall acc σ, exists kept σ',
    grade_documents_loop oracle question docs acc σ = (Ok kept, σ').
Proof.
  induction docs as [|d docs IH]; intros acc σ; simpl.
  { by eexists _, _. }
  unfold bind. rewrite invoke_eq.
  destruct (String.eqb _ "yes"); apply IH.
Qed.

(** Where each node of the graph can lead. *)
Lemma adaptive_step_targets n s σ t s' σ' :
  step merge (workflow oracle) n s σ = (Ok (t, s'), σ') ->
  (n = START /\ (t = "web_search" \/ t = "retrieve"))
  \/ (n = "web_search" /\ t = "generate")
  \/ (n = "retrieve" /\ t = "grade_documents")
  \/ (n = "grade_documents" /\ (t = "rewrite_query" \/ t = "generate"))
  \/ (n = "rewrite_query" /\ t = "retrieve")
  \/ (n = "generate"
      /\ (t = "generate" \/ t = "rewrite_query"
          \/ t = END
             /\ exists evs r1 r2,
                 log σ' = evs ++ [existT (rag_chain (documents s') (question s'))
                                         (generation s');
                                  existT (groundedness_grader (documents s')
                                                              (generation s')) r1;
                                  existT (answer_grader (question s')
                                                        (generation s')) r2]
                 /\ binary_score r1 = "yes" /\ binary_score r2 = "yes")).
Proof.
  destruct (String.eqb_spec n START) as [->|HnS].
  { pose proof (adaptive_step_START oracle s σ) as Hs. cbv zeta in Hs.
    rewrite Hs. destruct (String.eqb _ "vectorstore").
    { intros [= <- <- <-]. left. tauto. }
    destruct (String.eqb _ "web_search"); [|done].
    intros [= <- <- <-]. left. tauto. }
  unfold step. rewrite (proj2 (String.eqb_neq n START)) by done. simpl.
  destruct (String.eqb_spec n "web_search") as [->|_].
  { unfold web_search, bind, next_node. rewrite invoke_eq. simpl. unfold ret.
    intros [= <- <- <-]. right. left. done. }
  destruct (String.eqb_spec n "retrieve") as [->|_].
  { unfold retrieve, bind, next_node. rewrite invoke_eq. simpl. unfold ret.
    intros [= <- <- <-]. do 2 right. left. done. }
  destruct (String.eqb_spec n "grade_documents") as [->|_].
  { unfold bind at 1. unfold grade_documents, bind at 1.
    destruct (adaptive_grade_documents_loop_ok (question s) (documents s) [] σ)
      as (kept & σ1 & ->).
    unfold ret at 1. unfold next_node. simpl. unfold bind, decide_to_generate.
    simpl. destruct kept; simpl; unfold ret; intros [= <- <- <-];
      do 3 right; left; tauto. }
  destruct (String.eqb_spec n "generate") as [->|_].
  2:{ destruct (String.eqb_spec n "rewrite_query") as [->|_].
      - unfold rewrite_query, bind, next_node. rewrite invoke_eq. simpl.
        unfold ret. intros [= <- <- <-]. do 4 right. left. done.
      - unfold raise. intros [=]. }
  intros Hstep. do 5 right. split; [done|]. revert Hstep.
  unfold bind at 1. unfold generate. unfold bind at 1. rewrite invoke_eq.
  unfold ret at 1. unfold bind.
  pose proof (adaptive_generate_routing
    (merge s {| set_question := None;
                set_generation := Some (fst (oracle (rag_chain (documents s) (question s)) (world σ)));
                set_documents := None |})) as Hroute.
  cbv zeta in Hroute. rewrite Hroute. clear Hroute. simpl.
  case_yes Hy1; [|unfold ret; intros [= <- <- <-]; tauto].
  case_yes Hy2; [|unfold ret; intros [= <- <- <-]; tauto].
  unfold ret. intros [= <- <- <-]. simpl. right. right. split; [done|].
  eexists (log σ), _, _. split_and!; [|exact Hy1|exact Hy2].
  by rewrite <- !app_assoc.
Qed.

Lemma adaptive_run_reaches_END limit :
  forall n s σ tr s' σ',
  n <> END ->
  run_nodes merge (workflow oracle) limit n s σ = (Ok (tr, s'), σ') ->
  (exists tr', tr = tr' ++ ["generate"; END])
  /\ (n <> START -> n <> "web_search" -> "web_search" ∉ tr)
  /\ exists evs r1 r2,
      log σ' = evs ++ [existT (rag_chain (documents s') (question s'))
                              (generation s');
                       existT (groundedness_grader (documents s')
                                                   (generation s')) r1;
                       existT (answer_grader (question s') (generation s')) r2]
      /\ binary_score r1 = "yes" /\ binary_score r2 = "yes".
Proof.
  induction limit as [|limit IH]; intros n s σ tr s' σ' Hn Hrun.
  { by rewrite run_nodes_limit_0 in Hrun. }
  rewrite run_nodes_unfold in Hrun by done.
  destruct (step merge (workflow oracle) n s σ) as [[[t s1]|e] σ1] eqn:Hstep;
    [|done].
  pose proof (adaptive_step_targets _ _ _ _ _ _ Hstep) as Ht.
  destruct (decide (t = END)) as [->|HtE].
  - rewrite run_nodes_at_END in Hrun. unfold ret in Hrun.
    injection Hrun as <- <- <-.
    destruct Ht as [[_ [?|?]]|[[_ ?]|[[_ ?]|[[_ [?|?]]|[[_ ?]|[-> Ht]]]]]];
      try done.
    destruct Ht as [?|[?|[_ Hlog]]]; try done.
    split; [by exists []|]. split; [|done].
    intros _ _ [H|[H|H%elem_of_nil]%elem_of_cons]%elem_of_cons; done.
  - destruct (run_nodes merge (workflow oracle) limit t s1 σ1)
      as [[[tr1 s2]|e] σ2] eqn:Hrest; [|done].
    injection Hrun as <- <- <-.
    destruct (IH _ _ _ _ _ _ HtE Hrest) as ([tr' ->] & Hweb & Hlog).
    split; [by exists (n :: tr')|]. split; [|done].
    intros HnS HnW. apply not_elem_of_cons. split; [done|].
    apply Hweb.
    + destruct Ht as [[? _]|[[_ ->]|[[_ ->]|[[_ [->| ->]]|[[_ ->]|[_ Ht]]]]]];
        try done.
      destruct Ht as [->|[->|[? _]]]; done.
    + destruct Ht as [[? _]|[[? _]|[[_ ->]|[[_ [->| ->]]|[[_ ->]|[_ Ht]]]]]];
        try done.
      destruct Ht as [->|[->|[? _]]]; done.
Qed.

(** X9: an Adaptive RAG run that returns entered [END] from [generate], and
    the last three calls of its log are the generation of the returned
    answer, a groundedness grade "yes" and an answer grade "yes" for it.
    The web is searched at most once, as the first node after [START]:
    an answer found not relevant afterwards is retried on the vector store
    only. *)
Theorem X9_adaptive_end_and_single_web_search limit s0 σ0 tr s σ :
  run merge (workflow oracle) limit START s0 σ0 = (Ok (tr, s), σ) ->
  (exists tr', tr = tr' ++ ["generate"; END])
  /\ (exists n rest, tr = START :: n :: rest /\ "web_search" ∉ rest)
  /\ exists evs r1 r2,
      log σ = evs ++ [existT (rag_chain (documents s) (question s))
                             (generation s);
                      existT (groundedness_grader (documents s)
                                                  (generation s)) r1;
                      existT (answer_grader (question s) (generation s)) r2]
      /\ binary_score r1 = "yes" /\ binary_score r2 = "yes".
Proof.
  intros Hrun. rewrite run_START in Hrun.
  assert (START <> END) as HSE by done.
  pose proof (adaptive_run_reaches_END (S limit) _ _ _ _ _ _ HSE Hrun)
    as (Htr & _ & Hlog).
  split; [done|]. split; [|done].
  rewrite run_nodes_unfold in Hrun by done.
  destruct (step merge (workflow oracle) START s0 σ0)
    as [[[t s1]|e] σ1] eqn:Hstep; [|done].
  destruct (run_nodes merge (workflow oracle) limit t s1 σ1)
    as [[[tr1 s2]|e] σ2] eqn:Hrest; [|done].
  injection Hrun as <- <- <-.
  pose proof (adaptive_step_targets _ _ _ _ _ _ Hstep) as Ht.
  assert (t = "web_search" \/ t = "retrieve") as Ht'.
  { destruct Ht as [[_ ?]|[[? _]|[[? _]|[[? _]|[[? _]|[? _]]]]]]; done. }
  clear Ht.
  destruct limit as [|limit].
  { rewrite run_nodes_limit_0 in Hrest; [done|]. by destruct Ht' as [->| ->]. }
  rewrite run_nodes_unfold in Hrest by (by destruct Ht' as [->| ->]).
  destruct (step merge (workflow oracle) t s1 σ1)
    as [[[t2 s3]|e] σ3] eqn:Hstep2; [|done].
  destruct (run_nodes merge (workflow oracle) limit t2 s3 σ3)
    as [[[tr2 s4]|e] σ4] eqn:Hrest2; [|done].
  injection Hrest as <- <- <-.
  exists t, tr2. split; [done|].
  pose proof (adaptive_step_targets _ _ _ _ _ _ Hstep2) as Ht2.
  assert (t2 = "generate" \/ t2 = "grade_documents") as Ht2'.
  { destruct Ht' as [->| ->];
      destruct Ht2 as [[? _]|[[? ?]|[[? ?]|[[? _]|[[? _]|[? _]]]]]]; try done;
      tauto. }
  eapply adaptive_run_reaches_END; [| exact Hrest2 | |];
    by destruct Ht2' as [->| ->].
Qed.
End AdaptiveRAGRun.

(** ** Supervisor: the conversation and the failures of a run *)

Section SupervisorMore.
Import Supervisor.
Context {World : Type} (oracle : forall c : Call, World -> Reply c * World).

Lemma member_cases member :
  member ∈ members -> member = "Researcher" \/ member = "Coder".
Proof.
  unfold members. rewrite !elem_of_cons, elem_of_nil. tauto.
Qed.

Lemma step_Supervisor_eq s σ :
  let c := supervisor_chain s in
  let v := fst (oracle c (world σ)) in
  let σ1 := {| world := snd (oracle c (world σ));
               log := log σ ++ [existT c v] |} in
  step merge (workflow oracle) "Supervisor" s σ
  = if existsb (String.eqb v) options_for_next
    then (Ok (if String.eqb v "FINISH" then END else v,
              {| messages := messages s ++ []; next := v |}), σ1)
    else (Raise (ValidationError v), σ1).
Proof.
  intros c v σ1.
  assert (RouteResponse_validate v
          = if existsb (String.eqb v) options_for_next
            then Ok {| route_next := v |} else Raise (ValidationError v))
    as Hval by reflexivity.
  destruct (existsb (String.eqb v) options_for_next) eqn:Hex;
    unfold step; simpl; unfold supervisor_node, supervisor_agent;
    unfold bind at 1; unfold bind at 1; unfold bind at 1; rewrite invoke_eq;
    change (fst (oracle (supervisor_chain s) (world σ))) with v;
    rewrite Hval; [|done].
  unfold ret at 1. unfold ret at 1. unfold bind.
  rewrite supervisor_routing.
  2:{ simpl. apply existsb_exists in Hex as (x & Hin & Heq).
      apply String.eqb_eq in Heq as ->. by apply list_elem_of_In. }
  done.
Qed.

Lemma step_member_eq member s σ :
  member ∈ members ->
  exists agent,
    (member, agent) ∈ [("Researcher", research_agent); ("Coder", coder_agent)]
    /\ let c := agent_invoke agent s in
       let σ1 := {| world := snd (oracle c (world σ));
                    log := log σ ++ [existT c (fst (oracle c (world σ)))] |} in
       step merge (workflow oracle) member s σ
       = match last (fst (oracle c (world σ))) with
         | Some m =>
             (Ok ("Supervisor",
                  {| messages := messages s
                                 ++ [HumanMessage (msg_content m) (Some member)];
                     next := "Supervisor" |}), σ1)
         | None => (Raise (IndexError "messages[-1]"), σ1)
         end.
Proof.
  intros [->| ->]%member_cases;
    [exists research_agent|exists coder_agent];
    (split; [set_solver|]); cbv zeta;
    unfold step; simpl; unfold bind at 1;
    [unfold research_node|unfold coder_node];
    (pose proof (agent_node_eq oracle) as Heq; cbv zeta in Heq; rewrite Heq;
     clear Heq; unfold last_item; by destruct (last _)).
Qed.

Lemma members_not_Supervisor : "Supervisor" ∉ members.
Proof. by intros [?|[?|?%elem_of_nil]%elem_of_cons]%elem_of_cons. Qed.

Lemma members_not_END : END ∉ members.
Proof. by intros [?|[?|?%elem_of_nil]%elem_of_cons]%elem_of_cons. Qed.

Lemma members_not_START : START ∉ members.
Proof. by intros [?|[?|?%elem_of_nil]%elem_of_cons]%elem_of_cons. Qed.

Lemma valid_next v :
  existsb (String.eqb v) options_for_next = true ->
  (v = "FINISH" /\ (if String.eqb v "FINISH" then END else v) = END)
  \/ (v ∈ members /\ (if String.eqb v "FINISH" then END else v) = v).
Proof.
  intros (x & Hin & Heq)%existsb_exists.
  apply String.eqb_eq in Heq as ->. apply list_elem_of_In in Hin.
  revert Hin. unfold options_for_next, members. simpl.
  rewrite !elem_of_cons, elem_of_nil.
  intros [->|[->|[->|[]]]]; simpl; rewrite ?elem_of_cons; tauto.
Qed.

Lemma run_messages limit :
  forall n s σ tr s' σ',
  n = "Supervisor" \/ n ∈ members ->
  run_nodes merge (workflow oracle) limit n s σ = (Ok (tr, s'), σ') ->
  exists added,
    messages s' = messages s ++ added
    /\ msg_name <$> added = Some <$> filter (.∈ members) tr
    /\ Forall (fun m => msg_type m = "human") added
    /\ next s' = "FINISH".
Proof.
  induction limit as [|limit IH]; intros n s σ tr s' σ' Hn.
  { rewrite run_nodes_limit_0; [done|].
    destruct Hn as [->|[->| ->]%member_cases]; done. }
  rewrite run_nodes_unfold by (destruct Hn as [->|[->| ->]%member_cases]; done).
  destruct Hn as [->|Hn].
  - pose proof (step_Supervisor_eq s σ) as Hs. cbv zeta in Hs. rewrite Hs.
    clear Hs.
    destruct (existsb _ options_for_next) eqn:Hex; [|done].
    apply valid_next in Hex as [[Hv ->]|[Hv ->]].
    + rewrite run_nodes_at_END. unfold ret. intros [= <- <- <-].
      exists []. simpl. by rewrite app_nil_r.
    + match goal with |- context [run_nodes _ _ limit ?t ?s1 ?σ1] =>
        destruct (run_nodes merge (workflow oracle) limit t s1 σ1)
          as [[[tr1 s2]|e] σ2] eqn:Hrest; [|done];
        destruct (IH t s1 σ1 tr1 s2 σ2 (or_intror Hv) Hrest)
          as (added & Hm & Hnames & Hhuman & Hnext)
      end.
      intros [= <- <- <-]. exists added. simpl in Hm.
      rewrite app_nil_r in Hm. by split_and!.
  - destruct (step_member_eq n s σ Hn) as (agent & _ & Hs). cbv zeta in Hs.
    rewrite Hs. clear Hs. destruct (last _) as [m|]; [|done].
    match goal with |- context [run_nodes _ _ limit ?t ?s1 ?σ1] =>
      destruct (run_nodes merge (workflow oracle) limit t s1 σ1)
        as [[[tr1 s2]|e] σ2] eqn:Hrest; [|done];
      destruct (IH t s1 σ1 tr1 s2 σ2 (or_introl eq_refl) Hrest)
        as (added & Hm & Hnames & Hhuman & Hnext)
    end.
    intros [= <- <- <-].
    exists (HumanMessage (msg_content m) (Some n) :: added). simpl in Hm.
    split_and!; try done.
    + by rewrite Hm, <- app_assoc.
    + rewrite filter_cons_True by done. rewrite !fmap_cons. by rewrite Hnames.
    + by constructor.
Qed.

(** X10: in a supervisor run that returns, the conversation only grows:
    the final [messages] are the initial ones followed by one message per
    visit of a member, in the order of the visits, each of type "human" and
    named after the member that produced it.  The supervisor itself adds
    no message, and the run ends with [next] equal to "FINISH". *)
Theorem X10_supervisor_messages_append_only limit s0 σ0 tr s σ :
  run merge (workflow oracle) limit START s0 σ0 = (Ok (tr, s), σ) ->
  exists added,
    messages s = messages s0 ++ added
    /\ msg_name <$> added = Some <$> filter (.∈ members) tr
    /\ Forall (fun m => msg_type m = "human") added
    /\ next s = "FINISH".
Proof.
  rewrite run_START.
  rewrite run_nodes_unfold by done. rewrite sup_step_START.
  destruct (run_nodes merge (workflow oracle) limit "Supervisor" s0 σ0)
    as [[[tr1 s2]|e] σ2] eqn:Hrest; [|done].
  intros [= <- <- <-].
  destruct (run_messages limit _ _ _ _ _ _ (or_introl eq_refl) Hrest)
    as (added & Hm & Hnames & Hhuman & Hnext).
  exists added. by split_and!.
Qed.

End SupervisorMore.

(** ** Plan-and-execute: failures, repetition and the final report *)

Section PlanExecuteMore.
Import PlanExecute.
Context {World : Type} (oracle : forall c : Call, World -> Reply c * World).

Lemma pe_step_execute_eq s σ :
  step merge (workflow oracle) "execute" s σ
  = match execute_step oracle s σ with
    | (Ok u, σ1) => (Ok ("replan", merge s u), σ1)
    | (Raise e, σ1) => (Raise e, σ1)
    end.
Proof.
  unfold step. simpl. unfold bind at 1.
  by destruct (execute_step oracle s σ) as [[u|e] σ1].
Qed.

(** X12: the planner's plan is not checked.  When the planner answers a
    plan without steps, the run calls nothing but the planner and fails in
    [execute] with the [IndexError] of [plan[0]], whatever the recursion
    limit (of at least three super-steps). *)
Theorem X12_empty_initial_plan_fails limit s σ :
  let c := planner [("user", input s)] in
  steps (fst (oracle c (world σ))) = [] ->
  fst (run merge (workflow oracle) (3 + limit) START s σ)
  = Raise (IndexError "plan[0]")
  /\ calls_made (run merge (workflow oracle) (3 + limit) START s) σ = [c].
Proof.
  intros c Hempty. change (3 + limit) with (S (S (S limit))).
  assert (run merge (workflow oracle) (S (S (S limit))) START s σ
          = (Raise (IndexError "plan[0]"),
             {| world := snd (oracle c (world σ));
                log := log σ ++ [existT c (fst (oracle c (world σ)))] |}))
    as Hrun.
  { rewrite run_START.
    rewrite run_nodes_unfold, pe_step_START by done.
    rewrite run_nodes_unfold by done.
    pose proof (pe_step_planner oracle s σ) as Hp. cbv zeta in Hp.
    rewrite Hp. fold c. rewrite Hempty.
    rewrite run_nodes_unfold by done. rewrite pe_step_execute_eq.
    by rewrite execute_step_eq. }
  split; [by rewrite Hrun|].
  erewrite calls_made_log; [|rewrite Hrun; reflexivity]. done.
Qed.

Lemma pe_step_replan_eq s σ :
  let c := replanner s in
  let u := match action (fst (oracle c (world σ))) with
           | ActResponse r =>
               {| set_plan := None; add_past_steps := [];
                  set_response := Some (response_text r) |}
           | ActPlan p =>
               match steps p with
               | [] => {| set_plan := None; add_past_steps := [];
                          set_response := Some "No more steps needed." |}
               | _ :: _ => {| set_plan := Some (steps p); add_past_steps := [];
                              set_response := None |}
               end
           end in
  step merge (workflow oracle) "replan" s σ
  = (Ok (match response (merge s u) with
         | Some r => if truthy r then "final_report" else "execute"
         | None => "execute"
         end, merge s u),
     {| world := snd (oracle c (world σ));
        log := log σ ++ [existT c (fst (oracle c (world σ)))] |}).
Proof.
  intros c u. unfold step. simpl. unfold bind at 1.
  pose proof (replan_step_eq oracle s σ) as Heq. cbv zeta in Heq. rewrite Heq.
  unfold bind. by rewrite replan_routing.
Qed.

Lemma execute_step_calls s σ :
  calls_made (execute_step oracle s) σ
  = match plan s with
    | Some (task :: rest) =>
        [agent_executor
           [("user", task_format
                       (String.concat newline (numbered 0 (task :: rest)))
                       task)]]
    | _ => []
    end.
Proof.
  pose proof (execute_step_eq oracle s σ) as Heq.
  destruct (plan s) as [[|task rest]|].
  - apply (calls_made_log _ _ []). rewrite Heq. symmetry. apply app_nil_r.
  - cbv zeta in Heq.
    erewrite calls_made_log; [|rewrite Heq; by destruct (last_item _ _)]. done.
  - apply (calls_made_log _ _ []). rewrite Heq. symmetry. apply app_nil_r.
Qed.

(** X13: [execute_step] leaves the plan as it is, and an empty response
    counts as no response.  When the replanner answers a [Response] whose
    text is empty, [replan] hands back to [execute] with the plan
    unchanged, and [execute] sends the agent the very task it sent
    before. *)
Theorem X13_empty_response_repeats_step s σ :
  action (fst (oracle (replanner s) (world σ)))
  = ActResponse {| response_text := "" |} ->
  exists s' σ',
    step merge (workflow oracle) "replan" s σ = (Ok ("execute", s'), σ')
    /\ plan s' = plan s
    /\ response s' = Some ""
    /\ calls_made (execute_step oracle s') σ'
       = calls_made (execute_step oracle s) σ.
Proof.
  intros Hact.
  pose proof (pe_step_replan_eq s σ) as Hs. cbv zeta in Hs.
  rewrite Hact in Hs. simpl in Hs.
  eexists _, _. split; [exact Hs|]. simpl. split; [done|]. split; [done|].
  by rewrite !execute_step_calls.
Qed.

Local Abbreviation joined_steps s :=
  (String.concat (newline +:+ newline) (report_entry <$> past_steps s)).

Lemma pe_step_final_report_eq s σ :
  let c := final_report (input s) (joined_steps s) in
  step merge (workflow oracle) "final_report" s σ
  = (Ok (END, {| input := input s; plan := plan s;
                 past_steps := past_steps s ++ [];
                 response := Some (fst (oracle c (world σ))) |}),
     {| world := snd (oracle c (world σ));
        log := log σ ++ [existT c (fst (oracle c (world σ)))] |}).
Proof.
  intros c. unfold step. simpl. unfold generate_final_report, bind at 1.
  unfold bind at 1. by rewrite invoke_eq.
Qed.

(** What one super-step does to [input] and [past_steps], and how [END]
    is entered. *)
Lemma pe_step_inv n s σ t s' σ' :
  step merge (workflow oracle) n s σ = (Ok (t, s'), σ') ->
  input s' = input s
  /\ (exists executed, past_steps s' = past_steps s ++ executed
                   /\ length executed = if decide (n = "execute") then 1 else 0)
  /\ (t = END ->
      n = "final_report"
      /\ exists r,
          response s' = Some r
          /\ log σ' = log σ ++ [existT (P := Reply)
                                  (final_report (input s') (joined_steps s')) r]).
Proof.
  destruct (String.eqb_spec n START) as [->|HnS].
  { rewrite pe_step_START. intros [= <- <- <-]. split; [done|].
    split; [|done]. exists []. by rewrite app_nil_r. }
  destruct (decide (n = "planner")) as [->|HnP].
  { pose proof (pe_step_planner oracle s σ) as Hp. cbv zeta in Hp. rewrite Hp.
    intros [= <- <- <-]. split; [done|]. split; [|done]. by exists []. }
  destruct (decide (n = "execute")) as [->|HnE].
  { rewrite pe_step_execute_eq, execute_step_eq.
    destruct (plan s) as [[|task rest]|]; try done. cbv zeta.
    destruct (last_item _ _) as [m|e]; [|done].
    intros [= <- <- <-]. split; [done|]. split; [|done].
    by eexists [_]. }
  destruct (decide (n = "replan")) as [->|HnR].
  { pose proof (pe_step_replan_eq s σ) as Hs. cbv zeta in Hs.
    match type of Hs with context [merge s ?u0] => set (u := u0) in * end.
    rewrite Hs. clear Hs. intros [= <- <- <-]. split; [done|]. split.
    - exists []. split; [|done]. subst u.
      destruct (action _) as [r|p]; [done|]. by destruct (steps p).
    - clearbody u. simpl.
      destruct (set_response u) as [r|];
        [destruct (truthy r)
        |destruct (response s) as [r|]; [destruct (truthy r)|]];
        intros [=]. }
  destruct (decide (n = "final_report")) as [->|HnF].
  { pose proof (pe_step_final_report_eq s σ) as Hs. cbv zeta in Hs. rewrite Hs.
    intros [= <- <- <-]. split; [done|]. split; [by exists []|].
    intros _. split; [done|]. eexists. split; [done|]. simpl.
    by rewrite app_nil_r. }
  unfold step. rewrite (proj2 (String.eqb_neq n START)) by done. simpl.
  rewrite (proj2 (String.eqb_neq n "planner")) by done.
  rewrite (proj2 (String.eqb_neq n "execute")) by done.
  rewrite (proj2 (String.eqb_neq n "replan")) by done.
  rewrite (proj2 (String.eqb_neq n "final_report")) by done.
  done.
Qed.

Lemma pe_run_inv limit :
  forall n s σ tr s' σ',
  n <> END ->
  run_nodes merge (workflow oracle) limit n s σ = (Ok (tr, s'), σ') ->
  (exists tr', tr = tr' ++ ["final_report"; END])
  /\ input s' = input s
  /\ (exists executed, past_steps s' = past_steps s ++ executed
                   /\ length executed = length (filter (.= "execute") tr))
  /\ exists evs r,
      response s' = Some r
      /\ log σ' = evs ++ [existT (P := Reply)
                            (final_report (input s) (joined_steps s')) r].
Proof.
  induction limit as [|limit IH]; intros n s σ tr s' σ' Hn Hrun.
  { by rewrite run_nodes_limit_0 in Hrun. }
  rewrite run_nodes_unfold in Hrun by done.
  destruct (step merge (workflow oracle) n s σ) as [[[t s1]|e] σ1] eqn:Hstep;
    [|done].
  apply pe_step_inv in Hstep as (Hin & (d & Hpast & Hlen) & Hend).
  destruct (decide (t = END)) as [->|Ht].
  - rewrite run_nodes_at_END in Hrun. unfold ret in Hrun.
    injection Hrun as <- <- <-.
    destruct (Hend eq_refl) as (-> & r & Hresp & Hlog).
    split; [by exists []|]. split; [done|]. split.
    + exists d. split; [done|]. rewrite Hlen. done.
    + exists (log σ), r. by rewrite <- Hin.
  - destruct (run_nodes merge (workflow oracle) limit t s1 σ1)
      as [[[tr1 s2]|e] σ2] eqn:Hrest; [|done].
    injection Hrun as <- <- <-.
    destruct (IH _ _ _ _ _ _ Ht Hrest)
      as ([tr' ->] & Hin' & (d' & Hpast' & Hlen') & evs & r & Hresp & Hlog).
    split; [by exists (n :: tr')|]. split; [congruence|]. split.
    + exists (d ++ d'). split; [by rewrite Hpast', Hpast, <- app_assoc|].
      rewrite length_app, Hlen, Hlen'.
      destruct (decide (n = "execute")) as [->|Hne].
      * by rewrite filter_cons_True.
      * by rewrite filter_cons_False.
    + exists evs, r. by rewrite <- Hin.
Qed.

(** X14: a plan-and-execute run that returns went through [final_report]
    last.  Its [input] is the one it started with; [past_steps] is the
    initial list with one pair appended per visit of [execute]; and the
    [response] it returns is the answer of the last call of the log, the
    final-report chain applied to the input and to all past steps joined
    in order -- the replanner's own response is overwritten. *)
Theorem X14_final_report_over_all_past_steps limit s0 σ0 tr s σ :
  run merge (workflow oracle) limit START s0 σ0 = (Ok (tr, s), σ) ->
  (exists tr', tr = tr' ++ ["final_report"; END])
  /\ input s = input s0
  /\ (exists executed, past_steps s = past_steps s0 ++ executed
                   /\ length executed = length (filter (.= "execute") tr))
  /\ exists evs r,
      response s = Some r
      /\ log σ = evs ++ [existT (P := Reply)
                           (final_report
                              (input s0)
                              (String.concat (newline +:+ newline)
                                             (report_entry <$> past_steps s)))
                           r].
Proof.
  intros Hrun. rewrite run_START in Hrun. by eapply pe_run_inv in Hrun.
Qed.
End PlanExecuteMore.

(** ** Cloud evaluation: the polling loop has no other exit *)

Section CloudEvaluationMore.
Import CloudEvaluation.
Context {World : Type} (oracle : forall c : Call, World -> Reply c * World).

Lemma poll_not_terminal evaluation_response_id fuel :
  forall status pbar σ,
  (forall j, j <= fuel ->
     terminal (fst (rounds oracle evaluation_response_id j status (world σ)))
     = false) ->
  exists σ' evs,
    poll oracle fuel evaluation_response_id status pbar σ = (Ok None, σ')
    /\ log σ' = log σ ++ evs
    /\ call_of <$> evs
       = concat (replicate fuel
                   [sleep 10; evaluations_get evaluation_response_id]).
Proof.
  induction fuel as [|fuel IH]; intros status pbar σ Hnone.
  - pose proof (Hnone 0 ltac:(lia)) as Hnow. simpl in Hnow.
    exists σ, []. simpl. rewrite terminal_cond, Hnow.
    by rewrite app_nil_r.
  - pose proof (Hnone 0 ltac:(lia)) as Hnow. simpl in Hnow.
    assert (forall j, j <= fuel ->
              terminal (fst (rounds oracle evaluation_response_id (S j) status
                                    (world σ))) = false) as Hlater
      by (intros j Hj; apply Hnone; lia).
    simpl in Hlater.
    destruct (oracle (sleep 10) (world σ)) as [[] w1] eqn:Hsleep.
    destruct (oracle (evaluations_get evaluation_response_id) w1)
      as [e w2] eqn:Hget.
    set (pbar1 := if String.eqb status "Running" && Nat.ltb (n pbar) 2
                  then update 1 pbar else pbar).
    set (σ2 := {| world := w2;
                  log := (log σ ++ [existT (sleep 10) ()])
                         ++ [existT (evaluations_get evaluation_response_id) e] |}).
    destruct (IH (CloudEvaluation.status e) pbar1 σ2 Hlater)
      as (σ' & evs & Hrun & Hlog & Hcalls).
    exists σ',
      (existT (sleep 10) ()
       :: existT (evaluations_get evaluation_response_id) e :: evs).
    split_and!.
    + simpl poll. rewrite terminal_cond, Hnow. cbn [negb]. cbv zeta.
      unfold bind at 1, invoke at 1. rewrite Hsleep.
      unfold bind at 1, invoke at 1. simpl world. rewrite Hget. exact Hrun.
    + rewrite Hlog. simpl. by rewrite <- !app_assoc.
    + by rewrite !fmap_cons, Hcalls.
Qed.

(** X15: [monitor_status] has no timeout and no exit but a terminal
    status.  While none of the first [fuel + 1] requests reports
    "Completed" or "Failed", the function is still polling after [fuel]
    rounds: it has made [fuel + 1] requests, slept ten seconds before each
    but the first, and raised nothing. *)
Theorem X15_monitor_status_polls_until_terminal evaluation_response_id fuel σ :
  (forall j, j <= fuel ->
     terminal (fst (observe oracle evaluation_response_id j (world σ)))
     = false) ->
  fst (monitor_status oracle fuel evaluation_response_id σ) = Ok None
  /\ calls_made (monitor_status oracle fuel evaluation_response_id) σ
     = evaluations_get evaluation_response_id
       :: concat (replicate fuel
                    [sleep 10; evaluations_get evaluation_response_id]).
Proof.
  intros Hnone. unfold observe in Hnone.
  assert (exists σ' evs,
            monitor_status oracle fuel evaluation_response_id σ = (Ok None, σ')
            /\ log σ' = log σ ++ evs
            /\ call_of <$> evs
               = evaluations_get evaluation_response_id
                 :: concat (replicate fuel
                      [sleep 10; evaluations_get evaluation_response_id]))
    as (σ' & evs & Hrun & Hlog & Hcalls).
  { unfold monitor_status. unfold bind at 1. rewrite invoke_eq.
    destruct (oracle (evaluations_get evaluation_response_id) (world σ))
      as [e w1].
    simpl fst in *. simpl snd in *.
    set (pbar0 := if String.eqb (status e) "Queued"
                  then update 1 {| total := 3; n := 0 |}
                  else {| total := 3; n := 0 |}).
    set (σ1 := {| world := w1;
                  log := log σ
                         ++ [existT (evaluations_get evaluation_response_id) e] |}).
    destruct (poll_not_terminal evaluation_response_id fuel (status e) pbar0 σ1
                Hnone) as (σ' & evs & Hrun & Hlog & Hcalls).
    exists σ', (existT (evaluations_get evaluation_response_id) e :: evs).
    unfold bind. rewrite Hrun. split_and!; [done| |by rewrite fmap_cons, Hcalls].
    rewrite Hlog. simpl. by rewrite <- app_assoc. }
  split; [by rewrite Hrun|].
  erewrite calls_made_log; [|rewrite Hrun; exact Hlog]. done.
Qed.

End CloudEvaluationMore.

(** ** The further facts on scripted runs *)

(** X2 on a scripted step: the first answer is graded as a hallucination,
    and the retry sends the generator the same documents and question. *)
Lemma X2_witness :
  let σ0 := mkSigma ["first"; "no"; "second"] [] in
  match step SelfRAG.merge (SelfRAG.workflow Scenarios.selfrag_oracle)
             "generate" Scenarios.selfrag_state σ0 with
  | (Ok (t, s'), σ') =>
      t = "generate"
      /\ SelfRAG.generation s' = "first"
      /\ calls_made (SelfRAG.generate Scenarios.selfrag_oracle s') σ'
         = [SelfRAG.rag_chain [Scenarios.doc_a; Scenarios.doc_b]
                              "What is AutoGen?"]
  | (Raise _, _) => False
  end.
Proof.
  cbv zeta.
  pose proof (X2_hallucination_retry_repeats_call Scenarios.selfrag_oracle
                Scenarios.selfrag_state
                (mkSigma ["first"; "no"; "second"] []) _ _ eq_refl)
    as (_ & _ & _ & Hretry).
  split; [reflexivity|]. split; [reflexivity|]. exact Hretry.
Defined.

(** X3 with a grader that never answers "yes": the run stops at the
    recursion limit. *)
Lemma X3_witness :
  fst (run SelfRAG.merge (SelfRAG.workflow Scenarios.selfrag_never_relevant)
           25 START Scenarios.selfrag_state (mkSigma tt []))
  = Raise GraphRecursionError.
Proof.
  apply (X3_no_relevant_document_never_ends Scenarios.selfrag_never_relevant).
  intros q d w. simpl. discriminate.
Defined.

(** X5 on scripted scores: groundedness 3 regenerates, then groundedness 4
    with relevance 5 ends the run. *)
Lemma X5_witness :
  let σ0 := mkSigma [Finite 3; Finite 4; Finite 5] [] in
  match run AzureSelfRAG.merge
            (AzureSelfRAG.workflow Scenarios.azure_oracle Scenarios.azure_config)
            10 START Scenarios.azure_state σ0 with
  | (Ok (tr, s), σ) =>
      tr = [START; "retrieve"; "grade_documents"; "generate"; "generate"; END]
      /\ exists evs r1 r2 q1 q2,
          log σ
          = evs ++ [existT (AzureSelfRAG.rag_chain (AzureSelfRAG.documents s)
                                                   (AzureSelfRAG.question s))
                           (AzureSelfRAG.generation s);
                    existT (AzureSelfRAG.GroundednessEvaluator
                              Scenarios.azure_config
                              (ContextDocs (AzureSelfRAG.documents s))
                              (AzureSelfRAG.generation s)) r1;
                    existT (AzureSelfRAG.RelevanceEvaluator
                              Scenarios.azure_config (AzureSelfRAG.question s)
                              (AzureSelfRAG.generation s)) r2]
          /\ AzureSelfRAG.groundedness r1 = Finite q1 /\ (4 <= q1)%Q
          /\ AzureSelfRAG.relevance r2 = Finite q2 /\ (4 <= q2)%Q
  | (Raise _, _) => False
  end.
Proof.
  cbv zeta.
  pose proof (X5_azure_end_needs_both_scores Scenarios.azure_oracle
                Scenarios.azure_config 10 Scenarios.azure_state
                (mkSigma [Finite 3; Finite 4; Finite 5] []) _ _ _ eq_refl)
    as [_ Hlog].
  split; [reflexivity|]. exact Hlog.
Defined.

(** X8 with a router that answers "web_search". *)
Lemma X8_witness :
  exists σ',
    iterate AdaptiveRAG.merge (AdaptiveRAG.workflow Scenarios.adaptive_oracle)
            2 START Scenarios.adaptive_state (mkSigma ["web_search"] [])
    = (Ok ("generate",
           {| AdaptiveRAG.question := "Who is Satya Nadella?";
              AdaptiveRAG.generation := "";
              AdaptiveRAG.documents :=
                [{| page_content := "Satya Nadella is the CEO";
                    metadata := [("source", "https://example.com/ceo")] |}] |}),
       σ')
    /\ call_of <$> log σ'
       = [AdaptiveRAG.question_router "Who is Satya Nadella?";
          AdaptiveRAG.web_search_tool "Who is Satya Nadella?"].
Proof.
  destruct (X8_adaptive_web_route Scenarios.adaptive_oracle
              Scenarios.adaptive_state (mkSigma ["web_search"] []) eq_refl)
    as (σ' & Hrun & Hlog & _).
  exists σ'. split; [exact Hrun|]. by rewrite Hlog.
Defined.

(** X9 on a scripted run: routed to the web, the first answer is grounded
    but not relevant; the rewritten question goes to the vector store, and
    the second answer passes both grades. *)
Lemma X9_witness :
  let σ0 := mkSigma ["web_search"; "yes"; "no"; "yes"; "no"; "yes"; "yes"] [] in
  match run AdaptiveRAG.merge (AdaptiveRAG.workflow Scenarios.adaptive_oracle)
            12 START Scenarios.adaptive_state σ0 with
  | (Ok (tr, s), σ) =>
      tr = [START; "web_search"; "generate"; "rewrite_query"; "retrieve";
            "grade_documents"; "generate"; END]
      /\ exists n rest, tr = START :: n :: rest /\ "web_search" ∉ rest
  | (Raise _, _) => False
  end.
Proof.
  cbv zeta.
  pose proof (X9_adaptive_end_and_single_web_search Scenarios.adaptive_oracle
                12 Scenarios.adaptive_state
                (mkSigma ["web_search"; "yes"; "no"; "yes"; "no"; "yes"; "yes"]
                         [])
                _ _ _ eq_refl) as (_ & Hweb & _).
  split; [reflexivity|]. exact Hweb.
Defined.

(** X10 on a scripted run: researcher, coder, finish. *)
Lemma X10_witness :
  let σ0 := mkSigma ["Researcher"; "Coder"; "FINISH"] [] in
  match run Supervisor.merge (Supervisor.workflow Scenarios.supervisor_oracle)
            10 START Scenarios.supervisor_state σ0 with
  | (Ok (tr, s), σ) =>
      Supervisor.messages s
      = [HumanMessage "plot the stock price" None;
         HumanMessage "done" (Some "Researcher");
         HumanMessage "done" (Some "Coder")]
      /\ exists added,
          Supervisor.messages s
          = Supervisor.messages Scenarios.supervisor_state ++ added
          /\ msg_name <$> added
             = Some <$> filter (.∈ Supervisor.members) tr
          /\ Forall (fun m => msg_type m = "human") added
          /\ Supervisor.next s = "FINISH"
  | (Raise _, _) => False
  end.
Proof.
  cbv zeta.
  pose proof (X10_supervisor_messages_append_only Scenarios.supervisor_oracle
                10 Scenarios.supervisor_state
                (mkSigma ["Researcher"; "Coder"; "FINISH"] [])
                _ _ _ eq_refl) as Hadded.
  split; [reflexivity|]. exact Hadded.
Defined.


(** X12 with a planner that plans nothing. *)
Lemma X12_witness :
  fst (run PlanExecute.merge (PlanExecute.workflow Scenarios.empty_plan_oracle)
           (3 + 7) START Scenarios.plan_state (mkSigma tt []))
  = Raise (IndexError "plan[0]")
  /\ calls_made (run PlanExecute.merge
                     (PlanExecute.workflow Scenarios.empty_plan_oracle)
                     (3 + 7) START Scenarios.plan_state) (mkSigma tt [])
     = [PlanExecute.planner [("user", "compare the frameworks")]].
Proof.
  apply (X12_empty_initial_plan_fails Scenarios.empty_plan_oracle 7
           Scenarios.plan_state (mkSigma tt [])).
  reflexivity.
Defined.

(** X13 with a replanner that answers an empty response. *)
Lemma X13_witness :
  let s := {| PlanExecute.input := "compare the frameworks";
              PlanExecute.plan := Some ["search"; "summarise"];
              PlanExecute.past_steps := [("search", "found")];
              PlanExecute.response := None |} in
  let σ0 := mkSigma [PlanExecute.ActResponse (PlanExecute.mkResponse "")] [] in
  exists s' σ',
    step PlanExecute.merge (PlanExecute.workflow Scenarios.plan_oracle)
         "replan" s σ0 = (Ok ("execute", s'), σ')
    /\ PlanExecute.plan s' = Some ["search"; "summarise"]
    /\ PlanExecute.response s' = Some ""
    /\ calls_made (PlanExecute.execute_step Scenarios.plan_oracle s') σ'
       = calls_made (PlanExecute.execute_step Scenarios.plan_oracle s) σ0.
Proof.
  cbv zeta.
  apply (X13_empty_response_repeats_step Scenarios.plan_oracle
           {| PlanExecute.input := "compare the frameworks";
              PlanExecute.plan := Some ["search"; "summarise"];
              PlanExecute.past_steps := [("search", "found")];
              PlanExecute.response := None |}
           (mkSigma [PlanExecute.ActResponse (PlanExecute.mkResponse "")] [])).
  reflexivity.
Defined.

(** X14 on a scripted run: two steps are executed, then the replanner
    answers and the report is written over both. *)
Lemma X14_witness :
  let σ0 := mkSigma [PlanExecute.ActPlan (PlanExecute.mkPlan ["summarise"])] [] in
  match run PlanExecute.merge (PlanExecute.workflow Scenarios.plan_oracle)
            10 START Scenarios.plan_state σ0 with
  | (Ok (tr, s), σ) =>
      PlanExecute.past_steps s = [("search", "found"); ("summarise", "found")]
      /\ PlanExecute.response s = Some "report"
      /\ exists evs r,
          PlanExecute.response s = Some r
          /\ log σ
             = evs ++ [existT (P := PlanExecute.Reply)
                         (PlanExecute.final_report
                            (PlanExecute.input Scenarios.plan_state)
                            (String.concat (newline +:+ newline)
                               (PlanExecute.report_entry
                                  <$> PlanExecute.past_steps s)))
                         r]
  | (Raise _, _) => False
  end.
Proof.
  cbv zeta.
  pose proof (X14_final_report_over_all_past_steps Scenarios.plan_oracle
                10 Scenarios.plan_state
                (mkSigma [PlanExecute.ActPlan (PlanExecute.mkPlan ["summarise"])]
                         [])
                _ _ _ eq_refl) as (_ & _ & _ & Hreport).
  split; [reflexivity|]. split; [reflexivity|]. exact Hreport.
Defined.

(** X15 on scripted statuses: three requests report "Running". *)
Lemma X15_witness :
  fst (CloudEvaluation.monitor_status Scenarios.status_oracle 2 "eval-3"
         (mkSigma ["Running"; "Running"; "Running"; "Completed"] []))
  = Ok None
  /\ calls_made (CloudEvaluation.monitor_status Scenarios.status_oracle 2
                   "eval-3")
       (mkSigma ["Running"; "Running"; "Running"; "Completed"] [])
     = [CloudEvaluation.evaluations_get "eval-3";
        CloudEvaluation.sleep 10; CloudEvaluation.evaluations_get "eval-3";
        CloudEvaluation.sleep 10; CloudEvaluation.evaluations_get "eval-3"].
Proof.
  apply (X15_monitor_status_polls_until_terminal Scenarios.status_oracle
           "eval-3" 2
           (mkSigma ["Running"; "Running"; "Running"; "Completed"] [])).
  intros j Hj. destruct j as [|[|[|j]]]; [reflexivity..|lia].
Defined.
